(** * SmoothMQ: the SQS protocol adapter over the queue engine

    A shallow embedding of the [sqs] package (the JSON/1.0 protocol
    adapter: [authMiddleware], [Action] and the eight operation handlers)
    together with the Go library functions the handlers call, the wire
    structs of [models.go], and the [models.Queue] engine interface the
    handlers are written against; of the handlers of the [dashboard]
    package, written against the same interface; and of
    [createOrGetQueue] of the client test.

    Go values are represented as follows.
    - [string] is a Go string (a byte sequence); [list byte] is [[]byte];
      the conversions [[]byte(s)] and [string(b)] are
      [list_byte_of_string] and [string_of_list_byte].
    - [int], [int64] are [Z]; the adapter does no arithmetic on them,
      and the one sum of the dashboard wraps around at 64 bits.
    - [map[string]T] is [gmap string T].  The order in which a [range]
      loop visits a map is chosen by the Go runtime; it is the [range]
      field of the [GoRuntime] class, constrained only to enumerate the
      map.
    - a handler is a function from the engine state to the new engine
      state and either a Go [error] or the struct handed to [c.JSON]. *)

From Stdlib Require Import ZArith List String Ascii Lia.
From Stdlib Require Import DecimalString DecimalPos DecimalZ.
From Stdlib.Strings Require Import Byte.
From stdpp Require Import base option gmap strings list.

Open Scope Z_scope.

(** ** Go library functions used by the adapter *)

(** [strings.Split(s, sep)] for a one-character separator: the
    substrings between the occurrences of [sep]; never the empty list. *)
Fixpoint strings_Split (s : string) (sep : ascii) : list string :=
  match s with
  | EmptyString => [EmptyString]
  | String c s' =>
      if Ascii.eqb c sep then EmptyString :: strings_Split s' sep
      else match strings_Split s' sep with
           | t :: ts => String c t :: ts
           | [] => [String c EmptyString]
           end
  end.

(** [strings.HasSuffix(s, suffix)]:
    [len(s) >= len(suffix) && s[len(s)-len(suffix):] == suffix]. *)
Definition strings_HasSuffix (s suffix : string) : bool :=
  (String.length suffix <=? String.length s)%nat &&
  String.eqb
    (substring (String.length s - String.length suffix)
               (String.length suffix) s)
    suffix.

(** [fmt.Sprintf("%d", n)]: the decimal numeral of [n], with a leading
    minus sign when negative. *)
Definition fmt_Sprintf_d (n : Z) : string :=
  NilZero.string_of_int (Z.to_int n).

(** [strconv.ParseInt(s, 10, 64)]: an optional sign followed by one or
    more decimal digits, the value within the int64 range. *)
Definition digit_of_ascii (c : ascii) : option Z :=
  let n := Z.of_N (N_of_ascii c) in
  if (48 <=? n) && (n <=? 57) then Some (n - 48) else None.

Fixpoint parse_digits (acc : Z) (s : string) : option Z :=
  match s with
  | EmptyString => Some acc
  | String c s' =>
      match digit_of_ascii c with
      | Some d => parse_digits (10 * acc + d) s'
      | None => None
      end
  end.

Definition int64_min : Z := - 2 ^ 63.
Definition int64_max : Z := 2 ^ 63 - 1.

Definition strconv_ParseInt (s : string) : option Z :=
  let '(neg, digits) :=
    match s with
    | String "-" r => (true, r)
    | String "+" r => (false, r)
    | _ => (false, s)
    end in
  match digits with
  | EmptyString => None
  | _ =>
      match parse_digits 0 digits with
      | Some v =>
          let n := if neg then - v else v in
          if (int64_min <=? n) && (n <=? int64_max) then Some n else None
      | None => None
      end
  end.

(** *** [encoding/hex] *)

Definition hextable : string := "0123456789abcdef".

Definition hex_digit (n : Z) : ascii :=
  match String.get (Z.to_nat n) hextable with
  | Some c => c
  | None => "0"%char
  end.

Definition Z_of_byte (b : byte) : Z := Z.of_N (Byte.to_N b).

Definition byte_of_Z (z : Z) : byte :=
  match Byte.of_N (Z.to_N (z mod 256)) with
  | Some b => b
  | None => x00
  end.

(** [hex.EncodeToString]: two lowercase digits per byte, high nibble
    first. *)
Fixpoint hex_EncodeToString (src : list byte) : string :=
  match src with
  | [] => EmptyString
  | b :: rest =>
      String (hex_digit (Z.shiftr (Z_of_byte b) 4))
        (String (hex_digit (Z.land (Z_of_byte b) 15))
           (hex_EncodeToString rest))
  end.

(** *** [crypto/md5] (RFC 1321) on 32-bit words kept in [Z] *)

Definition mask32 : Z := 0xFFFFFFFF.
Definition add32 (a b : Z) : Z := Z.land (a + b) mask32.
Definition not32 (a : Z) : Z := Z.lxor a mask32.
Definition rotl32 (x n : Z) : Z :=
  Z.lor (Z.land (Z.shiftl x n) mask32) (Z.shiftr x (32 - n)).

Definition md5_K : list Z :=
  [ 0xd76aa478; 0xe8c7b756; 0x242070db; 0xc1bdceee;
    0xf57c0faf; 0x4787c62a; 0xa8304613; 0xfd469501;
    0x698098d8; 0x8b44f7af; 0xffff5bb1; 0x895cd7be;
    0x6b901122; 0xfd987193; 0xa679438e; 0x49b40821;
    0xf61e2562; 0xc040b340; 0x265e5a51; 0xe9b6c7aa;
    0xd62f105d; 0x02441453; 0xd8a1e681; 0xe7d3fbc8;
    0x21e1cde6; 0xc33707d6; 0xf4d50d87; 0x455a14ed;
    0xa9e3e905; 0xfcefa3f8; 0x676f02d9; 0x8d2a4c8a;
    0xfffa3942; 0x8771f681; 0x6d9d6122; 0xfde5380c;
    0xa4beea44; 0x4bdecfa9; 0xf6bb4b60; 0xbebfbc70;
    0x289b7ec6; 0xeaa127fa; 0xd4ef3085; 0x04881d05;
    0xd9d4d039; 0xe6db99e5; 0x1fa27cf8; 0xc4ac5665;
    0xf4292244; 0x432aff97; 0xab9423a7; 0xfc93a039;
    0x655b59c3; 0x8f0ccc92; 0xffeff47d; 0x85845dd1;
    0x6fa87e4f; 0xfe2ce6e0; 0xa3014314; 0x4e0811a1;
    0xf7537e82; 0xbd3af235; 0x2ad7d2bb; 0xeb86d391 ].

Definition md5_S : list Z :=
  [ 7; 12; 17; 22; 7; 12; 17; 22; 7; 12; 17; 22; 7; 12; 17; 22;
    5; 9; 14; 20; 5; 9; 14; 20; 5; 9; 14; 20; 5; 9; 14; 20;
    4; 11; 16; 23; 4; 11; 16; 23; 4; 11; 16; 23; 4; 11; 16; 23;
    6; 10; 15; 21; 6; 10; 15; 21; 6; 10; 15; 21; 6; 10; 15; 21 ].

Definition md5_state : Type := (Z * Z * Z * Z)%type.

Definition md5_init : md5_state :=
  (0x67452301, 0xefcdab89, 0x98badcfe, 0x10325476).

Definition md5_round (M : list Z) (st : md5_state) (i : nat) : md5_state :=
  let '(a, b, c, d) := st in
  let iz := Z.of_nat i in
  let '(f, g) :=
    if iz <? 16 then
      (Z.lor (Z.land b c) (Z.land (not32 b) d), iz)
    else if iz <? 32 then
      (Z.lor (Z.land d b) (Z.land (not32 d) c), (5 * iz + 1) mod 16)
    else if iz <? 48 then
      (Z.lxor (Z.lxor b c) d, (3 * iz + 5) mod 16)
    else
      (Z.lxor c (Z.lor b (not32 d)), (7 * iz) mod 16) in
  let f' := add32 (add32 (add32 f a) (nth i md5_K 0)) (nth (Z.to_nat g) M 0) in
  (d, add32 b (rotl32 f' (nth i md5_S 0)), b, c).

(** Little-endian decoding of the 32-bit words of a block. *)
Fixpoint le_words (bs : list byte) : list Z :=
  match bs with
  | b0 :: b1 :: b2 :: b3 :: rest =>
      Z.lor (Z_of_byte b0)
        (Z.lor (Z.shiftl (Z_of_byte b1) 8)
           (Z.lor (Z.shiftl (Z_of_byte b2) 16) (Z.shiftl (Z_of_byte b3) 24)))
      :: le_words rest
  | _ => []
  end.

Definition le_bytes (n : nat) (w : Z) : list byte :=
  List.map (fun k => byte_of_Z (Z.shiftr w (8 * Z.of_nat k))) (seq 0 n).

Definition md5_block (st : md5_state) (block : list byte) : md5_state :=
  let M := le_words block in
  let '(a, b, c, d) := st in
  let '(a', b', c', d') := fold_left (md5_round M) (seq 0 64) st in
  (add32 a a', add32 b b', add32 c c', add32 d d').

Definition md5_pad (msg : list byte) : list byte :=
  let len := Z.of_nat (List.length msg) in
  let zeros := Z.to_nat ((55 - len) mod 64) in
  msg ++ x80 :: repeat x00 zeros ++ le_bytes 8 ((8 * len) mod 2 ^ 64).

(** The blocks of the padded message, 64 bytes each, in order. *)
Definition md5_blocks (st : md5_state) (padded : list byte) : md5_state :=
  fold_left
    (fun st' i => md5_block st' (firstn 64 (skipn (64 * i) padded)))
    (seq 0 (List.length padded / 64)) st.

(** The 16-byte digest of a message. *)
Definition md5_digest (msg : list byte) : list byte :=
  let '(a, b, c, d) := md5_blocks md5_init (md5_pad msg) in
  le_bytes 4 a ++ le_bytes 4 b ++ le_bytes 4 c ++ le_bytes 4 d.

(** The [hash.Hash] returned by [md5.New()]: its state is the bytes
    written since the last [Reset]. *)
Definition Hasher : Type := list byte.
Definition md5_New : Hasher := [].
Definition Hasher_Reset (h : Hasher) : Hasher := [].
Definition Hasher_Write (h : Hasher) (p : list byte) : Hasher := h ++ p.
(** [h.Sum(nil)] *)
Definition Hasher_Sum (h : Hasher) : list byte := md5_digest h.

(** *** [encoding/base64], [StdEncoding] (RFC 4648, with padding) *)

Definition encodeStd : string :=
  "ABCDEFGHIJKLMNOPQRSTUVWXYZabcdefghijklmnopqrstuvwxyz0123456789+/".

Definition padChar : ascii := "="%char.

Definition b64_char (n : Z) : ascii :=
  match String.get (Z.to_nat n) encodeStd with
  | Some c => c
  | None => padChar
  end.

Definition b64_value (c : ascii) : option Z :=
  let n := Z.of_N (N_of_ascii c) in
  if (65 <=? n) && (n <=? 90) then Some (n - 65)
  else if (97 <=? n) && (n <=? 122) then Some (n - 71)
  else if (48 <=? n) && (n <=? 57) then Some (n + 4)
  else if n =? 43 then Some 62
  else if n =? 47 then Some 63
  else None.

(** [StdEncoding.EncodeToString]: three bytes become four characters;
    a final group of one or two bytes is padded with [=]. *)
Fixpoint base64_EncodeToString (src : list byte) : string :=
  match src with
  | [] => EmptyString
  | [a] =>
      let v := Z_of_byte a * 65536 in
      String (b64_char (v / 262144))
        (String (b64_char (v / 4096 mod 64))
           (String padChar (String padChar EmptyString)))
  | [a; b] =>
      let v := Z_of_byte a * 65536 + Z_of_byte b * 256 in
      String (b64_char (v / 262144))
        (String (b64_char (v / 4096 mod 64))
           (String (b64_char (v / 64 mod 64)) (String padChar EmptyString)))
  | a :: b :: c :: rest =>
      let v := Z_of_byte a * 65536 + Z_of_byte b * 256 + Z_of_byte c in
      String (b64_char (v / 262144))
        (String (b64_char (v / 4096 mod 64))
           (String (b64_char (v / 64 mod 64))
              (String (b64_char (v mod 64)) (base64_EncodeToString rest))))
  end.

Definition is_newline (c : ascii) : bool :=
  Ascii.eqb c "010"%char || Ascii.eqb c "013"%char.

Fixpoint strip_newlines (s : string) : list ascii :=
  match s with
  | EmptyString => []
  | String c s' =>
      if is_newline c then strip_newlines s' else c :: strip_newlines s'
  end.

(** One four-character quantum at a time; padding is accepted only in
    the last quantum, and the low bits of a padded quantum are
    discarded without a check (the encoding is not [Strict]). *)
Fixpoint decode_quanta (cs : list ascii) : option (list byte) :=
  match cs with
  | [] => Some []
  | c1 :: c2 :: c3 :: c4 :: rest =>
      match b64_value c1, b64_value c2 with
      | Some v1, Some v2 =>
          if Ascii.eqb c4 padChar then
            match rest with
            | [] =>
                if Ascii.eqb c3 padChar then
                  Some [byte_of_Z ((v1 * 64 + v2) / 16)]
                else
                  match b64_value c3 with
                  | Some v3 =>
                      let w := (v1 * 64 + v2) * 64 + v3 in
                      Some [byte_of_Z (w / 1024); byte_of_Z (w / 4 mod 256)]
                  | None => None
                  end
            | _ :: _ => None
            end
          else
            match b64_value c3, b64_value c4, decode_quanta rest with
            | Some v3, Some v4, Some tail =>
                let w := ((v1 * 64 + v2) * 64 + v3) * 64 + v4 in
                Some (byte_of_Z (w / 65536) :: byte_of_Z (w / 256 mod 256)
                        :: byte_of_Z (w mod 256) :: tail)
            | _, _, _ => None
            end
      | _, _ => None
      end
  | _ => None
  end.

(** [StdEncoding.DecodeString]: [None] stands for a [CorruptInputError];
    carriage returns and line feeds in the input are ignored. *)
Definition base64_DecodeString (s : string) : option (list byte) :=
  decode_quanta (strip_newlines s).

(** [strings.HasPrefix(s, prefix)] *)
Fixpoint strings_HasPrefix (s prefix : string) {struct prefix} : bool :=
  match prefix, s with
  | EmptyString, _ => true
  | String p prefix', String c s' =>
      Ascii.eqb c p && strings_HasPrefix s' prefix'
  | String _ _, EmptyString => false
  end.

(** [strings.Contains(s, substr)]: [substr] occurs in [s], at its start
    or further on. *)
Fixpoint strings_Contains (s substr : string) : bool :=
  strings_HasPrefix s substr ||
  match s with
  | EmptyString => false
  | String _ s' => strings_Contains s' substr
  end.

(** *** [unicode/utf8] and [unicode.IsSpace] *)

Definition RuneError : Z := 0xFFFD.
Definition RuneSelf : Z := 0x80.
Definition UTFMax : nat := 4.

Definition byte_value (c : ascii) : Z := Z.of_N (N_of_ascii c).

(** The table [first] with its [acceptRanges]: for a leading byte, the
    length of the sequence and the bounds of its second byte; [None] for
    a byte that starts no sequence. *)
Definition utf8_first (b0 : Z) : option (nat * Z * Z) :=
  if (0xC2 <=? b0) && (b0 <=? 0xDF) then Some (2%nat, 0x80, 0xBF)
  else if b0 =? 0xE0 then Some (3%nat, 0xA0, 0xBF)
  else if (0xE1 <=? b0) && (b0 <=? 0xEC) then Some (3%nat, 0x80, 0xBF)
  else if b0 =? 0xED then Some (3%nat, 0x80, 0x9F)
  else if (0xEE <=? b0) && (b0 <=? 0xEF) then Some (3%nat, 0x80, 0xBF)
  else if b0 =? 0xF0 then Some (4%nat, 0x90, 0xBF)
  else if (0xF1 <=? b0) && (b0 <=? 0xF3) then Some (4%nat, 0x80, 0xBF)
  else if b0 =? 0xF4 then Some (4%nat, 0x80, 0x8F)
  else None.

(** A continuation byte, [locb <= b <= hicb]. *)
Definition utf8_continuation (b : Z) : bool := (0x80 <=? b) && (b <=? 0xBF).

(** [utf8.DecodeRuneInString]: the first rune of [s] and its width in
    bytes; [(RuneError, 1)] for an encoding that is not valid, and
    [(RuneError, 0)] for the empty string. *)
Definition utf8_DecodeRuneInString (s : string) : Z * nat :=
  match s with
  | EmptyString => (RuneError, 0%nat)
  | String c0 s1 =>
      let b0 := byte_value c0 in
      if b0 <? RuneSelf then (b0, 1%nat)
      else
        match utf8_first b0, s1 with
        | Some (sz, lo, hi), String c1 s2 =>
            let b1 := byte_value c1 in
            if (b1 <? lo) || (hi <? b1) then (RuneError, 1%nat)
            else if (sz <=? 2)%nat then
              (Z.lor (Z.shiftl (Z.land b0 0x1F) 6) (Z.land b1 0x3F), 2%nat)
            else
              match s2 with
              | String c2 s3 =>
                  let b2 := byte_value c2 in
                  if negb (utf8_continuation b2) then (RuneError, 1%nat)
                  else if (sz <=? 3)%nat then
                    (Z.lor (Z.shiftl (Z.land b0 0x0F) 12)
                       (Z.lor (Z.shiftl (Z.land b1 0x3F) 6) (Z.land b2 0x3F)),
                     3%nat)
                  else
                    match s3 with
                    | String c3 _ =>
                        let b3 := byte_value c3 in
                        if negb (utf8_continuation b3) then (RuneError, 1%nat)
                        else
                          (Z.lor (Z.shiftl (Z.land b0 0x07) 18)
                             (Z.lor (Z.shiftl (Z.land b1 0x3F) 12)
                                (Z.lor (Z.shiftl (Z.land b2 0x3F) 6)
                                   (Z.land b3 0x3F))),
                           4%nat)
                    | EmptyString => (RuneError, 1%nat)
                    end
              | EmptyString => (RuneError, 1%nat)
              end
        | _, _ => (RuneError, 1%nat)
        end
  end.

(** [utf8.RuneStart] *)
Definition utf8_RuneStart (b : Z) : bool := negb (Z.land b 0xC0 =? 0x80).

Definition byte_at (s : string) (i : Z) : Z :=
  match String.get (Z.to_nat i) s with
  | Some c => byte_value c
  | None => 0
  end.

(** The loop [for start--; start >= lim; start-- { if RuneStart(s[start])
    { break } }] of [DecodeLastRuneInString], [count] positions from
    [start] downwards: the value of [start] when it ends. *)
Fixpoint find_RuneStart (count : nat) (start : Z) (s : string) : Z :=
  match count with
  | O => start
  | S k =>
      if utf8_RuneStart (byte_at s start) then start
      else find_RuneStart k (start - 1) s
  end.

(** [utf8.DecodeLastRuneInString]: the last rune of [s] and its width. *)
Definition utf8_DecodeLastRuneInString (s : string) : Z * nat :=
  let end_ := Z.of_nat (String.length s) in
  if end_ =? 0 then (RuneError, 0%nat)
  else
    let start := end_ - 1 in
    let r := byte_at s start in
    if r <? RuneSelf then (r, 1%nat)
    else
      let lim := Z.max 0 (end_ - Z.of_nat UTFMax) in
      let start := find_RuneStart (Z.to_nat (start - lim)) (start - 1) s in
      let start := Z.max 0 start in
      let '(r, size) :=
        utf8_DecodeRuneInString
          (substring (Z.to_nat start) (Z.to_nat (end_ - start)) s) in
      if start + Z.of_nat size =? end_ then (r, size) else (RuneError, 1%nat).

(** [unicode.IsSpace]: the Latin-1 spaces, and beyond Latin-1 the rest of
    the [White_Space] property. *)
Definition unicode_IsSpace (r : Z) : bool :=
  if r <=? 0xFF then
    ((0x09 <=? r) && (r <=? 0x0D)) || (r =? 0x20) || (r =? 0x85) || (r =? 0xA0)
  else
    (r =? 0x1680) || ((0x2000 <=? r) && (r <=? 0x200A))
    || (r =? 0x2028) || (r =? 0x2029) || (r =? 0x202F) || (r =? 0x205F)
    || (r =? 0x3000).

(** [for i, r := range s]: the byte offset and the rune of every step;
    [skip] bytes belong to the rune of the step before. *)
Fixpoint range_string (skip i : nat) (s : string) : list (nat * Z) :=
  match s with
  | EmptyString => []
  | String _ s' =>
      match skip with
      | S k => range_string k (S i) s'
      | O =>
          let '(r, size) := utf8_DecodeRuneInString s in
          (i, r) :: range_string (size - 1) (S i) s'
      end
  end.

(** The spans that the loop of [strings.FieldsFunc] records; [start] is
    [None] where the Go variable is negative. *)
Fixpoint FieldsFunc_spans (f : Z -> bool) (len : nat) (start : option nat)
    (steps : list (nat * Z)) : list (nat * nat) :=
  match steps with
  | [] =>
      match start with
      | Some st => [(st, len)]
      | None => []
      end
  | (end_, rune) :: steps' =>
      if f rune then
        match start with
        | Some st => (st, end_) :: FieldsFunc_spans f len None steps'
        | None => FieldsFunc_spans f len None steps'
        end
      else
        match start with
        | Some _ => FieldsFunc_spans f len start steps'
        | None => FieldsFunc_spans f len (Some end_) steps'
        end
  end.

(** [strings.FieldsFunc(s, f)] *)
Definition strings_FieldsFunc (s : string) (f : Z -> bool) : list string :=
  List.map (fun span => substring span.1 (span.2 - span.1) s)
    (FieldsFunc_spans f (String.length s) None (range_string 0 0 s)).

(** [strings.Fields(s)]: the maximal runs of [s] without white space;
    equal to [FieldsFunc(s, unicode.IsSpace)], which the library calls
    itself unless [s] is ASCII. *)
Definition strings_Fields (s : string) : list string :=
  strings_FieldsFunc s unicode_IsSpace.

(** [strings.TrimLeftFunc(s, f)] *)
Definition strings_TrimLeftFunc (s : string) (f : Z -> bool) : string :=
  match List.find (fun step => negb (f step.2)) (range_string 0 0 s) with
  | Some (i, _) => substring i (String.length s - i) s
  | None => EmptyString
  end.

(** [lastIndexFunc(s, f, false)], from the end [i] of the part not yet
    looked at; [-1] when every rune satisfies [f]. *)
Fixpoint lastIndexFunc (f : Z -> bool) (skip i : nat) (s : string) : Z :=
  match i with
  | O => -1
  | S i' =>
      match skip with
      | S k => lastIndexFunc f k i' s
      | O =>
          let '(r, size) := utf8_DecodeLastRuneInString (substring 0 i s) in
          if negb (f r) then Z.of_nat i - Z.of_nat size
          else lastIndexFunc f (size - 1) i' s
      end
  end.

(** [strings.TrimRightFunc(s, f)] *)
Definition strings_TrimRightFunc (s : string) (f : Z -> bool) : string :=
  let i := lastIndexFunc f 0 (String.length s) s in
  let i :=
    if (0 <=? i) && (RuneSelf <=? byte_at s i) then
      i + Z.of_nat
            (utf8_DecodeRuneInString
               (substring (Z.to_nat i) (String.length s - Z.to_nat i) s)).2
    else i + 1 in
  substring 0 (Z.to_nat i) s.

(** [strings.TrimSpace(s)]: [s] without leading and trailing white
    space, [TrimFunc(s, unicode.IsSpace)]. *)
Definition strings_TrimSpace (s : string) : string :=
  strings_TrimRightFunc (strings_TrimLeftFunc s unicode_IsSpace) unicode_IsSpace.

(** Addition on [int], 64 bits wide, wrapping around on overflow. *)
Definition wrap64 (z : Z) : Z := (z + 2 ^ 63) mod 2 ^ 64 - 2 ^ 63.
Definition int_add (a b : Z) : Z := wrap64 (a + b).

(** ** Errors and the handler monad *)

(** Modelled from the spec: the error kinds of sections 4.A, 4.D and 7.
    The Go error values of the engine, the tenant directory and the
    signature verifier are declared outside the adapter. *)
Inductive ErrorKind : Type :=
| QueueDoesNotExist
| QueueAlreadyExists
| InvalidParameterValue
| MessageNotFound
| InternalFailure
| MissingAuthHeader
| MalformedAuthHeader
| SignatureDoesNotMatch
| UnsupportedSignatureVersion
| UnknownAccessKey.

(** A Go [error] value, or the panic that aborts the handler. *)
Inductive error : Type :=
| errors_New (msg : string)
| json_SyntaxError
| strconv_NumError (s : string)
| service_error (kind : ErrorKind)
| panic (msg : string).

(** A computation over the engine state [Q] that returns an [A] or stops
    with an error. *)
Definition Handler (Q A : Type) : Type := Q -> Q * (error + A).

#[global] Instance Handler_ret {Q} : MRet (Handler Q) :=
  fun A a q => (q, inr a).

#[global] Instance Handler_bind {Q} : MBind (Handler Q) :=
  fun A B k m q =>
    match m q with
    | (q', inl e) => (q', inl e)
    | (q', inr a) => k a q'
    end.

Definition throw {Q A} (e : error) : Handler Q A := fun q => (q, inl e).

(** A step that does not touch the engine. *)
Definition lift {Q A} (r : error + A) : Handler Q A := fun q => (q, r).

(** An engine call that cannot fail. *)
Definition call {Q A} (f : Q -> Q * A) : Handler Q A :=
  fun q => let '(q', a) := f q in (q', inr a).

(** ** The engine interface ([q/models]) *)

Module models.

(** The fields of [models.Message] the adapter reads. *)
Module Message.
Record t : Type := mk {
  ID : Z;
  Message : list byte;
  KeyValues : gmap string string
}.
End Message.

Module FilterCriteria.
Record t : Type := mk {
  MessageID : Z;
  KV : gmap string string
}.
(** The zero value [models.FilterCriteria{}]. *)
Definition zero : t := {| MessageID := 0; KV := ∅ |}.
End FilterCriteria.

(** Modelled from the spec: the four message states of section 3, the
    keys of [QueueStats.Counts]. *)
Inductive MessageStatus : Type := Delayed | Visible | Leased | Tombstoned.

Module QueueStats.
Record t : Type := mk {
  Counts : list (MessageStatus * Z);
  TotalMessages : Z
}.
End QueueStats.

(** [models.Queue]: the methods the adapter and the dashboard call, over
    an engine state [Q]. *)
Class Queue (Q : Type) : Type := {
  CreateQueue : Z -> string -> Handler Q unit;
  DeleteQueue : Z -> string -> Handler Q unit;
  ListQueues : Z -> Handler Q (list string);
  Enqueue : Z -> string -> string -> gmap string string -> Z -> Z -> Handler Q Z;
  Dequeue : Z -> string -> Z -> Handler Q (list Message.t);
  Delete : Z -> string -> Z -> Handler Q unit;
  Filter : Z -> string -> FilterCriteria.t -> Q -> Q * list Z;
  Stats : Z -> string -> Q -> Q * QueueStats.t;
  Peek : Z -> string -> Z -> Q -> Q * option Message.t
}.

(** [models.TenantManager] *)
Class TenantManager : Type := {
  GetTenant : Z;
  GetAWSSecretKey : string -> string -> error + (Z * string)
}.

End models.

(** The order in which [for k, v := range m] visits the entries of a
    map. *)
Class GoRuntime : Type := {
  range : forall {A : Type}, gmap string A -> list (string * A);
  range_enumerates : forall (A : Type) (m : gmap string A),
    range m ≡ₚ map_to_list m
}.

(** ** Wire structs ([sqs/protocols/sqs/models.go]) *)

Module MessageAttributeValue.
Record t : Type := mk {
  StringValue : string;
  BinaryValue : string;
  StringListValue : list string;
  BinaryListValue : list (list byte);
  DataType : string
}.
End MessageAttributeValue.

Module SendMessagePayload.
Record t : Type := mk {
  QueueUrl : string;
  MessageBody : string;
  DelaySeconds : Z;
  MessageAttributes : gmap string MessageAttributeValue.t;
  MessageDeduplicationId : string;
  MessageGroupId : string
}.
End SendMessagePayload.

Module SendMessageResponse.
Record t : Type := mk {
  MD5OfMessageBody : string;
  MD5OfMessageAttributes : string;
  MessageId : string;
  SequenceNumber : string
}.
End SendMessageResponse.

Module ReceiveMessageRequest.
Record t : Type := mk {
  QueueUrl : string;
  AttributeNames : list string;
  MessageAttributeNames : list string;
  MaxNumberOfMessages : Z;
  VisibilityTimeout : Z;
  WaitTimeSeconds : Z;
  ReceiveRequestAttemptId : string
}.
End ReceiveMessageRequest.

Module MessageAttribute.
Record t : Type := mk {
  StringValue : string;
  BinaryValue : list byte;
  StringListValues : list string;
  BinaryListValues : list (list byte);
  DataType : string
}.
End MessageAttribute.

Module Message.
Record t : Type := mk {
  MessageId : string;
  ReceiptHandle : string;
  MD5OfBody : string;
  Body : string;
  Attributes : gmap string string;
  MD5OfMessageAttributes : string;
  MessageAttributes : gmap string MessageAttribute.t
}.
End Message.

Module ReceiveMessageResponse.
Record t : Type := mk { Messages : list Message.t }.
End ReceiveMessageResponse.

Module DeleteMessageRequest.
Record t : Type := mk { QueueUrl : string; ReceiptHandle : string }.
End DeleteMessageRequest.

Module ListQueuesRequest.
Record t : Type := mk { QueueNamePrefix : string }.
End ListQueuesRequest.

Module ListQueuesResponse.
Record t : Type := mk { QueueUrls : list string }.
End ListQueuesResponse.

Module CreateQueueRequest.
Record t : Type := mk {
  QueueName : string;
  Attributes : gmap string string;
  Tags : gmap string string
}.
End CreateQueueRequest.

Module CreateQueueResponse.
Record t : Type := mk { QueueUrl : string }.
End CreateQueueResponse.

Module GetQueueAttributesRequest.
Record t : Type := mk { QueueUrl : string; AttributeNames : list string }.
End GetQueueAttributesRequest.

Module GetQueueAttributesResponse.
Record t : Type := mk { Attributes : gmap string string }.
End GetQueueAttributesResponse.

Module PurgeQueueRequest.
Record t : Type := mk { QueueUrl : string }.
End PurgeQueueRequest.

Module PurgeQueueResponse.
Record t : Type := mk { Success : bool }.
End PurgeQueueResponse.

Module DeleteQueueRequest.
Record t : Type := mk { QueueUrl : string }.
End DeleteQueueRequest.

(** The struct a handler hands to [c.JSON]; [NoBody] when it returns
    [nil] without writing one. *)
Inductive Response : Type :=
| NoBody
| DeleteQueueResponse
| JSON_PurgeQueueResponse (r : PurgeQueueResponse.t)
| JSON_GetQueueAttributesResponse (r : GetQueueAttributesResponse.t)
| JSON_CreateQueueResponse (r : CreateQueueResponse.t)
| JSON_ListQueuesResponse (r : ListQueuesResponse.t)
| JSON_SendMessageResponse (r : SendMessageResponse.t)
| JSON_ReceiveMessageResponse (r : ReceiveMessageResponse.t).

(** ** Requests *)

(** The JSON object of a request body as [encoding/json] sees it: the
    value of every key that some request struct declares, the zero
    value where the key is absent.  [json.Unmarshal] into a struct keeps
    the keys the struct declares and ignores the rest. *)
Module JSONObject.
Record t : Type := mk {
  QueueUrl : string;
  QueueName : string;
  QueueNamePrefix : string;
  MessageBody : string;
  DelaySeconds : Z;
  MessageAttributes : gmap string MessageAttributeValue.t;
  MessageDeduplicationId : string;
  MessageGroupId : string;
  AttributeNames : list string;
  MessageAttributeNames : list string;
  MaxNumberOfMessages : Z;
  VisibilityTimeout : Z;
  WaitTimeSeconds : Z;
  ReceiveRequestAttemptId : string;
  ReceiptHandle : string;
  Attributes : gmap string string;
  Tags : gmap string string
}.
End JSONObject.

(** The part of [*fiber.Ctx] the adapter reads: the request headers, the
    body ([None] when it is not a JSON object) and the [Locals] set by
    the middleware. *)
Module Ctx.
Record t : Type := mk {
  ReqHeaders : gmap string (list string);
  Body : option JSONObject.t;
  Locals : gmap string Z
}.
End Ctx.

(** The signature verifier of the package ([ParseAuthorizationHeader],
    [ValidateAWSRequest]) and the [adaptor.ConvertRequest] it is fed
    from.  [authMiddleware] only calls them; their bodies live in other
    files, so the handlers are stated for any implementation of this
    interface. *)
Module AWSHeader.
Record t : Type := mk { AccessKey : string; Region : string }.
End AWSHeader.

Class Verifier : Type := {
  Request : Type;
  ConvertRequest : Ctx.t -> error + Request;
  ParseAuthorizationHeader : Request -> error + AWSHeader.t;
  ValidateAWSRequest : AWSHeader.t -> string -> Request -> option error
}.

(** ** The protocol adapter (package [sqs]) *)

Module sqs.

(** [json.Unmarshal(c.Body(), req)] for each request struct. *)
Definition Unmarshal {A : Type} (f : JSONObject.t -> A)
    (body : option JSONObject.t) : error + A :=
  match body with
  | Some o => inr (f o)
  | None => inl json_SyntaxError
  end.

Definition as_DeleteQueueRequest (o : JSONObject.t) : DeleteQueueRequest.t :=
  {| DeleteQueueRequest.QueueUrl := JSONObject.QueueUrl o |}.

Definition as_PurgeQueueRequest (o : JSONObject.t) : PurgeQueueRequest.t :=
  {| PurgeQueueRequest.QueueUrl := JSONObject.QueueUrl o |}.

Definition as_GetQueueAttributesRequest (o : JSONObject.t)
    : GetQueueAttributesRequest.t :=
  {| GetQueueAttributesRequest.QueueUrl := JSONObject.QueueUrl o;
     GetQueueAttributesRequest.AttributeNames := JSONObject.AttributeNames o |}.

Definition as_CreateQueueRequest (o : JSONObject.t) : CreateQueueRequest.t :=
  {| CreateQueueRequest.QueueName := JSONObject.QueueName o;
     CreateQueueRequest.Attributes := JSONObject.Attributes o;
     CreateQueueRequest.Tags := JSONObject.Tags o |}.

Definition as_SendMessagePayload (o : JSONObject.t) : SendMessagePayload.t :=
  {| SendMessagePayload.QueueUrl := JSONObject.QueueUrl o;
     SendMessagePayload.MessageBody := JSONObject.MessageBody o;
     SendMessagePayload.DelaySeconds := JSONObject.DelaySeconds o;
     SendMessagePayload.MessageAttributes := JSONObject.MessageAttributes o;
     SendMessagePayload.MessageDeduplicationId :=
       JSONObject.MessageDeduplicationId o;
     SendMessagePayload.MessageGroupId := JSONObject.MessageGroupId o |}.

Definition as_ReceiveMessageRequest (o : JSONObject.t)
    : ReceiveMessageRequest.t :=
  {| ReceiveMessageRequest.QueueUrl := JSONObject.QueueUrl o;
     ReceiveMessageRequest.AttributeNames := JSONObject.AttributeNames o;
     ReceiveMessageRequest.MessageAttributeNames :=
       JSONObject.MessageAttributeNames o;
     ReceiveMessageRequest.MaxNumberOfMessages :=
       JSONObject.MaxNumberOfMessages o;
     ReceiveMessageRequest.VisibilityTimeout := JSONObject.VisibilityTimeout o;
     ReceiveMessageRequest.WaitTimeSeconds := JSONObject.WaitTimeSeconds o;
     ReceiveMessageRequest.ReceiveRequestAttemptId :=
       JSONObject.ReceiveRequestAttemptId o |}.

Definition as_DeleteMessageRequest (o : JSONObject.t) : DeleteMessageRequest.t :=
  {| DeleteMessageRequest.QueueUrl := JSONObject.QueueUrl o;
     DeleteMessageRequest.ReceiptHandle := JSONObject.ReceiptHandle o |}.

(** [tokens := strings.Split(url, "/"); queue := tokens[len(tokens)-1]] *)
Definition queue_of_url (QueueUrl : string) : error + string :=
  let tokens := strings_Split QueueUrl "/"%char in
  match tokens !! (List.length tokens - 1)%nat with
  | Some queue => inr queue
  | None => inl (panic "index out of range")
  end.

Definition queue_url (tenantId : Z) (queue : string) : string :=
  "https://sqs.us-east-1.amazonaws.com/" +:+ fmt_Sprintf_d tenantId
    +:+ "/" +:+ queue.

(** The body of the loop that flattens the wire attributes of
    [SendMessage] into the engine's string map. *)
Definition flatten_attribute (kv : gmap string string)
    (entry : string * MessageAttributeValue.t) : gmap string string :=
  let '(k, v) := entry in
  let kv := <[k +:+ "_DataType" := MessageAttributeValue.DataType v]> kv in
  if String.eqb (MessageAttributeValue.DataType v) "String" then
    <[k := MessageAttributeValue.StringValue v]> kv
  else if String.eqb (MessageAttributeValue.DataType v) "Number" then
    <[k := MessageAttributeValue.StringValue v]> kv
  else if String.eqb (MessageAttributeValue.DataType v) "Binary" then
    <[k := MessageAttributeValue.BinaryValue v]> kv
  else kv.

(** The [MessageAttribute] that [ReceiveMessage] builds from the type
    marker and the stored value of a key.  A value that does not decode
    is logged and leaves [BinaryValue] unset. *)
Definition typed_attribute (DataType v : string) : MessageAttribute.t :=
  let attr := MessageAttribute.mk "" [] [] [] DataType in
  if String.eqb DataType "String" then
    MessageAttribute.mk v [] [] [] DataType
  else if String.eqb DataType "Number" then
    MessageAttribute.mk v [] [] [] DataType
  else if String.eqb DataType "Binary" then
    match base64_DecodeString v with
    | None => attr
    | Some data => MessageAttribute.mk "" data [] [] DataType
    end
  else attr.

(** The body of the loop of [ReceiveMessage] over [message.KeyValues].
    A key absent from the map reads as the empty string. *)
Definition unflatten_attribute (KeyValues : gmap string string)
    (attrs : gmap string MessageAttribute.t) (entry : string * string)
    : gmap string MessageAttribute.t :=
  let '(k, v) := entry in
  if strings_HasSuffix k "_DataType" then attrs
  else
    let DataType := default "" (KeyValues !! (k +:+ "_DataType")) in
    <[k := typed_attribute DataType v]> attrs.

Section handlers.
Context {Q : Type} `{!models.Queue Q} `{!GoRuntime}.

Definition DeleteQueue (c : Ctx.t) (tenantId : Z) : Handler Q Response :=
  req ← lift (Unmarshal as_DeleteQueueRequest (Ctx.Body c));
  queue ← lift (queue_of_url (DeleteQueueRequest.QueueUrl req));
  _ ← models.DeleteQueue tenantId queue;
  mret DeleteQueueResponse.

(** [for _, msg := range messages { s.queue.Delete(tenantId, queue, msg) }];
    the error of each [Delete] is dropped. *)
Fixpoint PurgeQueue_loop (tenantId : Z) (queue : string) (messages : list Z)
    (q : Q) : Q :=
  match messages with
  | [] => q
  | msg :: rest =>
      PurgeQueue_loop tenantId queue rest
        (fst (models.Delete tenantId queue msg q))
  end.

Definition PurgeQueue (c : Ctx.t) (tenantId : Z) : Handler Q Response :=
  req ← lift (Unmarshal as_PurgeQueueRequest (Ctx.Body c));
  queue ← lift (queue_of_url (PurgeQueueRequest.QueueUrl req));
  messages ← call (models.Filter tenantId queue models.FilterCriteria.zero);
  _ ← call (fun q => (PurgeQueue_loop tenantId queue messages q, tt));
  let rc := {| PurgeQueueResponse.Success := true |} in
  mret (JSON_PurgeQueueResponse rc).

Definition GetQueueAttributes (c : Ctx.t) (tenantId : Z)
    : Handler Q Response :=
  req ← lift (Unmarshal as_GetQueueAttributesRequest (Ctx.Body c));
  queue ← lift (queue_of_url (GetQueueAttributesRequest.QueueUrl req));
  stats ← call (models.Stats tenantId queue);
  let rc :=
    {| GetQueueAttributesResponse.Attributes :=
         {[ "ApproximateNumberOfMessages" :=
              fmt_Sprintf_d (models.QueueStats.TotalMessages stats) ]} |} in
  mret (JSON_GetQueueAttributesResponse rc).

Definition CreateQueue (c : Ctx.t) (tenantId : Z) : Handler Q Response :=
  req ← lift (Unmarshal as_CreateQueueRequest (Ctx.Body c));
  _ ← models.CreateQueue tenantId (CreateQueueRequest.QueueName req);
  let queueUrl := queue_url tenantId (CreateQueueRequest.QueueName req) in
  mret (JSON_CreateQueueResponse {| CreateQueueResponse.QueueUrl := queueUrl |}).

Definition ListQueues (c : Ctx.t) (tenantId : Z) : Handler Q Response :=
  queues ← models.ListQueues tenantId;
  let queueUrls := List.map (queue_url tenantId) queues in
  mret (JSON_ListQueuesResponse {| ListQueuesResponse.QueueUrls := queueUrls |}).

Definition SendMessage_kv (attrs : gmap string MessageAttributeValue.t)
    : gmap string string :=
  fold_left flatten_attribute (range attrs) ∅.

Definition SendMessage (c : Ctx.t) (tenantId : Z) : Handler Q Response :=
  let visibilityTimeout := 30 in
  req ← lift (Unmarshal as_SendMessagePayload (Ctx.Body c));
  queue ← lift (queue_of_url (SendMessagePayload.QueueUrl req));
  let kv := SendMessage_kv (SendMessagePayload.MessageAttributes req) in
  messageId ← models.Enqueue tenantId queue
                 (SendMessagePayload.MessageBody req) kv
                 (SendMessagePayload.DelaySeconds req) visibilityTimeout;
  let hasher := md5_New in
  let hasher :=
    Hasher_Write hasher
      (list_byte_of_string (SendMessagePayload.MessageBody req)) in
  let response :=
    {| SendMessageResponse.MessageId := fmt_Sprintf_d messageId;
       SendMessageResponse.MD5OfMessageBody :=
         hex_EncodeToString (Hasher_Sum hasher);
       SendMessageResponse.MD5OfMessageAttributes := "";
       SendMessageResponse.SequenceNumber := "" |} in
  mret (JSON_SendMessageResponse response).

Definition ReceiveMessage_attributes (KeyValues : gmap string string)
    : gmap string MessageAttribute.t :=
  fold_left (unflatten_attribute KeyValues) (range KeyValues) ∅.

(** The loop over the dequeued messages; one hasher serves all of them
    and is reset before each body is written. *)
Fixpoint ReceiveMessage_loop (hasher : Hasher)
    (messages : list models.Message.t) : list Message.t :=
  match messages with
  | [] => []
  | message :: rest =>
      let hasher := Hasher_Reset hasher in
      let hasher := Hasher_Write hasher (models.Message.Message message) in
      {| Message.MessageId := fmt_Sprintf_d (models.Message.ID message);
         Message.ReceiptHandle := fmt_Sprintf_d (models.Message.ID message);
         Message.MD5OfBody := hex_EncodeToString (Hasher_Sum hasher);
         Message.Body := string_of_list_byte (models.Message.Message message);
         Message.Attributes := ∅;
         Message.MD5OfMessageAttributes := "";
         Message.MessageAttributes :=
           ReceiveMessage_attributes (models.Message.KeyValues message) |}
      :: ReceiveMessage_loop hasher rest
  end.

Definition ReceiveMessage (c : Ctx.t) (tenantId : Z) : Handler Q Response :=
  req ← lift (Unmarshal as_ReceiveMessageRequest (Ctx.Body c));
  let MaxNumberOfMessages :=
    if ReceiveMessageRequest.MaxNumberOfMessages req =? 0 then 1
    else ReceiveMessageRequest.MaxNumberOfMessages req in
  queue ← lift (queue_of_url (ReceiveMessageRequest.QueueUrl req));
  messages ← models.Dequeue tenantId queue MaxNumberOfMessages;
  let hasher := md5_New in
  let response :=
    {| ReceiveMessageResponse.Messages :=
         ReceiveMessage_loop hasher messages |} in
  mret (JSON_ReceiveMessageResponse response).

Definition DeleteMessage (c : Ctx.t) (tenantId : Z) : Handler Q Response :=
  req ← lift (Unmarshal as_DeleteMessageRequest (Ctx.Body c));
  queue ← lift (queue_of_url (DeleteMessageRequest.QueueUrl req));
  messageId ←
    lift (match strconv_ParseInt (DeleteMessageRequest.ReceiptHandle req) with
          | Some n => inr n
          | None =>
              inl (strconv_NumError (DeleteMessageRequest.ReceiptHandle req))
          end);
  _ ← models.Delete tenantId queue messageId;
  mret NoBody.

(** [Action]: dispatch on the [X-Amz-Target] header under the tenant the
    middleware left in [Locals]. *)
Definition Action (c : Ctx.t) : Handler Q Response :=
  match Ctx.ReqHeaders c !! "X-Amz-Target" with
  | None => throw (errors_New "X-Amz-Target header not found")
  | Some awsMethodHeader =>
      match awsMethodHeader !! 0%nat with
      | None => throw (panic "index out of range")
      | Some awsMethod =>
          match Ctx.Locals c !! "tenantId" with
          | None => throw (panic "interface conversion")
          | Some tenantId =>
              if String.eqb awsMethod "AmazonSQS.SendMessage" then
                SendMessage c tenantId
              else if String.eqb awsMethod "AmazonSQS.ReceiveMessage" then
                ReceiveMessage c tenantId
              else if String.eqb awsMethod "AmazonSQS.DeleteMessage" then
                DeleteMessage c tenantId
              else if String.eqb awsMethod "AmazonSQS.ListQueues" then
                ListQueues c tenantId
              else if String.eqb awsMethod "AmazonSQS.CreateQueue" then
                CreateQueue c tenantId
              else if String.eqb awsMethod "AmazonSQS.GetQueueAttributes" then
                GetQueueAttributes c tenantId
              else if String.eqb awsMethod "AmazonSQS.PurgeQueue" then
                PurgeQueue c tenantId
              else if String.eqb awsMethod "AmazonSQS.DeleteQueue" then
                DeleteQueue c tenantId
              else
                throw (errors_New
                         ("SQS method " +:+ awsMethod +:+ " not implemented"))
          end
      end
  end.

Context `{!models.TenantManager} `{!Verifier}.

(** [authMiddleware], followed by the [Action] that [c.Next()] runs. *)
Definition authMiddleware (c : Ctx.t) : Handler Q Response :=
  r ← lift (ConvertRequest c);
  awsHeader ← lift (ParseAuthorizationHeader r);
  '(tenantId, secretKey) ←
    lift (models.GetAWSSecretKey (AWSHeader.AccessKey awsHeader)
            (AWSHeader.Region awsHeader));
  _ ← lift (match ValidateAWSRequest awsHeader secretKey r with
            | Some err => inl err
            | None => inr tt
            end);
  Action {| Ctx.ReqHeaders := Ctx.ReqHeaders c;
            Ctx.Body := Ctx.Body c;
            Ctx.Locals := <["tenantId" := tenantId]> (Ctx.Locals c) |}.

(** The request passes the middleware as tenant [tenantId]. *)
Definition authenticates (c : Ctx.t) (tenantId : Z) : Prop :=
  exists r awsHeader secretKey,
    ConvertRequest c = inr r /\
    ParseAuthorizationHeader r = inr awsHeader /\
    models.GetAWSSecretKey (AWSHeader.AccessKey awsHeader)
      (AWSHeader.Region awsHeader) = inr (tenantId, secretKey) /\
    ValidateAWSRequest awsHeader secretKey r = None.

End handlers.

End sqs.

(** ** The dashboard (package [dashboard]) *)

(** The part of [*fiber.Ctx] the dashboard reads: the parameters of the
    route, the query string and the form of the request.  [c.Params],
    [c.Query] and [c.FormValue] give the empty string for a key that is
    absent. *)
Module Page.
Record t : Type := mk {
  Params : gmap string string;
  Query : gmap string string;
  FormValue : gmap string string
}.
End Page.

Module dashboard.

Module QueueDetails.
Record t : Type := mk {
  Name : string;
  Stats : models.QueueStats.t;
  Count : Z
}.
End QueueDetails.

(** What a handler hands to [c.Render], the view with its bindings, or
    the target of its [c.Redirect]. *)
Inductive View : Type :=
| Render_queues (Queues : list QueueDetails.t) (Err : option error)
| Render_queue (Queue : string) (Stats : models.QueueStats.t)
    (Messages : list models.Message.t) (Filter : string)
| Render_message (Queue : string) (Message : models.Message.t)
| Redirect (location : string).

Definition c_Params (c : Page.t) (key : string) : string :=
  default "" (Page.Params c !! key).

Definition c_Query (c : Page.t) (key : string) : string :=
  default "" (Page.Query c !! key).

Definition c_FormValue (c : Page.t) (key : string) : string :=
  default "" (Page.FormValue c !! key).

(** [for _, v := range queueStats.Counts { totalMessages += v }] *)
Definition total_of_Counts (Counts : list (models.MessageStatus * Z)) : Z :=
  fold_left (fun totalMessages entry => int_add totalMessages entry.2) Counts 0.

(** The body of the loop of [Queue] over the fields of the filter. *)
Definition filter_field (filterCriteria : models.FilterCriteria.t)
    (field : string) : error + models.FilterCriteria.t :=
  let filterCriteria :=
    match strconv_ParseInt field with
    | Some maybeMessageID =>
        {| models.FilterCriteria.MessageID := maybeMessageID;
           models.FilterCriteria.KV := models.FilterCriteria.KV filterCriteria |}
    | None => filterCriteria
    end in
  if strings_Contains field "=" then
    let tokens := strings_Split field "="%char in
    match tokens !! 0%nat, tokens !! 1%nat with
    | Some token0, Some token1 =>
        inr {| models.FilterCriteria.MessageID :=
                 models.FilterCriteria.MessageID filterCriteria;
               models.FilterCriteria.KV :=
                 <[strings_TrimSpace token0 := strings_TrimSpace token1]>
                   (models.FilterCriteria.KV filterCriteria) |}
    | _, _ => inl (panic "index out of range")
    end
  else inr filterCriteria.

Fixpoint filter_fields (filterCriteria : models.FilterCriteria.t)
    (filterFields : list string) : error + models.FilterCriteria.t :=
  match filterFields with
  | [] => inr filterCriteria
  | field :: rest =>
      match filter_field filterCriteria field with
      | inl e => inl e
      | inr filterCriteria => filter_fields filterCriteria rest
      end
  end.

Section handlers.
Context {Q : Type} `{!models.Queue Q} `{!models.TenantManager}.

(** The loop of [Queues] over the names of the queues. *)
Fixpoint Queues_loop (tenantId : Z) (queues : list string) (q : Q)
    : Q * list QueueDetails.t :=
  match queues with
  | [] => (q, [])
  | queue :: rest =>
      let '(q, queueStats) := models.Stats tenantId queue q in
      let totalMessages :=
        total_of_Counts (models.QueueStats.Counts queueStats) in
      let '(q, queueDetails) := Queues_loop tenantId rest q in
      (q, {| QueueDetails.Name := queue;
             QueueDetails.Stats := queueStats;
             QueueDetails.Count := totalMessages |} :: queueDetails)
  end.

(** [Queues]: the error of [ListQueues] is not returned but bound to
    [Err] in the view; a failed [ListQueues] hands back no names. *)
Definition Queues (c : Page.t) : Handler Q View :=
  fun q =>
    let tenantId := models.GetTenant in
    let '(q, listed) := models.ListQueues tenantId q in
    let '(queues, err) :=
      match listed with
      | inl e => ([], Some e)
      | inr queues => (queues, None)
      end in
    let '(q, queueDetails) := Queues_loop tenantId queues q in
    (q, inr (Render_queues queueDetails err)).

(** The loop of [Queue] over the ids that [Filter] returned: the
    messages that [Peek] finds. *)
Fixpoint Queue_loop (tenantId : Z) (queueName : string)
    (filteredMessageIDs : list Z) (q : Q) : Q * list models.Message.t :=
  match filteredMessageIDs with
  | [] => (q, [])
  | messageId :: rest =>
      let '(q, message) := models.Peek tenantId queueName messageId q in
      let '(q, messages) := Queue_loop tenantId queueName rest q in
      (q, match message with
          | Some m => m :: messages
          | None => messages
          end)
  end.

Definition Queue (c : Page.t) : Handler Q View :=
  let queueName := c_Params c "queue" in
  let tenantId := models.GetTenant in
  queueStats ← call (models.Stats tenantId queueName);
  let filterCriteria :=
    {| models.FilterCriteria.MessageID := 0;
       models.FilterCriteria.KV := ∅ |} in
  let filterString := c_Query c "filter" in
  let filterFields := strings_Fields filterString in
  filterCriteria ← lift (filter_fields filterCriteria filterFields);
  filteredMessageIDs ←
    call (models.Filter tenantId queueName filterCriteria);
  messages ← call (Queue_loop tenantId queueName filteredMessageIDs);
  mret (Render_queue queueName queueStats messages filterString).

Definition Message (c : Page.t) : Handler Q View :=
  let queueName := c_Params c "queue" in
  let messageID := c_Params c "message" in
  let tenantId := models.GetTenant in
  messageIdInt ←
    lift (match strconv_ParseInt messageID with
          | Some n => inr n
          | None => inl (strconv_NumError messageID)
          end);
  message ← call (models.Peek tenantId queueName messageIdInt);
  match message with
  | None => throw (errors_New "Message not found")
  | Some m => mret (Render_message queueName m)
  end.

Definition NewQueue (c : Page.t) : Handler Q View :=
  let queueName := c_FormValue c "queue" in
  let tenantId := models.GetTenant in
  _ ← models.CreateQueue tenantId queueName;
  mret (Redirect "/").

Definition DeleteQueue (c : Page.t) : Handler Q View :=
  let queueName := c_Params c "queue" in
  let tenantId := models.GetTenant in
  _ ← models.DeleteQueue tenantId queueName;
  mret (Redirect "/").

End handlers.

End dashboard.

(** ** The queue engine *)

Module engine.

(** Modelled from the spec: the message record of section 3.  The queue
    engine and its storage are not among the sources; this module
    follows sections 3, 4.A and 4.B. *)
Record StoredMessage : Type := mkStored {
  id : Z;
  body : list byte;
  attributes : gmap string string;
  state : models.MessageStatus;
  visible_at : Z;
  visibility_s : Z;
  enqueued_at : Z;
  deliveries : Z
}.

(** Modelled from the spec: a queue of section 3, its messages in the
    order of their ids and the next id to hand out. *)
Record QueueData : Type := mkQueue {
  next_id : Z;
  messages : list StoredMessage
}.

(** Modelled from the spec: the durable store of section 4.A, keyed by
    (tenant, queue name), with the clock the engine reads and the result
    cap that bounds [Filter] (section 4.B). *)
Record Store : Type := mkStore {
  now : Z;
  result_cap : nat;
  queues : gmap (Z * string) QueueData
}.

(** Modelled from the spec: a write to the store of section 4.A. *)
Definition with_queues (s : Store) (qs : gmap (Z * string) QueueData) : Store :=
  {| now := now s; result_cap := result_cap s; queues := qs |}.

(** Modelled from the spec: the clock of section 4.B ([now]) after [dt]
    more seconds. *)
Definition advance (dt : Z) (s : Store) : Store :=
  {| now := now s + dt; result_cap := result_cap s; queues := queues s |}.

(** Modelled from the spec: the terminal state [Tombstoned] of section
    3. *)
Definition is_tombstoned (m : StoredMessage) : bool :=
  match state m with
  | models.Tombstoned => true
  | _ => false
  end.

(** Modelled from the spec: the engine's [CreateQueue], whose code is
    not among the sources; [create_queue] of section 4.A. *)
Definition create_queue (tenant : Z) (name : string) : Handler Store unit :=
  fun s =>
    match queues s !! (tenant, name) with
    | Some _ => (s, inl (service_error QueueAlreadyExists))
    | None =>
        (with_queues s (<[(tenant, name) := mkQueue 1 []]> (queues s)), inr tt)
    end.

(** Modelled from the spec: the engine's [DeleteQueue], whose code is
    not among the sources; [delete_queue] of section 4.A. *)
Definition delete_queue (tenant : Z) (name : string) : Handler Store unit :=
  fun s =>
    match queues s !! (tenant, name) with
    | None => (s, inl (service_error QueueDoesNotExist))
    | Some _ => (with_queues s (delete (tenant, name) (queues s)), inr tt)
    end.

(** Modelled from the spec: the engine's [ListQueues], whose code is
    not among the sources; [list_queues] of section 4.A. *)
Definition list_queues (tenant : Z) : Handler Store (list string) :=
  fun s =>
    (s, inr (List.map snd
               (List.filter (fun k => fst k =? tenant)
                  (List.map fst (map_to_list (queues s)))))).

(** Modelled from the spec: the engine's [Enqueue], whose code is not
    among the sources; [insert_message] of section 4.A together with
    the policy of [Enqueue] of section 4.B: the bounds on the delay
    and on the visibility timeout, [visible_at = now + delay_s], and the
    visibility timeout kept on the message for the time of the lease. *)
Definition Enqueue (tenant : Z) (queue : string) (msg : string)
    (kv : gmap string string) (delay_s visibility_s : Z) : Handler Store Z :=
  fun s =>
    if negb ((0 <=? delay_s) && (delay_s <=? 900)
             && (0 <=? visibility_s) && (visibility_s <=? 43200)) then
      (s, inl (service_error InvalidParameterValue))
    else
      match queues s !! (tenant, queue) with
      | None => (s, inl (service_error QueueDoesNotExist))
      | Some qd =>
          let m :=
            {| id := next_id qd;
               body := list_byte_of_string msg;
               attributes := kv;
               state := if delay_s =? 0 then models.Visible
                        else models.Delayed;
               visible_at := now s + delay_s;
               visibility_s := visibility_s;
               enqueued_at := now s;
               deliveries := 0 |} in
          (with_queues s
             (<[(tenant, queue) :=
                  mkQueue (next_id qd + 1) (messages qd ++ [m])]> (queues s)),
           inr (id m))
      end.

(** Modelled from the spec: the candidates of [claim_visible].  A
    message may be claimed when it is not tombstoned and its
    [visible_at] has passed: visible, delayed with the delay elapsed, or
    leased with the lease expired (the lazy lease expiry of section
    4.B). *)
Definition eligible (t : Z) (m : StoredMessage) : bool :=
  negb (is_tombstoned m) && (visible_at m <=? t).

(** Modelled from the spec: the ordering tie-break of section 4.B,
    [(visible_at ASC, id ASC)]. *)
Definition before (m1 m2 : StoredMessage) : bool :=
  (visible_at m1 <? visible_at m2)
  || ((visible_at m1 =? visible_at m2) && (id m1 <=? id m2)).

(** Modelled from the spec: insertion into a list kept in delivery
    order. *)
Fixpoint insert_ordered (m : StoredMessage) (l : list StoredMessage)
    : list StoredMessage :=
  match l with
  | [] => [m]
  | x :: l' => if before m x then m :: l else x :: insert_ordered m l'
  end.

(** Modelled from the spec: the messages in delivery order. *)
Definition delivery_order (l : list StoredMessage) : list StoredMessage :=
  fold_right insert_ordered [] l.

(** Modelled from the spec: the transition to [Leased] with
    [visible_at := lease_until = now + visibility_s]; a lease that had
    expired counts one more delivery. *)
Definition lease (t : Z) (m : StoredMessage) : StoredMessage :=
  {| id := id m;
     body := body m;
     attributes := attributes m;
     state := models.Leased;
     visible_at := t + visibility_s m;
     visibility_s := visibility_s m;
     enqueued_at := enqueued_at m;
     deliveries := match state m with
                   | models.Leased => deliveries m + 1
                   | _ => deliveries m
                   end |}.

(** Modelled from the spec: the up to [max_n] messages that
    [claim_visible] selects. *)
Definition claimed (t : Z) (max_n : nat) (msgs : list StoredMessage)
    : list StoredMessage :=
  firstn max_n (delivery_order (List.filter (eligible t) msgs)).

(** Modelled from the spec: [claim_visible] of section 4.A, the storage
    operation under the engine's [Dequeue]. *)
Definition claim_visible (t : Z) (max_n : nat) (msgs : list StoredMessage)
    : list StoredMessage * list StoredMessage :=
  let chosen := claimed t max_n msgs in
  (chosen,
   List.map (fun m => if bool_decide (id m ∈ List.map id chosen)
                      then lease t m else m) msgs).

(** Modelled from the spec: the message handed to the caller of
    [Dequeue] and [Peek]. *)
Definition to_message (m : StoredMessage) : models.Message.t :=
  {| models.Message.ID := id m;
     models.Message.Message := body m;
     models.Message.KeyValues := attributes m |}.

(** Modelled from the spec: the engine's [Dequeue], whose code is not
    among the sources; [Dequeue] of section 4.B, [max_n] clamped to
    [1, 10]. *)
Definition Dequeue (tenant : Z) (queue : string) (max_n : Z)
    : Handler Store (list models.Message.t) :=
  fun s =>
    let n := Z.to_nat (Z.max 1 (Z.min 10 max_n)) in
    match queues s !! (tenant, queue) with
    | None => (s, inl (service_error QueueDoesNotExist))
    | Some qd =>
        let '(chosen, msgs) := claim_visible (now s) n (messages qd) in
        (with_queues s
           (<[(tenant, queue) := mkQueue (next_id qd) msgs]> (queues s)),
         inr (List.map to_message chosen))
    end.

(** Modelled from the spec: the transition to [Tombstoned]. *)
Definition tombstone (m : StoredMessage) : StoredMessage :=
  {| id := id m;
     body := body m;
     attributes := attributes m;
     state := models.Tombstoned;
     visible_at := visible_at m;
     visibility_s := visibility_s m;
     enqueued_at := enqueued_at m;
     deliveries := deliveries m |}.

(** Modelled from the spec: the engine's [Delete], whose code is not
    among the sources; [tombstone] of section 4.A and [Delete] of
    section 4.B: idempotent, an error only for an id that never
    existed. *)
Definition Delete (tenant : Z) (queue : string) (msg_id : Z)
    : Handler Store unit :=
  fun s =>
    match queues s !! (tenant, queue) with
    | None => (s, inl (service_error QueueDoesNotExist))
    | Some qd =>
        if bool_decide (msg_id ∈ List.map id (messages qd)) then
          (with_queues s
             (<[(tenant, queue) :=
                  mkQueue (next_id qd)
                    (List.map (fun m => if id m =? msg_id then tombstone m
                                        else m) (messages qd))]> (queues s)),
           inr tt)
        else (s, inl (service_error MessageNotFound))
    end.

(** Modelled from the spec: the criteria of [Filter], all the given
    [k=v] pairs and, when [MessageID] is not 0, the id. *)
Definition matches (criteria : models.FilterCriteria.t) (m : StoredMessage)
    : bool :=
  bool_decide (map_Forall (fun k v => attributes m !! k = Some v)
                 (models.FilterCriteria.KV criteria))
  && ((models.FilterCriteria.MessageID criteria =? 0)
      || (id m =? models.FilterCriteria.MessageID criteria)).

(** Modelled from the spec: the messages that are not logically deleted
    (section 3, [Tombstoned]). *)
Definition alive (msgs : list StoredMessage) : list StoredMessage :=
  List.filter (fun m => negb (is_tombstoned m)) msgs.

(** Modelled from the spec: the messages of a queue that are not
    logically deleted. *)
Definition present (s : Store) (tenant : Z) (queue : string)
    : list StoredMessage :=
  match queues s !! (tenant, queue) with
  | None => []
  | Some qd => alive (messages qd)
  end.

(** Modelled from the spec: the engine's [Filter], whose code is not
    among the sources; [Filter] of section 4.B, bounded by the result
    cap. *)
Definition Filter (tenant : Z) (queue : string)
    (criteria : models.FilterCriteria.t) (s : Store) : Store * list Z :=
  (s, firstn (result_cap s)
        (List.map id (List.filter (matches criteria) (present s tenant queue)))).

(** Modelled from the spec: equality of message states. *)
Definition same_status (a b : models.MessageStatus) : bool :=
  match a, b with
  | models.Delayed, models.Delayed
  | models.Visible, models.Visible
  | models.Leased, models.Leased
  | models.Tombstoned, models.Tombstoned => true
  | _, _ => false
  end.

(** Modelled from the spec: the entry of [Counts] for a state. *)
Definition count_state (st : models.MessageStatus) (msgs : list StoredMessage)
    : Z :=
  Z.of_nat (List.length (List.filter (fun m => same_status (state m) st) msgs)).

(** Modelled from the spec: the engine's [Stats], whose code is not
    among the sources; [Stats] of section 4.B. *)
Definition Stats (tenant : Z) (queue : string) (s : Store)
    : Store * models.QueueStats.t :=
  let all := match queues s !! (tenant, queue) with
             | None => []
             | Some qd => messages qd
             end in
  (s, {| models.QueueStats.Counts :=
           List.map (fun st => (st, count_state st all))
             [models.Delayed; models.Visible; models.Leased;
              models.Tombstoned];
         models.QueueStats.TotalMessages :=
           Z.of_nat (List.length (present s tenant queue)) |}).

(** Modelled from the spec: the engine's [Peek], whose code is not
    among the sources; [Peek] of section 4.B. *)
Definition Peek (tenant : Z) (queue : string) (msg_id : Z) (s : Store)
    : Store * option models.Message.t :=
  (s, to_message <$>
        List.find (fun m => id m =? msg_id) (present s tenant queue)).

(** Modelled from the spec: the engine as an implementation of
    [models.Queue]. *)
#[global] Instance queue : models.Queue Store := {
  models.CreateQueue := create_queue;
  models.DeleteQueue := delete_queue;
  models.ListQueues := list_queues;
  models.Enqueue := Enqueue;
  models.Dequeue := Dequeue;
  models.Delete := Delete;
  models.Filter := Filter;
  models.Stats := Stats;
  models.Peek := Peek
}.

(** Modelled from the spec: the store of a fresh server whose clock
    reads [t]. *)
Definition empty (t : Z) (cap : nat) : Store :=
  {| now := t; result_cap := cap; queues := ∅ |}.

End engine.

(** A runtime that visits a map in the order of [map_to_list]. *)
#[global] Instance listing_runtime : GoRuntime := {|
  range := fun A m => map_to_list m;
  range_enumerates := fun A m => Permutation_refl (map_to_list m)
|}.

(** ** Vocabulary of the properties *)

(** [s] ends with [suffix]. *)
Definition ends_with (s suffix : string) : Prop :=
  exists p : string, s = p +:+ suffix.

Fixpoint has_slash (s : string) : bool :=
  match s with
  | EmptyString => false
  | String c s' => Ascii.eqb c "/"%char || has_slash s'
  end.

(** The final path segment of a URL: the text after its last slash, the
    whole text when it has none. *)
Fixpoint final_segment (url : string) : string :=
  match url with
  | EmptyString => EmptyString
  | String c rest =>
      if has_slash rest then final_segment rest
      else if Ascii.eqb c "/"%char then rest
      else url
  end.

(** [https://sqs.<region>.amazonaws.com/<tenant>/<queue>] *)
Definition QueueUrl_format (host tenant queue : string) : string :=
  host +:+ "/" +:+ tenant +:+ "/" +:+ queue.

Definition set_QueueUrl (u : string) (o : JSONObject.t) : JSONObject.t :=
  {| JSONObject.QueueUrl := u;
     JSONObject.QueueName := JSONObject.QueueName o;
     JSONObject.QueueNamePrefix := JSONObject.QueueNamePrefix o;
     JSONObject.MessageBody := JSONObject.MessageBody o;
     JSONObject.DelaySeconds := JSONObject.DelaySeconds o;
     JSONObject.MessageAttributes := JSONObject.MessageAttributes o;
     JSONObject.MessageDeduplicationId := JSONObject.MessageDeduplicationId o;
     JSONObject.MessageGroupId := JSONObject.MessageGroupId o;
     JSONObject.AttributeNames := JSONObject.AttributeNames o;
     JSONObject.MessageAttributeNames := JSONObject.MessageAttributeNames o;
     JSONObject.MaxNumberOfMessages := JSONObject.MaxNumberOfMessages o;
     JSONObject.VisibilityTimeout := JSONObject.VisibilityTimeout o;
     JSONObject.WaitTimeSeconds := JSONObject.WaitTimeSeconds o;
     JSONObject.ReceiveRequestAttemptId := JSONObject.ReceiveRequestAttemptId o;
     JSONObject.ReceiptHandle := JSONObject.ReceiptHandle o;
     JSONObject.Attributes := JSONObject.Attributes o;
     JSONObject.Tags := JSONObject.Tags o |}.

Definition set_MaxNumberOfMessages (n : Z) (o : JSONObject.t) : JSONObject.t :=
  {| JSONObject.QueueUrl := JSONObject.QueueUrl o;
     JSONObject.QueueName := JSONObject.QueueName o;
     JSONObject.QueueNamePrefix := JSONObject.QueueNamePrefix o;
     JSONObject.MessageBody := JSONObject.MessageBody o;
     JSONObject.DelaySeconds := JSONObject.DelaySeconds o;
     JSONObject.MessageAttributes := JSONObject.MessageAttributes o;
     JSONObject.MessageDeduplicationId := JSONObject.MessageDeduplicationId o;
     JSONObject.MessageGroupId := JSONObject.MessageGroupId o;
     JSONObject.AttributeNames := JSONObject.AttributeNames o;
     JSONObject.MessageAttributeNames := JSONObject.MessageAttributeNames o;
     JSONObject.MaxNumberOfMessages := n;
     JSONObject.VisibilityTimeout := JSONObject.VisibilityTimeout o;
     JSONObject.WaitTimeSeconds := JSONObject.WaitTimeSeconds o;
     JSONObject.ReceiveRequestAttemptId := JSONObject.ReceiveRequestAttemptId o;
     JSONObject.ReceiptHandle := JSONObject.ReceiptHandle o;
     JSONObject.Attributes := JSONObject.Attributes o;
     JSONObject.Tags := JSONObject.Tags o |}.

Definition set_VisibilityTimeout (n : Z) (o : JSONObject.t) : JSONObject.t :=
  {| JSONObject.QueueUrl := JSONObject.QueueUrl o;
     JSONObject.QueueName := JSONObject.QueueName o;
     JSONObject.QueueNamePrefix := JSONObject.QueueNamePrefix o;
     JSONObject.MessageBody := JSONObject.MessageBody o;
     JSONObject.DelaySeconds := JSONObject.DelaySeconds o;
     JSONObject.MessageAttributes := JSONObject.MessageAttributes o;
     JSONObject.MessageDeduplicationId := JSONObject.MessageDeduplicationId o;
     JSONObject.MessageGroupId := JSONObject.MessageGroupId o;
     JSONObject.AttributeNames := JSONObject.AttributeNames o;
     JSONObject.MessageAttributeNames := JSONObject.MessageAttributeNames o;
     JSONObject.MaxNumberOfMessages := JSONObject.MaxNumberOfMessages o;
     JSONObject.VisibilityTimeout := n;
     JSONObject.WaitTimeSeconds := JSONObject.WaitTimeSeconds o;
     JSONObject.ReceiveRequestAttemptId := JSONObject.ReceiveRequestAttemptId o;
     JSONObject.ReceiptHandle := JSONObject.ReceiptHandle o;
     JSONObject.Attributes := JSONObject.Attributes o;
     JSONObject.Tags := JSONObject.Tags o |}.

Definition set_Body (b : option JSONObject.t) (c : Ctx.t) : Ctx.t :=
  {| Ctx.ReqHeaders := Ctx.ReqHeaders c;
     Ctx.Body := b;
     Ctx.Locals := Ctx.Locals c |}.

(** The JSON object with every key absent. *)
Definition empty_object : JSONObject.t :=
  JSONObject.mk "" "" "" "" 0 ∅ "" "" [] [] 0 0 0 "" "" ∅ ∅.

(** A request for [target] that the middleware has authenticated as
    [tenantId]. *)
Definition request (target : string) (tenantId : Z) (o : JSONObject.t)
    : Ctx.t :=
  {| Ctx.ReqHeaders := {[ "X-Amz-Target" := [target] ]};
     Ctx.Body := Some o;
     Ctx.Locals := {[ "tenantId" := tenantId ]} |}.

Definition is_lower_hex (c : ascii) : bool :=
  let n := Z.of_N (N_of_ascii c) in
  ((48 <=? n) && (n <=? 57)) || ((97 <=? n) && (n <=? 102)).

Fixpoint all_chars (p : ascii -> bool) (s : string) : bool :=
  match s with
  | EmptyString => true
  | String c s' => p c && all_chars p s'
  end.

Definition set_tenantId (tenantId : Z) (c : Ctx.t) : Ctx.t :=
  {| Ctx.ReqHeaders := Ctx.ReqHeaders c;
     Ctx.Body := Ctx.Body c;
     Ctx.Locals := <["tenantId" := tenantId]> (Ctx.Locals c) |}.

(** A tenant directory with a single access key, and a verifier that
    reads the access key from the [Authorization] header and accepts
    every signature; they serve the worked examples only. *)
Definition single_tenant : models.TenantManager :=
  {| models.GetTenant := 1;
     models.GetAWSSecretKey :=
       fun accessKey region =>
         if String.eqb accessKey "AKIDEXAMPLE" then inr (1, "secret")
         else inl (service_error UnknownAccessKey) |}.

Definition lenient_verifier : Verifier :=
  {| Request := Ctx.t;
     ConvertRequest := fun c => inr c;
     ParseAuthorizationHeader :=
       fun r =>
         match Ctx.ReqHeaders r !! "Authorization" with
         | Some [v] => inr {| AWSHeader.AccessKey := v;
                              AWSHeader.Region := "us-east-1" |}
         | _ => inl (service_error MissingAuthHeader)
         end;
     ValidateAWSRequest := fun _ _ _ => None |}.

(** A signed request as it reaches the middleware; the signature
    material, here the payload digest, varies with the body. *)
Definition signed_request (target digest : string) (o : JSONObject.t) : Ctx.t :=
  {| Ctx.ReqHeaders := {[ "X-Amz-Target" := [target];
                          "Authorization" := ["AKIDEXAMPLE"];
                          "X-Amz-Content-Sha256" := [digest] ]};
     Ctx.Body := Some o;
     Ctx.Locals := ∅ |}.

(** *** Attributes on the wire *)

(** The attributes that the adapter carries from sender to receiver: the
    name does not end in [_DataType], the type is one of the three the
    handlers test for, and a Binary value is the text that
    [base64.StdEncoding.EncodeToString] writes for some bytes: padded,
    without line breaks, the unused bits of the last digit zero.
    [DecodeString] accepts other text as well, which the receiver's
    encoder does not write back as it was sent. *)
Definition carried (name : string) (v : MessageAttributeValue.t) : Prop :=
  ~ ends_with name "_DataType" /\
  (MessageAttributeValue.DataType v = "String" \/
   MessageAttributeValue.DataType v = "Number" \/
   (MessageAttributeValue.DataType v = "Binary" /\
    exists data : list byte,
      MessageAttributeValue.BinaryValue v = base64_EncodeToString data)).

(** The value that [SendMessage] stores under the name of an attribute. *)
Definition flat_value (v : MessageAttributeValue.t) : string :=
  if String.eqb (MessageAttributeValue.DataType v) "Binary" then
    MessageAttributeValue.BinaryValue v
  else MessageAttributeValue.StringValue v.

(** The sent attribute as the receiver's struct holds it: same type,
    the string value for String and Number, the decoded bytes for
    Binary. *)
Definition received_attribute (v : MessageAttributeValue.t)
    : MessageAttribute.t :=
  if String.eqb (MessageAttributeValue.DataType v) "Binary" then
    MessageAttribute.mk ""
      (default [] (base64_DecodeString (MessageAttributeValue.BinaryValue v)))
      [] [] "Binary"
  else
    MessageAttribute.mk (MessageAttributeValue.StringValue v) [] [] []
      (MessageAttributeValue.DataType v).

(** [encoding/json] writes a [[]byte] field as its base64 text. *)
Definition wire_BinaryValue (a : MessageAttribute.t) : string :=
  base64_EncodeToString (MessageAttribute.BinaryValue a).

(** *** The engine state *)

(** Ids are unique within a queue and below the next id to hand out. *)
Definition wf_queue (qd : engine.QueueData) : Prop :=
  NoDup (List.map engine.id (engine.messages qd)) /\
  Forall (fun m => engine.id m < engine.next_id qd) (engine.messages qd).

Definition wf (s : engine.Store) : Prop :=
  map_Forall (fun _ qd => wf_queue qd) (engine.queues s).

(** The stored message with a given id. *)
Definition stored_message (s : engine.Store) (tenant : Z) (queue : string)
    (msg_id : Z) : option engine.StoredMessage :=
  match engine.queues s !! (tenant, queue) with
  | None => None
  | Some qd =>
      List.find (fun m => engine.id m =? msg_id) (engine.messages qd)
  end.

(** The message may be claimed by a [Dequeue] at the time of [s]. *)
Definition deliverable (s : engine.Store) (tenant : Z) (queue : string)
    (msg_id : Z) : bool :=
  match stored_message s tenant queue msg_id with
  | Some m => engine.eligible (engine.now s) m
  | None => false
  end.

(** The seconds for which a leased message stays invisible. *)
Definition lease_remaining (s : engine.Store) (tenant : Z) (queue : string)
    (msg_id : Z) : option Z :=
  match stored_message s tenant queue msg_id with
  | Some m =>
      match engine.state m with
      | models.Leased => Some (engine.visible_at m - engine.now s)
      | _ => None
      end
  | None => None
  end.

(** Every stored message carries a visibility timeout of 30 seconds. *)
Definition thirty_only (s : engine.Store) : Prop :=
  map_Forall
    (fun _ qd =>
       Forall (fun m => engine.visibility_s m = 30) (engine.messages qd))
    (engine.queues s).

(** The states of a server that started empty and has served requests
    of the wire protocol while time went by. *)
Inductive reachable `{!GoRuntime} : engine.Store -> Prop :=
| reachable_empty (t : Z) (cap : nat) : reachable (engine.empty t cap)
| reachable_Action (c : Ctx.t) (s : engine.Store) :
    reachable s -> reachable (fst (sqs.Action c s))
| reachable_advance (dt : Z) (s : engine.Store) :
    reachable s -> reachable (engine.advance dt s).

(** The reading of the per-receive override: every message that the
    [ReceiveMessage] returns is leased for the [VisibilityTimeout] of
    the request, or for 30 seconds when the request has none. *)
Definition honours_VisibilityTimeout `{!GoRuntime} (c : Ctx.t) (tenantId : Z)
    (s : engine.Store) : Prop :=
  forall o s' r,
    Ctx.Body c = Some o ->
    sqs.ReceiveMessage c tenantId s
      = (s', inr (JSON_ReceiveMessageResponse r)) ->
    forall m msg_id,
      m ∈ ReceiveMessageResponse.Messages r ->
      Message.MessageId m = fmt_Sprintf_d msg_id ->
      lease_remaining s' tenantId (final_segment (JSONObject.QueueUrl o)) msg_id
        = Some (if JSONObject.VisibilityTimeout o =? 0 then 30
                else JSONObject.VisibilityTimeout o).

(** *** Worked examples: request bodies and a small deployment *)

Definition CreateQueue_body (name : string) : JSONObject.t :=
  JSONObject.mk "" name "" "" 0 ∅ "" "" [] [] 0 0 0 "" "" ∅ ∅.

Definition ListQueues_body (prefix : string) : JSONObject.t :=
  JSONObject.mk "" "" prefix "" 0 ∅ "" "" [] [] 0 0 0 "" "" ∅ ∅.

Definition SendMessage_body (url body : string) (delay : Z)
    (attrs : gmap string MessageAttributeValue.t) : JSONObject.t :=
  JSONObject.mk url "" "" body delay attrs "" "" [] [] 0 0 0 "" "" ∅ ∅.

Definition ReceiveMessage_body (url : string) (max_n visibility : Z)
    : JSONObject.t :=
  JSONObject.mk url "" "" "" 0 ∅ "" "" [] [] max_n visibility 0 "" "" ∅ ∅.

Definition PurgeQueue_body (url : string) : JSONObject.t :=
  JSONObject.mk url "" "" "" 0 ∅ "" "" [] [] 0 0 0 "" "" ∅ ∅.

Definition q1_url : string := "https://sqs.us-east-1.amazonaws.com/1/q1".

(** The engine state after a request, and the answer to it. *)
Definition state_after (c : Ctx.t) (s : engine.Store) : engine.Store :=
  fst (sqs.Action c s).

Definition answer_to (c : Ctx.t) (s : engine.Store) : error + Response :=
  snd (sqs.Action c s).

(** Tenant 1 owns the queues [q1] and [q2], tenant 2 owns [q3]; the
    clock reads 100 and [Filter] returns at most 1000 ids. *)
Definition three_queues : engine.Store :=
  state_after (request "AmazonSQS.CreateQueue" 2 (CreateQueue_body "q3"))
    (state_after (request "AmazonSQS.CreateQueue" 1 (CreateQueue_body "q2"))
       (state_after (request "AmazonSQS.CreateQueue" 1 (CreateQueue_body "q1"))
          (engine.empty 100 1000))).

Definition String_attribute (v : string) : MessageAttributeValue.t :=
  MessageAttributeValue.mk v "" [] [] "String".

Definition Number_attribute (v : string) : MessageAttributeValue.t :=
  MessageAttributeValue.mk v "" [] [] "Number".

Definition Binary_attribute (v : string) : MessageAttributeValue.t :=
  MessageAttributeValue.mk "" v [] [] "Binary".

(** [hello world] sent to [q1] with a Binary and a Number attribute. *)
Definition hello_attributes : gmap string MessageAttributeValue.t :=
  {[ "foo" := Binary_attribute "aGVsbG8="; "n" := Number_attribute "42" ]}.

Definition hello_sent : engine.Store :=
  state_after
    (request "AmazonSQS.SendMessage" 1
       (SendMessage_body q1_url "hello world" 0 hello_attributes))
    three_queues.

(** The answer to a [ReceiveMessage] on [q1] once [hello world] is
    there. *)
Definition hello_received : ReceiveMessageResponse.t :=
  {| ReceiveMessageResponse.Messages :=
       [ {| Message.MessageId := "1";
            Message.ReceiptHandle := "1";
            Message.MD5OfBody := "5eb63bbbe01eeed093cb22bb8f5acdc3";
            Message.Body := "hello world";
            Message.Attributes := ∅;
            Message.MD5OfMessageAttributes := "";
            Message.MessageAttributes :=
              {[ "foo" := MessageAttribute.mk ""
                            (list_byte_of_string "hello") [] [] "Binary";
                 "n" := MessageAttribute.mk "42" [] [] [] "Number" ]} |} ] |}.

(** The answer to the [SendMessage] of [hello world]. *)
Definition hello_accepted : SendMessageResponse.t :=
  {| SendMessageResponse.MD5OfMessageBody := "5eb63bbbe01eeed093cb22bb8f5acdc3";
     SendMessageResponse.MD5OfMessageAttributes := "";
     SendMessageResponse.MessageId := "1";
     SendMessageResponse.SequenceNumber := "" |}.

(** [n] messages sent to [q1] by tenant 1, one after the other. *)
Definition sent_to_q1 (n : nat) (s : engine.Store) : engine.Store :=
  fold_left
    (fun s' _ =>
       state_after
         (request "AmazonSQS.SendMessage" 1 (SendMessage_body q1_url "m" 0 ∅))
         s')
    (seq 0 n) s.

Definition twelve_sent : engine.Store := sent_to_q1 12 three_queues.

(** *** Vocabulary of the further properties *)

(** The operations that [Action] dispatches. *)
Definition implemented_methods : list string :=
  [ "AmazonSQS.SendMessage"; "AmazonSQS.ReceiveMessage";
    "AmazonSQS.DeleteMessage"; "AmazonSQS.ListQueues";
    "AmazonSQS.CreateQueue"; "AmazonSQS.GetQueueAttributes";
    "AmazonSQS.PurgeQueue"; "AmazonSQS.DeleteQueue" ].

(** A request without an [Authorization] header. *)
Definition unsigned_request (target : string) (o : JSONObject.t) : Ctx.t :=
  {| Ctx.ReqHeaders := {[ "X-Amz-Target" := [target] ]};
     Ctx.Body := Some o;
     Ctx.Locals := ∅ |}.

(** A decimal numeral as [strconv.ParseInt] reads it: an optional sign
    and at least one digit. *)
Definition is_digit (c : ascii) : bool :=
  (48 <=? byte_value c) && (byte_value c <=? 57).

Definition decimal_numeral (s : string) : bool :=
  let digits :=
    match s with
    | String "-" r => r
    | String "+" r => r
    | _ => s
    end in
  negb (String.eqb digits "") && all_chars is_digit digits.

(** A [DeleteMessage] request body. *)
Definition DeleteMessage_body (url handle : string) : JSONObject.t :=
  JSONObject.mk url "" "" "" 0 ∅ "" "" [] [] 0 0 0 "" handle ∅ ∅.

Definition GetQueueAttributes_body (url : string) (names : list string)
    : JSONObject.t :=
  JSONObject.mk url "" "" "" 0 ∅ "" "" names [] 0 0 0 "" "" ∅ ∅.

(** The types of attribute that [SendMessage] and [ReceiveMessage] test
    for. *)
Definition supported_DataType (DataType : string) : bool :=
  String.eqb DataType "String" || String.eqb DataType "Number"
  || String.eqb DataType "Binary".

(** A runtime that visits a map in the opposite order. *)
Definition reversed_runtime : GoRuntime :=
  {| range := fun A m => reverse (map_to_list m);
     range_enumerates := fun A m => reverse_Permutation (map_to_list m) |}.

(** Two engines that answer alike whatever is asked about one queue of
    one tenant and about the list of that tenant's queues. *)
Record same_for {Q : Type} (E1 E2 : models.Queue Q) (tenantId : Z)
    (queue : string) : Prop := {
  same_CreateQueue : forall q,
    @models.CreateQueue Q E1 tenantId queue q
      = @models.CreateQueue Q E2 tenantId queue q;
  same_DeleteQueue : forall q,
    @models.DeleteQueue Q E1 tenantId queue q
      = @models.DeleteQueue Q E2 tenantId queue q;
  same_ListQueues : forall q,
    @models.ListQueues Q E1 tenantId q = @models.ListQueues Q E2 tenantId q;
  same_Enqueue : forall msg kv delay visibility q,
    @models.Enqueue Q E1 tenantId queue msg kv delay visibility q
      = @models.Enqueue Q E2 tenantId queue msg kv delay visibility q;
  same_Dequeue : forall n q,
    @models.Dequeue Q E1 tenantId queue n q
      = @models.Dequeue Q E2 tenantId queue n q;
  same_Delete : forall id q,
    @models.Delete Q E1 tenantId queue id q
      = @models.Delete Q E2 tenantId queue id q;
  same_Filter : forall criteria q,
    @models.Filter Q E1 tenantId queue criteria q
      = @models.Filter Q E2 tenantId queue criteria q;
  same_Stats : forall q,
    @models.Stats Q E1 tenantId queue q = @models.Stats Q E2 tenantId queue q;
  same_Peek : forall id q,
    @models.Peek Q E1 tenantId queue id q
      = @models.Peek Q E2 tenantId queue id q
}.

(** The queue that a request names: [QueueName] for [CreateQueue], the
    final segment of [QueueUrl] for every other operation. *)
Definition addressed_queue (awsMethod : string) (o : JSONObject.t) : string :=
  if String.eqb awsMethod "AmazonSQS.CreateQueue" then JSONObject.QueueName o
  else final_segment (JSONObject.QueueUrl o).

(** The sum of the counts of a [QueueStats]. *)
Definition sum_of_Counts (Counts : list (models.MessageStatus * Z)) : Z :=
  foldr Z.add 0 Counts.*2.

(** A character of a field of the filter, ASCII and not white space; a
    character of a word is moreover not the equals sign. *)
Definition is_field_char (c : ascii) : bool :=
  (byte_value c <? RuneSelf) && negb (unicode_IsSpace (byte_value c)).

Definition is_word_char (c : ascii) : bool :=
  is_field_char c && negb (Ascii.eqb c "=").

(** The request for the page of a queue with a filter. *)
Definition Queue_page (queue filter : string) : Page.t :=
  {| Page.Params := {[ "queue" := queue ]};
     Page.Query := {[ "filter" := filter ]};
     Page.FormValue := ∅ |}.

(** ** The client test ([tests/js/test.js]) *)

Module test_js.

Section client.
Context {Q : Type} `{!models.Queue Q} `{!GoRuntime}.

(** [sqs.send(new Command(input))] against the adapter, with the
    credentials of tenant [tenantId]: the command's operation as the
    [X-Amz-Target], its input as the body; the promise is rejected when
    the handler returns an error. *)
Definition send (tenantId : Z) (target : string) (input : JSONObject.t)
    : Handler Q Response :=
  sqs.Action (request target tenantId input).

(** [createOrGetQueue(sqs, queueName)]: the URL of the queue and whether
    it was created; [None] is the [undefined] of a response without a
    [QueueUrl]. *)
Definition createOrGetQueue (tenantId : Z) (queueName : string)
    : Handler Q (option string * bool) :=
  let options := ListQueues_body queueName in
  listResponse ← send tenantId "AmazonSQS.ListQueues" options;
  match listResponse with
  | JSON_ListQueuesResponse
      {| ListQueuesResponse.QueueUrls := queueUrl :: _ |} =>
      mret (Some queueUrl, false)
  | _ =>
      createResponse ←
        send tenantId "AmazonSQS.CreateQueue" (CreateQueue_body queueName);
      let queueUrl :=
        match createResponse with
        | JSON_CreateQueueResponse r => Some (CreateQueueResponse.QueueUrl r)
        | _ => None
        end in
      mret (queueUrl, true)
  end.

End client.

End test_js.

(** The engine cut down to the queues of one tenant that [serves]
    admits: a call about any other queue fails or finds nothing.  It
    serves the worked examples only. *)
Definition restricted (tenant : Z) (serves : string -> bool)
    : models.Queue engine.Store :=
  let here (t : Z) (name : string) : bool := (t =? tenant) && serves name in
  let refused {A : Type} : Handler engine.Store A :=
    throw (service_error InternalFailure) in
  {| models.CreateQueue := fun t name =>
       if here t name then engine.create_queue t name else refused;
     models.DeleteQueue := fun t name =>
       if here t name then engine.delete_queue t name else refused;
     models.ListQueues := fun t =>
       if t =? tenant then engine.list_queues t else refused;
     models.Enqueue := fun t name msg kv delay_s visibility_s =>
       if here t name then engine.Enqueue t name msg kv delay_s visibility_s
       else refused;
     models.Dequeue := fun t name max_n =>
       if here t name then engine.Dequeue t name max_n else refused;
     models.Delete := fun t name msg_id =>
       if here t name then engine.Delete t name msg_id else refused;
     models.Filter := fun t name criteria s =>
       if here t name then engine.Filter t name criteria s else (s, []);
     models.Stats := fun t name s =>
       if here t name then engine.Stats t name s
       else (s, {| models.QueueStats.Counts := [];
                   models.QueueStats.TotalMessages := 0 |});
     models.Peek := fun t name msg_id s =>
       if here t name then engine.Peek t name msg_id s else (s, None) |}.

(** The request for the page of a message. *)
Definition Message_page (queue message : string) : Page.t :=
  {| Page.Params := {[ "queue" := queue; "message" := message ]};
     Page.Query := ∅;
     Page.FormValue := ∅ |}.

(** Two attributes, one of a type of the sender's own. *)
Definition shaded_attributes : gmap string MessageAttributeValue.t :=
  {[ "colour" := String_attribute "red";
     "shade" := MessageAttributeValue.mk "dark" "" [] [] "String.shade" ]}.

(** A [DeleteQueue] request body. *)
Definition DeleteQueue_body (url : string) : JSONObject.t :=
  JSONObject.mk url "" "" "" 0 ∅ "" "" [] [] 0 0 0 "" "" ∅ ∅.

(** A request of the dashboard that names a queue in its form and in
    its route alike. *)
Definition Queue_form (queue : string) : Page.t :=
  {| Page.Params := {[ "queue" := queue ]};
     Page.Query := ∅;
     Page.FormValue := {[ "queue" := queue ]} |}.

(** ** Go library functions: properties *)

Lemma strings_Split_nonempty (s : string) (sep : ascii) :
  strings_Split s sep <> [].
Proof.
  destruct s as [|c s]; simpl; [discriminate|].
  destruct (Ascii.eqb c sep); [discriminate|].
  destruct (strings_Split s sep); discriminate.
Qed.

Lemma strings_Split_app (p b : string) :
  strings_Split (p +:+ String "/" b) "/" =
  strings_Split p "/" ++ strings_Split b "/".
Proof.
  induction p as [|c p IH]; simpl; [reflexivity|].
  destruct (Ascii.eqb c "/"); [by rewrite IH|].
  rewrite IH.
  pose proof (strings_Split_nonempty p "/") as Hne.
  destruct (strings_Split p "/"); [done|reflexivity].
Qed.

Lemma strings_Split_no_slash (s : string) :
  has_slash s = false -> strings_Split s "/" = [s].
Proof.
  induction s as [|c s IH]; simpl; [reflexivity|].
  intros [Hc Hs]%orb_false_elim. rewrite Hc, (IH Hs). reflexivity.
Qed.

Lemma last_lookup_length {A} (l : list A) :
  l !! (List.length l - 1)%nat = last l.
Proof. by rewrite last_lookup, Nat.sub_1_r. Qed.

Lemma strings_Split_single (s t : string) :
  strings_Split s "/" = [t] -> has_slash s = false.
Proof.
  revert t. induction s as [|c s IH]; simpl; intros t E; [reflexivity|].
  pose proof (strings_Split_nonempty s "/") as Hne.
  destruct (Ascii.eqb c "/"); simpl.
  - destruct (strings_Split s "/"); [done|discriminate].
  - destruct (strings_Split s "/") as [|u [|u' us]]; [done| |discriminate].
    by apply (IH u).
Qed.

Lemma last_Split_final_segment (url : string) :
  last (strings_Split url "/") = Some (final_segment url).
Proof.
  induction url as [|c rest IH]; simpl; [reflexivity|].
  pose proof (strings_Split_nonempty rest "/") as Hne.
  destruct (has_slash rest) eqn:Hs.
  - destruct (Ascii.eqb c "/").
    + destruct (strings_Split rest "/"); [done|exact IH].
    + destruct (strings_Split rest "/") as [|t [|t' ts]] eqn:E; [done| |exact IH].
      apply strings_Split_single in E. congruence.
  - rewrite (strings_Split_no_slash _ Hs).
    destruct (Ascii.eqb c "/"); reflexivity.
Qed.

Lemma queue_of_url_final_segment (url : string) :
  sqs.queue_of_url url = inr (final_segment url).
Proof.
  unfold sqs.queue_of_url.
  by rewrite last_lookup_length, last_Split_final_segment.
Qed.

Lemma final_segment_app (p name : string) :
  has_slash name = false -> final_segment (p +:+ String "/" name) = name.
Proof.
  intros Hn.
  pose proof (last_Split_final_segment (p +:+ String "/" name)) as H.
  rewrite strings_Split_app, (strings_Split_no_slash _ Hn) in H.
  rewrite last_snoc in H. congruence.
Qed.

(** *** Decimal numerals *)

Lemma parse_digits_acc (d : Decimal.uint) (acc : positive) :
  parse_digits (Z.pos acc) (NilEmpty.string_of_uint d) =
  Some (Z.pos (Pos.of_uint_acc d acc)).
Proof.
  revert acc. induction d; intros acc; simpl; [reflexivity|..];
    unfold digit_of_ascii; simpl;
    match goal with
    | |- parse_digits ?z _ = Some (Z.pos (Pos.of_uint_acc _ ?a)) =>
        replace z with (Z.pos a) by lia
    end; apply IHd.
Qed.

Lemma parse_digits_of_uint (d : Decimal.uint) :
  parse_digits 0 (NilEmpty.string_of_uint d) = Some (Z.of_N (Pos.of_uint d)).
Proof.
  induction d; simpl; [reflexivity|exact IHd|..];
    unfold digit_of_ascii; simpl; apply parse_digits_acc.
Qed.

Lemma parse_digits_to_uint (p : positive) :
  parse_digits 0 (NilZero.string_of_uint (Pos.to_uint p)) = Some (Z.pos p).
Proof.
  pose proof (DecimalPos.Unsigned.to_uint_nonnil p) as Hnn.
  pose proof (DecimalPos.Unsigned.of_to p) as Hof.
  unfold NilZero.string_of_uint.
  destruct (Pos.to_uint p) eqn:E; [done|..];
    rewrite parse_digits_of_uint, Hof; reflexivity.
Qed.

(** The receipt handle that [ReceiveMessage] prints is the one
    [DeleteMessage] parses. *)
Lemma strconv_ParseInt_fmt_Sprintf_d (n : Z) :
  int64_min <= n <= int64_max ->
  strconv_ParseInt (fmt_Sprintf_d n) = Some n.
Proof.
  intros Hn. unfold fmt_Sprintf_d.
  assert (Hr : (int64_min <=? n) && (n <=? int64_max) = true).
  { apply andb_true_intro; split; apply Z.leb_le; lia. }
  destruct n as [|p|p]; simpl.
  - reflexivity.
  - pose proof (parse_digits_to_uint p) as Hp.
    pose proof (DecimalPos.Unsigned.to_uint_nonnil p) as Hnn.
    unfold strconv_ParseInt, NilZero.string_of_uint in *.
    destruct (Pos.to_uint p); [done|..]; simpl in *; rewrite Hp, Hr;
      reflexivity.
  - pose proof (parse_digits_to_uint p) as Hp.
    pose proof (DecimalPos.Unsigned.to_uint_nonnil p) as Hnn.
    unfold strconv_ParseInt. cbn [NilZero.string_of_int].
    cbv beta iota.
    unfold NilZero.string_of_uint in *.
    destruct (Pos.to_uint p); [done|..]; simpl in *; rewrite Hp;
      change (- Z.pos p) with (Z.neg p); rewrite Hr; reflexivity.
Qed.

Lemma fmt_Sprintf_d_inj (n m : Z) :
  fmt_Sprintf_d n = fmt_Sprintf_d m -> n = m.
Proof.
  unfold fmt_Sprintf_d. intros H.
  apply DecimalZ.to_int_inj.
  assert (Hi : forall z, NilZero.int_of_string (NilZero.string_of_int (Z.to_int z))
                         = Some (Z.to_int z)).
  { intros z. apply NilZero.isi; destruct z; simpl; try discriminate;
      intros [= E]; by apply (DecimalPos.Unsigned.to_uint_nonnil p). }
  pose proof (Hi n) as Hn. rewrite H, Hi in Hn. congruence.
Qed.

(** *** Suffixes *)

Lemma substring_all (s : string) : substring 0 (String.length s) s = s.
Proof. induction s as [|c s IH]; simpl; [reflexivity|by rewrite IH]. Qed.

Lemma substring_skip_prefix (p s : string) :
  substring (String.length p) (String.length s) (p +:+ s) = s.
Proof. induction p; simpl; [apply substring_all|assumption]. Qed.

Lemma substring_suffix (n : nat) (s : string) :
  (n <= String.length s)%nat ->
  exists p, s = p +:+ substring n (String.length s - n) s.
Proof.
  revert s. induction n as [|n IH]; intros s Hn.
  - exists EmptyString. rewrite Nat.sub_0_r, substring_all. reflexivity.
  - destruct s as [|c s]; simpl in Hn; [lia|].
    destruct (IH s) as [p Hp]; [lia|].
    exists (String c p). simpl.
    change (String c s = String c (p +:+ substring n (String.length s - n) s)).
    by rewrite <- Hp.
Qed.

Lemma append_assoc (a b c : string) : (a +:+ b) +:+ c = a +:+ b +:+ c.
Proof.
  induction a as [|x a IH]; [reflexivity|].
  change (String x ((a +:+ b) +:+ c) = String x (a +:+ b +:+ c)).
  by rewrite IH.
Qed.

Lemma length_append (a b : string) :
  String.length (a +:+ b) = (String.length a + String.length b)%nat.
Proof. induction a as [|c a IH]; simpl; [reflexivity|by rewrite IH]. Qed.

Lemma strings_HasSuffix_spec (s suffix : string) :
  strings_HasSuffix s suffix = true <-> ends_with s suffix.
Proof.
  unfold strings_HasSuffix, ends_with. split.
  - intros [Hlen Heq]%andb_true_iff.
    apply Nat.leb_le in Hlen. apply String.eqb_eq in Heq.
    destruct (substring_suffix (String.length s - String.length suffix) s)
      as [p Hp]; [lia|].
    exists p.
    replace (String.length s - (String.length s - String.length suffix))%nat
      with (String.length suffix) in Hp by lia.
    congruence.
  - intros [p ->]. apply andb_true_iff. split.
    + apply Nat.leb_le. rewrite length_append. lia.
    + apply String.eqb_eq. rewrite length_append.
      replace (String.length p + String.length suffix - String.length suffix)%nat
        with (String.length p) by lia.
      apply substring_skip_prefix.
Qed.

(** *** Hexadecimal digests *)

Lemma hex_EncodeToString_lower (src : list byte) :
  all_chars is_lower_hex (hex_EncodeToString src) = true.
Proof.
  induction src as [|b src IH]; [reflexivity|].
  cbn [hex_EncodeToString all_chars]. rewrite IH.
  destruct b; reflexivity.
Qed.

Lemma hex_EncodeToString_length (src : list byte) :
  String.length (hex_EncodeToString src) = (2 * List.length src)%nat.
Proof. induction src; simpl in *; lia. Qed.

Lemma md5_digest_length (msg : list byte) : List.length (md5_digest msg) = 16%nat.
Proof.
  unfold md5_digest.
  destruct (md5_blocks _ _) as [[[a b] c] d].
  reflexivity.
Qed.

(** The digests of the RFC 1321 test suite and of the body of the
    end-to-end scenario. *)
Lemma md5_digest_test_suite :
  hex_EncodeToString (md5_digest (list_byte_of_string ""))
    = "d41d8cd98f00b204e9800998ecf8427e" /\
  hex_EncodeToString (md5_digest (list_byte_of_string "abc"))
    = "900150983cd24fb0d6963f7d28e17f72" /\
  hex_EncodeToString (md5_digest (list_byte_of_string "message digest"))
    = "f96b697d7cb7938d525a2f31aaf161d0" /\
  hex_EncodeToString
    (md5_digest
       (list_byte_of_string
          ("1234567890123456789012345678901234567890"
             +:+ "1234567890123456789012345678901234567890")))
    = "57edf4a22be3c955ac49da2e2107b67a" /\
  hex_EncodeToString (md5_digest (list_byte_of_string "hello world"))
    = "5eb63bbbe01eeed093cb22bb8f5acdc3".
Proof. repeat split; vm_compute; reflexivity. Qed.

Lemma Hasher_fresh (h : Hasher) (p : list byte) :
  Hasher_Sum (Hasher_Write (Hasher_Reset h) p) = md5_digest p.
Proof. reflexivity. Qed.

(** *** Base64 *)

Lemma Z_of_byte_range (b : byte) : 0 <= Z_of_byte b < 256.
Proof.
  unfold Z_of_byte. pose proof (Byte.to_N_bounded b). lia.
Qed.

Lemma byte_of_Z_of_byte (b : byte) : byte_of_Z (Z_of_byte b) = b.
Proof.
  unfold byte_of_Z. rewrite Z.mod_small by apply Z_of_byte_range.
  unfold Z_of_byte. by rewrite N2Z.id, Byte.of_to_N.
Qed.

Lemma b64_char_facts (n : Z) :
  0 <= n < 64 ->
  b64_value (b64_char n) = Some n /\
  Ascii.eqb (b64_char n) padChar = false /\
  is_newline (b64_char n) = false.
Proof.
  intros Hn.
  assert (Hk : exists k : nat, (k < 64)%nat /\ n = Z.of_nat k).
  { exists (Z.to_nat n). lia. }
  destruct Hk as (k & Hk & ->). clear Hn.
  do 64 (destruct k as [|k]; [by vm_compute|]). lia.
Qed.

Lemma strip_newlines_b64 (n : Z) (s : string) :
  0 <= n < 64 ->
  strip_newlines (String (b64_char n) s) = b64_char n :: strip_newlines s.
Proof.
  intros Hn. simpl. by rewrite (proj2 (proj2 (b64_char_facts n Hn))).
Qed.

Lemma decode_quantum (n1 n2 n3 n4 : Z) (rest : list ascii) :
  0 <= n1 < 64 -> 0 <= n2 < 64 -> 0 <= n3 < 64 -> 0 <= n4 < 64 ->
  decode_quanta (b64_char n1 :: b64_char n2 :: b64_char n3 :: b64_char n4 :: rest)
  = match decode_quanta rest with
    | Some tail =>
        let w := ((n1 * 64 + n2) * 64 + n3) * 64 + n4 in
        Some (byte_of_Z (w / 65536) :: byte_of_Z (w / 256 mod 256)
                :: byte_of_Z (w mod 256) :: tail)
    | None => None
    end.
Proof.
  intros H1 H2 H3 H4.
  destruct (b64_char_facts n1 H1) as (V1 & _ & _).
  destruct (b64_char_facts n2 H2) as (V2 & _ & _).
  destruct (b64_char_facts n3 H3) as (V3 & _ & _).
  destruct (b64_char_facts n4 H4) as (V4 & P4 & _).
  cbn [decode_quanta]. rewrite V1, V2, V3, V4, P4. reflexivity.
Qed.

Lemma decode_quantum_pad1 (n1 n2 n3 : Z) :
  0 <= n1 < 64 -> 0 <= n2 < 64 -> 0 <= n3 < 64 ->
  decode_quanta [b64_char n1; b64_char n2; b64_char n3; padChar]
  = let w := (n1 * 64 + n2) * 64 + n3 in
    Some [byte_of_Z (w / 1024); byte_of_Z (w / 4 mod 256)].
Proof.
  intros H1 H2 H3.
  destruct (b64_char_facts n1 H1) as (V1 & _ & _).
  destruct (b64_char_facts n2 H2) as (V2 & _ & _).
  destruct (b64_char_facts n3 H3) as (V3 & P3 & _).
  cbn [decode_quanta]. rewrite V1, V2, V3, P3. reflexivity.
Qed.

Lemma decode_quantum_pad2 (n1 n2 : Z) :
  0 <= n1 < 64 -> 0 <= n2 < 64 ->
  decode_quanta [b64_char n1; b64_char n2; padChar; padChar]
  = Some [byte_of_Z ((n1 * 64 + n2) / 16)].
Proof.
  intros H1 H2.
  destruct (b64_char_facts n1 H1) as (V1 & _ & _).
  destruct (b64_char_facts n2 H2) as (V2 & _ & _).
  cbn [decode_quanta]. rewrite V1, V2. reflexivity.
Qed.

Lemma list_ind3 {A} (P : list A -> Prop) :
  P [] -> (forall a, P [a]) -> (forall a b, P [a; b]) ->
  (forall a b c rest, P rest -> P (a :: b :: c :: rest)) ->
  forall l, P l.
Proof.
  intros H0 H1 H2 H3.
  assert (Hall : forall l, P l /\ (forall a, P (a :: l))
                           /\ (forall a b, P (a :: b :: l))).
  { induction l as [|x l (IH0 & IH1 & IH2)]; [by repeat split|].
    split; [apply IH1|split]; [intros a; apply IH2|].
    intros a b. by apply H3. }
  intros l. apply Hall.
Qed.

Lemma sextets_high (v : Z) :
  v / 262144 * 64 + v / 4096 mod 64 = v / 4096.
Proof.
  replace (v / 262144) with (v / 4096 / 64)
    by (rewrite Z.div_div by lia; reflexivity).
  pose proof (Z.div_mod (v / 4096) 64). lia.
Qed.

Lemma sextets_middle (v : Z) :
  (v / 262144 * 64 + v / 4096 mod 64) * 64 + v / 64 mod 64 = v / 64.
Proof.
  rewrite sextets_high.
  replace (v / 4096) with (v / 64 / 64)
    by (rewrite Z.div_div by lia; reflexivity).
  pose proof (Z.div_mod (v / 64) 64). lia.
Qed.

Lemma sextets_recompose (v : Z) :
  ((v / 262144 * 64 + v / 4096 mod 64) * 64 + v / 64 mod 64) * 64 + v mod 64
  = v.
Proof. rewrite sextets_middle. pose proof (Z.div_mod v 64). lia. Qed.

Lemma octets_of_one (a : Z) :
  0 <= a < 256 -> a * 65536 / 4096 / 16 = a.
Proof.
  intros Ha. rewrite Z.div_div by lia.
  replace (4096 * 16) with 65536 by reflexivity. apply Z.div_mul. lia.
Qed.

Lemma octets_of_two (a b : Z) :
  0 <= a < 256 -> 0 <= b < 256 ->
  (a * 65536 + b * 256) / 64 / 1024 = a /\
  (a * 65536 + b * 256) / 64 / 4 mod 256 = b.
Proof.
  intros Ha Hb. rewrite !Z.div_div by lia.
  change (64 * 1024) with 65536. change (64 * 4) with 256. split.
  - symmetry. apply (Z.div_unique _ _ _ (b * 256)); lia.
  - replace (a * 65536 + b * 256) with ((a * 256 + b) * 256) by lia.
    rewrite Z.div_mul by lia.
    replace (a * 256 + b) with (b + a * 256) by lia.
    rewrite Z.mod_add by lia. apply Z.mod_small. lia.
Qed.

Lemma octets_of_three (a b c : Z) :
  0 <= a < 256 -> 0 <= b < 256 -> 0 <= c < 256 ->
  (a * 65536 + b * 256 + c) / 65536 = a /\
  (a * 65536 + b * 256 + c) / 256 mod 256 = b /\
  (a * 65536 + b * 256 + c) mod 256 = c.
Proof.
  intros Ha Hb Hc. split; [|split].
  - symmetry. apply (Z.div_unique _ _ _ (b * 256 + c)); lia.
  - replace (a * 65536 + b * 256 + c) with (c + (a * 256 + b) * 256) by lia.
    rewrite Z.div_add by lia. rewrite (Z.div_small c) by lia.
    replace (0 + (a * 256 + b)) with (b + a * 256) by lia.
    rewrite Z.mod_add by lia. apply Z.mod_small. lia.
  - replace (a * 65536 + b * 256 + c) with (c + (a * 256 + b) * 256) by lia.
    rewrite Z.mod_add by lia. apply Z.mod_small. lia.
Qed.

Ltac sextet_range :=
  first [ apply Z.mod_pos_bound; lia
        | split; [apply Z.div_pos; lia | apply Z.div_lt_upper_bound; lia] ].

(** Decoding undoes encoding. *)
Lemma base64_DecodeString_EncodeToString (data : list byte) :
  base64_DecodeString (base64_EncodeToString data) = Some data.
Proof.
  unfold base64_DecodeString.
  induction data as [|a|a b|a b c rest IH] using list_ind3.
  - reflexivity.
  - pose proof (Z_of_byte_range a) as Ha.
    cbn [base64_EncodeToString]. cbv zeta.
    rewrite !strip_newlines_b64 by sextet_range.
    change (strip_newlines (String padChar (String padChar EmptyString)))
      with [padChar; padChar].
    rewrite decode_quantum_pad2 by sextet_range.
    rewrite sextets_high, (octets_of_one _ Ha), byte_of_Z_of_byte.
    reflexivity.
  - pose proof (Z_of_byte_range a) as Ha.
    pose proof (Z_of_byte_range b) as Hb.
    cbn [base64_EncodeToString]. cbv zeta.
    rewrite !strip_newlines_b64 by sextet_range.
    change (strip_newlines (String padChar EmptyString)) with [padChar].
    rewrite decode_quantum_pad1 by sextet_range.
    cbv zeta. rewrite sextets_middle.
    destruct (octets_of_two _ _ Ha Hb) as [-> ->].
    by rewrite !byte_of_Z_of_byte.
  - pose proof (Z_of_byte_range a) as Ha.
    pose proof (Z_of_byte_range b) as Hb.
    pose proof (Z_of_byte_range c) as Hc.
    cbn [base64_EncodeToString]. cbv zeta.
    rewrite !strip_newlines_b64 by sextet_range.
    rewrite decode_quantum by sextet_range.
    rewrite IH. cbv zeta. rewrite sextets_recompose.
    destruct (octets_of_three _ _ _ Ha Hb Hc) as (-> & -> & ->).
    by rewrite !byte_of_Z_of_byte.
Qed.

(** ** The handlers, step by step *)

Ltac unfold_handler :=
  unfold mbind, Handler_bind, mret, Handler_ret, lift, call, throw,
    sqs.Unmarshal in *.

Section adapter_equations.
Context {Q : Type} `{!models.Queue Q} `{!GoRuntime}.

(** What each handler computes once the body is decoded and the queue
    name is cut out of the URL. *)
Lemma ReceiveMessage_eq (c : Ctx.t) (tenantId : Z) (q : Q) :
  sqs.ReceiveMessage c tenantId q =
  match Ctx.Body c with
  | None => (q, inl json_SyntaxError)
  | Some o =>
      match models.Dequeue tenantId (final_segment (JSONObject.QueueUrl o))
              (if JSONObject.MaxNumberOfMessages o =? 0 then 1
               else JSONObject.MaxNumberOfMessages o) q with
      | (q', inl e) => (q', inl e)
      | (q', inr messages) =>
          (q', inr (JSON_ReceiveMessageResponse
                      {| ReceiveMessageResponse.Messages :=
                           sqs.ReceiveMessage_loop md5_New messages |}))
      end
  end.
Proof.
  unfold sqs.ReceiveMessage. unfold_handler.
  destruct (Ctx.Body c) as [o|]; simpl; [|reflexivity].
  rewrite queue_of_url_final_segment.
  destruct (models.Dequeue _ _ _ q) as [q' [e|messages]]; reflexivity.
Qed.

Lemma SendMessage_eq (c : Ctx.t) (tenantId : Z) (q : Q) :
  sqs.SendMessage c tenantId q =
  match Ctx.Body c with
  | None => (q, inl json_SyntaxError)
  | Some o =>
      match models.Enqueue tenantId (final_segment (JSONObject.QueueUrl o))
              (JSONObject.MessageBody o)
              (sqs.SendMessage_kv (JSONObject.MessageAttributes o))
              (JSONObject.DelaySeconds o) 30 q with
      | (q', inl e) => (q', inl e)
      | (q', inr messageId) =>
          (q', inr (JSON_SendMessageResponse
                      {| SendMessageResponse.MessageId :=
                           fmt_Sprintf_d messageId;
                         SendMessageResponse.MD5OfMessageBody :=
                           hex_EncodeToString
                             (md5_digest
                                (list_byte_of_string
                                   (JSONObject.MessageBody o)));
                         SendMessageResponse.MD5OfMessageAttributes := "";
                         SendMessageResponse.SequenceNumber := "" |}))
      end
  end.
Proof.
  unfold sqs.SendMessage. unfold_handler.
  destruct (Ctx.Body c) as [o|]; simpl; [|reflexivity].
  rewrite queue_of_url_final_segment. simpl.
  destruct (models.Enqueue _ _ _ _ _ _ q) as [q' [e|messageId]]; reflexivity.
Qed.

Lemma DeleteMessage_eq (c : Ctx.t) (tenantId : Z) (q : Q) :
  sqs.DeleteMessage c tenantId q =
  match Ctx.Body c with
  | None => (q, inl json_SyntaxError)
  | Some o =>
      match strconv_ParseInt (JSONObject.ReceiptHandle o) with
      | None => (q, inl (strconv_NumError (JSONObject.ReceiptHandle o)))
      | Some messageId =>
          match models.Delete tenantId (final_segment (JSONObject.QueueUrl o))
                  messageId q with
          | (q', inl e) => (q', inl e)
          | (q', inr _) => (q', inr NoBody)
          end
      end
  end.
Proof.
  unfold sqs.DeleteMessage. unfold_handler.
  destruct (Ctx.Body c) as [o|]; simpl; [|reflexivity].
  rewrite queue_of_url_final_segment. simpl.
  destruct (strconv_ParseInt _); [|reflexivity].
  destruct (models.Delete _ _ _ q) as [q' [e|[]]]; reflexivity.
Qed.

Lemma DeleteQueue_eq (c : Ctx.t) (tenantId : Z) (q : Q) :
  sqs.DeleteQueue c tenantId q =
  match Ctx.Body c with
  | None => (q, inl json_SyntaxError)
  | Some o =>
      match models.DeleteQueue tenantId
              (final_segment (JSONObject.QueueUrl o)) q with
      | (q', inl e) => (q', inl e)
      | (q', inr _) => (q', inr DeleteQueueResponse)
      end
  end.
Proof.
  unfold sqs.DeleteQueue. unfold_handler.
  destruct (Ctx.Body c) as [o|]; simpl; [|reflexivity].
  rewrite queue_of_url_final_segment. simpl.
  destruct (models.DeleteQueue _ _ q) as [q' [e|[]]]; reflexivity.
Qed.

Lemma PurgeQueue_eq (c : Ctx.t) (tenantId : Z) (q : Q) :
  sqs.PurgeQueue c tenantId q =
  match Ctx.Body c with
  | None => (q, inl json_SyntaxError)
  | Some o =>
      let queue := final_segment (JSONObject.QueueUrl o) in
      let '(q1, messages) :=
        models.Filter tenantId queue models.FilterCriteria.zero q in
      (sqs.PurgeQueue_loop tenantId queue messages q1,
       inr (JSON_PurgeQueueResponse {| PurgeQueueResponse.Success := true |}))
  end.
Proof.
  unfold sqs.PurgeQueue. unfold_handler.
  destruct (Ctx.Body c) as [o|]; simpl; [|reflexivity].
  rewrite queue_of_url_final_segment. simpl.
  destruct (models.Filter _ _ _ q) as [q1 messages]; reflexivity.
Qed.

Lemma GetQueueAttributes_eq (c : Ctx.t) (tenantId : Z) (q : Q) :
  sqs.GetQueueAttributes c tenantId q =
  match Ctx.Body c with
  | None => (q, inl json_SyntaxError)
  | Some o =>
      let '(q', stats) :=
        models.Stats tenantId (final_segment (JSONObject.QueueUrl o)) q in
      (q', inr (JSON_GetQueueAttributesResponse
                  {| GetQueueAttributesResponse.Attributes :=
                       {[ "ApproximateNumberOfMessages" :=
                            fmt_Sprintf_d
                              (models.QueueStats.TotalMessages stats) ]} |}))
  end.
Proof.
  unfold sqs.GetQueueAttributes. unfold_handler.
  destruct (Ctx.Body c) as [o|]; simpl; [|reflexivity].
  rewrite queue_of_url_final_segment. simpl.
  destruct (models.Stats _ _ q) as [q' stats]; reflexivity.
Qed.

Lemma ListQueues_eq (c : Ctx.t) (tenantId : Z) (q : Q) :
  sqs.ListQueues c tenantId q =
  match models.ListQueues tenantId q with
  | (q', inl e) => (q', inl e)
  | (q', inr queues) =>
      (q', inr (JSON_ListQueuesResponse
                  {| ListQueuesResponse.QueueUrls :=
                       List.map (sqs.queue_url tenantId) queues |}))
  end.
Proof.
  unfold sqs.ListQueues. unfold_handler.
  destruct (models.ListQueues tenantId q) as [q' [e|queues]]; reflexivity.
Qed.

Lemma CreateQueue_eq (c : Ctx.t) (tenantId : Z) (q : Q) :
  sqs.CreateQueue c tenantId q =
  match Ctx.Body c with
  | None => (q, inl json_SyntaxError)
  | Some o =>
      match models.CreateQueue tenantId (JSONObject.QueueName o) q with
      | (q', inl e) => (q', inl e)
      | (q', inr _) =>
          (q', inr (JSON_CreateQueueResponse
                      {| CreateQueueResponse.QueueUrl :=
                           sqs.queue_url tenantId (JSONObject.QueueName o) |}))
      end
  end.
Proof.
  unfold sqs.CreateQueue. unfold_handler.
  destruct (Ctx.Body c) as [o|]; simpl; [|reflexivity].
  destruct (models.CreateQueue _ _ q) as [q' [e|[]]]; reflexivity.
Qed.

(** [Action] on a request the middleware has passed on. *)
Lemma Action_request (target : string) (tenantId : Z) (b : option JSONObject.t)
    (c : Ctx.t) :
  Ctx.ReqHeaders c !! "X-Amz-Target" = Some [target] ->
  Ctx.Locals c !! "tenantId" = Some tenantId ->
  sqs.Action (set_Body b c) =
  let c := set_Body b c in
  if String.eqb target "AmazonSQS.SendMessage" then sqs.SendMessage c tenantId
  else if String.eqb target "AmazonSQS.ReceiveMessage" then
    sqs.ReceiveMessage c tenantId
  else if String.eqb target "AmazonSQS.DeleteMessage" then
    sqs.DeleteMessage c tenantId
  else if String.eqb target "AmazonSQS.ListQueues" then
    sqs.ListQueues c tenantId
  else if String.eqb target "AmazonSQS.CreateQueue" then
    sqs.CreateQueue c tenantId
  else if String.eqb target "AmazonSQS.GetQueueAttributes" then
    sqs.GetQueueAttributes c tenantId
  else if String.eqb target "AmazonSQS.PurgeQueue" then
    sqs.PurgeQueue c tenantId
  else if String.eqb target "AmazonSQS.DeleteQueue" then
    sqs.DeleteQueue c tenantId
  else throw (errors_New ("SQS method " +:+ target +:+ " not implemented")).
Proof.
  intros Hh Hl. unfold sqs.Action. simpl. rewrite Hh, Hl. reflexivity.
Qed.

End adapter_equations.

(** ** Properties of the adapter over any engine *)

Section adapter_properties.
Context {Q : Type} `{!models.Queue Q} `{!GoRuntime}.

Lemma ReceiveMessage_loop_spec (hasher : Hasher)
    (messages : list models.Message.t) :
  sqs.ReceiveMessage_loop hasher messages =
  List.map
    (fun message =>
       {| Message.MessageId := fmt_Sprintf_d (models.Message.ID message);
          Message.ReceiptHandle := fmt_Sprintf_d (models.Message.ID message);
          Message.MD5OfBody :=
            hex_EncodeToString (md5_digest (models.Message.Message message));
          Message.Body := string_of_list_byte (models.Message.Message message);
          Message.Attributes := ∅;
          Message.MD5OfMessageAttributes := "";
          Message.MessageAttributes :=
            sqs.ReceiveMessage_attributes (models.Message.KeyValues message) |})
    messages.
Proof.
  revert hasher. induction messages as [|message rest IH]; intros hasher;
    [reflexivity|].
  cbn [sqs.ReceiveMessage_loop List.map]. rewrite Hasher_fresh, IH.
  reflexivity.
Qed.

Lemma ReceiveMessage_inv (c : Ctx.t) (tenantId : Z) (q q' : Q)
    (resp : Response) :
  sqs.ReceiveMessage c tenantId q = (q', inr resp) ->
  exists o messages,
    Ctx.Body c = Some o /\
    models.Dequeue tenantId (final_segment (JSONObject.QueueUrl o))
      (if JSONObject.MaxNumberOfMessages o =? 0 then 1
       else JSONObject.MaxNumberOfMessages o) q = (q', inr messages) /\
    resp = JSON_ReceiveMessageResponse
             {| ReceiveMessageResponse.Messages :=
                  sqs.ReceiveMessage_loop md5_New messages |}.
Proof.
  rewrite ReceiveMessage_eq. intros Hrun.
  destruct (Ctx.Body c) as [o|]; [|discriminate].
  destruct (models.Dequeue _ _ _ q) as [q1 [e|messages]] eqn:E;
    [discriminate|].
  exists o, messages. by simplify_eq.
Qed.

Lemma SendMessage_inv (c : Ctx.t) (tenantId : Z) (q q' : Q) (resp : Response) :
  sqs.SendMessage c tenantId q = (q', inr resp) ->
  exists o messageId,
    Ctx.Body c = Some o /\
    models.Enqueue tenantId (final_segment (JSONObject.QueueUrl o))
      (JSONObject.MessageBody o)
      (sqs.SendMessage_kv (JSONObject.MessageAttributes o))
      (JSONObject.DelaySeconds o) 30 q = (q', inr messageId) /\
    resp = JSON_SendMessageResponse
             {| SendMessageResponse.MessageId := fmt_Sprintf_d messageId;
                SendMessageResponse.MD5OfMessageBody :=
                  hex_EncodeToString
                    (md5_digest
                       (list_byte_of_string (JSONObject.MessageBody o)));
                SendMessageResponse.MD5OfMessageAttributes := "";
                SendMessageResponse.SequenceNumber := "" |}.
Proof.
  rewrite SendMessage_eq. intros Hrun.
  destruct (Ctx.Body c) as [o|]; [|discriminate].
  destruct (models.Enqueue _ _ _ _ _ _ q) as [q1 [e|messageId]] eqn:E;
    [discriminate|].
  exists o, messageId. by simplify_eq.
Qed.

(** C9.  A [ListQueues] request is answered from the engine's list of
    the authenticated tenant's queues alone: whatever the request body
    holds (a [QueueNamePrefix], any other key, or no JSON at all), the
    response carries one [QueueUrl] for every queue of that list. *)
Theorem ListQueues_ignores_request_body
    (c : Ctx.t) (tenantId : Z) (q q' : Q) (queues : list string) :
  Ctx.ReqHeaders c !! "X-Amz-Target" = Some ["AmazonSQS.ListQueues"] ->
  Ctx.Locals c !! "tenantId" = Some tenantId ->
  models.ListQueues tenantId q = (q', inr queues) ->
  forall body : option JSONObject.t,
    sqs.Action (set_Body body c) q =
      (q', inr (JSON_ListQueuesResponse
                  {| ListQueuesResponse.QueueUrls :=
                       List.map (sqs.queue_url tenantId) queues |}))
    /\ (forall name, name ∈ queues ->
          sqs.queue_url tenantId name
            ∈ List.map (sqs.queue_url tenantId) queues).
Proof.
  intros Hh Hl Hq body. split.
  - rewrite (Action_request _ tenantId body c Hh Hl). simpl.
    rewrite ListQueues_eq, Hq. reflexivity.
  - intros name Hin. apply list_elem_of_In, in_map, list_elem_of_In, Hin.
Qed.

(** C8.  Every message of a [ReceiveMessage] response is built from one
    message that the engine's [Dequeue] returned, and its [MessageId]
    and its [ReceiptHandle] are both the decimal numeral of that
    message's id, hence equal; for an id in the int64 range the
    [ReceiptHandle] parses back to the id, which is what
    [DeleteMessage] does with it. *)
Theorem ReceiveMessage_MessageId_ReceiptHandle
    (c : Ctx.t) (tenantId : Z) (q q' : Q) (resp : Response) :
  sqs.ReceiveMessage c tenantId q = (q', inr resp) ->
  exists o messages r,
    Ctx.Body c = Some o /\
    models.Dequeue tenantId (final_segment (JSONObject.QueueUrl o))
      (if JSONObject.MaxNumberOfMessages o =? 0 then 1
       else JSONObject.MaxNumberOfMessages o) q = (q', inr messages) /\
    resp = JSON_ReceiveMessageResponse r /\
    Forall2
      (fun message m =>
         Message.MessageId m = fmt_Sprintf_d (models.Message.ID message) /\
         Message.ReceiptHandle m = fmt_Sprintf_d (models.Message.ID message) /\
         Message.MessageId m = Message.ReceiptHandle m /\
         (int64_min <= models.Message.ID message <= int64_max ->
          strconv_ParseInt (Message.ReceiptHandle m)
            = Some (models.Message.ID message)))
      messages (ReceiveMessageResponse.Messages r).
Proof.
  intros Hrun. apply ReceiveMessage_inv in Hrun as (o & messages & Hb & Hd & ->).
  eexists o, messages, _. repeat split; [exact Hb|exact Hd|].
  simpl. rewrite ReceiveMessage_loop_spec. clear Hd.
  induction messages as [|message rest IH]; simpl; constructor; [|exact IH].
  simpl. repeat split. apply strconv_ParseInt_fmt_Sprintf_d.
Qed.

(** C2.  A successful [SendMessage] answers with [MD5OfMessageBody]
    equal to the lowercase hexadecimal MD5 digest (32 digits) of the
    bytes of the request's [MessageBody], and every message of a
    [ReceiveMessage] response carries [MD5OfBody] equal to the lowercase
    hexadecimal MD5 digest of the bytes of its own [Body]. *)
Theorem MD5_of_body :
  (forall (c : Ctx.t) (tenantId : Z) (q q' : Q) (resp : Response),
     sqs.SendMessage c tenantId q = (q', inr resp) ->
     exists o r,
       Ctx.Body c = Some o /\
       resp = JSON_SendMessageResponse r /\
       SendMessageResponse.MD5OfMessageBody r =
         hex_EncodeToString
           (md5_digest (list_byte_of_string (JSONObject.MessageBody o))) /\
       all_chars is_lower_hex (SendMessageResponse.MD5OfMessageBody r) = true /\
       String.length (SendMessageResponse.MD5OfMessageBody r) = 32%nat)
  /\
  (forall (c : Ctx.t) (tenantId : Z) (q q' : Q) (resp : Response),
     sqs.ReceiveMessage c tenantId q = (q', inr resp) ->
     exists r,
       resp = JSON_ReceiveMessageResponse r /\
       Forall
         (fun m =>
            Message.MD5OfBody m =
              hex_EncodeToString
                (md5_digest (list_byte_of_string (Message.Body m))) /\
            all_chars is_lower_hex (Message.MD5OfBody m) = true /\
            String.length (Message.MD5OfBody m) = 32%nat)
         (ReceiveMessageResponse.Messages r)).
Proof.
  split.
  - intros c tenantId q q' resp Hrun.
    apply SendMessage_inv in Hrun as (o & messageId & Hb & _ & ->).
    eexists o, _. repeat split; [exact Hb|..]; simpl.
    + apply hex_EncodeToString_lower.
    + by rewrite hex_EncodeToString_length, md5_digest_length.
  - intros c tenantId q q' resp Hrun.
    apply ReceiveMessage_inv in Hrun as (o & messages & _ & _ & ->).
    eexists. split; [reflexivity|]. simpl.
    rewrite ReceiveMessage_loop_spec. apply Forall_map, Forall_forall.
    intros message _. simpl.
    rewrite list_byte_of_string_of_list_byte. repeat split.
    + apply hex_EncodeToString_lower.
    + by rewrite hex_EncodeToString_length, md5_digest_length.
Qed.

End adapter_properties.

(** ** The queue name and the tenant of an operation *)

Section adapter_routing.
Context {Q : Type} {engine_ : models.Queue Q} {runtime_ : GoRuntime}.

(** [Action] reads the [X-Amz-Target] header, the tenant in [Locals]
    and the body, and of the [QueueUrl] in the body only the final
    segment. *)
Lemma Action_QueueUrl (c1 c2 : Ctx.t) (o : JSONObject.t) (u1 u2 : string)
    (q : Q) :
  Ctx.ReqHeaders c1 !! "X-Amz-Target" = Ctx.ReqHeaders c2 !! "X-Amz-Target" ->
  Ctx.Locals c1 !! "tenantId" = Ctx.Locals c2 !! "tenantId" ->
  Ctx.Body c1 = Some (set_QueueUrl u1 o) ->
  Ctx.Body c2 = Some (set_QueueUrl u2 o) ->
  final_segment u1 = final_segment u2 ->
  sqs.Action c1 q = sqs.Action c2 q.
Proof.
  intros Hh Hl Hb1 Hb2 Hseg. unfold sqs.Action. rewrite Hh, Hl.
  destruct (Ctx.ReqHeaders c2 !! "X-Amz-Target") as [hs|]; [|reflexivity].
  destruct (hs !! 0%nat) as [awsMethod|]; [|reflexivity].
  destruct (Ctx.Locals c2 !! "tenantId") as [tenantId|]; [|reflexivity].
  repeat match goal with
         | |- (if ?b then _ else _) _ = (if ?b then _ else _) _ => destruct b
         end;
    rewrite ?SendMessage_eq, ?ReceiveMessage_eq, ?DeleteMessage_eq,
      ?DeleteQueue_eq, ?PurgeQueue_eq, ?GetQueueAttributes_eq, ?ListQueues_eq,
      ?Hb1, ?Hb2;
    simpl; rewrite ?Hseg; try reflexivity.
  unfold sqs.CreateQueue. unfold_handler. by rewrite Hb1, Hb2.
Qed.

Lemma final_segment_idem (u : string) :
  final_segment (final_segment u) = final_segment u.
Proof.
  induction u as [|c rest IH]; simpl; [reflexivity|].
  destruct (has_slash rest) eqn:Hs; [exact IH|].
  destruct (Ascii.eqb c "/") eqn:Hc.
  - clear IH. destruct rest as [|d r]; simpl in *; [reflexivity|].
    apply orb_false_elim in Hs as [Hd Hr]. by rewrite Hr, Hd.
  - simpl. by rewrite Hs, Hc.
Qed.

Lemma final_segment_QueueUrl_format (host tenant queue : string) :
  has_slash queue = false ->
  final_segment (QueueUrl_format host tenant queue) = queue.
Proof.
  intros Hq. unfold QueueUrl_format.
  change ("/" +:+ queue) with (String "/" queue).
  rewrite <- !append_assoc. by apply final_segment_app.
Qed.

(** The loop of [PurgeQueue]: one [Delete] for each id, in order, the
    error of each dropped. *)
Lemma PurgeQueue_loop_fold (tenantId : Z) (queue : string) (messages : list Z)
    (q : Q) :
  sqs.PurgeQueue_loop tenantId queue messages q =
  fold_left (fun q' msg => fst (models.Delete tenantId queue msg q'))
    messages q.
Proof.
  revert q. induction messages as [|msg rest IH]; intros q; [reflexivity|].
  simpl. apply IH.
Qed.

Context {tenants_ : models.TenantManager} {verifier_ : Verifier}.

Lemma authMiddleware_authenticated (c : Ctx.t) (tenantId : Z) (q : Q) :
  sqs.authenticates c tenantId ->
  sqs.authMiddleware c q = sqs.Action (set_tenantId tenantId c) q.
Proof.
  intros (r & awsHeader & secretKey & Hr & Hp & Hk & Hv).
  unfold sqs.authMiddleware. unfold_handler.
  rewrite Hr, Hp, Hk, Hv. reflexivity.
Qed.

(** C3.  Take two requests for the same operation whose bodies differ
    only in the tenant segment of the [QueueUrl] (their signatures, and
    any header other than [X-Amz-Target], may differ as well), both
    passing the middleware as the same tenant.  They leave the engine in
    the same state and get the same response, and each is served as the
    request for the queue named by the final path segment under the
    tenant that the middleware established.  Operation by operation, the
    engine is called for that tenant and that queue: [Enqueue] by
    SendMessage, [Dequeue] by ReceiveMessage, [Delete] by DeleteMessage,
    [Stats] by GetQueueAttributes, [Filter] and then one [Delete] for
    each id by PurgeQueue, [DeleteQueue] by DeleteQueue; ListQueues and
    CreateQueue, which read no [QueueUrl], call the engine for that
    tenant. *)
Theorem QueueUrl_tenant_segment_is_not_used
    (c1 c2 : Ctx.t) (o : JSONObject.t) (host segment1 segment2 queue : string)
    (tenantId : Z) (q : Q) :
  has_slash queue = false ->
  Ctx.ReqHeaders c1 !! "X-Amz-Target" = Ctx.ReqHeaders c2 !! "X-Amz-Target" ->
  Ctx.Body c1 = Some (set_QueueUrl (QueueUrl_format host segment1 queue) o) ->
  Ctx.Body c2 = Some (set_QueueUrl (QueueUrl_format host segment2 queue) o) ->
  sqs.authenticates c1 tenantId ->
  sqs.authenticates c2 tenantId ->
  sqs.authMiddleware c1 q = sqs.authMiddleware c2 q /\
  sqs.authMiddleware c1 q =
    sqs.Action
      (set_tenantId tenantId (set_Body (Some (set_QueueUrl queue o)) c1)) q /\
  sqs.queue_of_url (QueueUrl_format host segment1 queue) = inr queue /\
  (forall (awsMethod : string) (more : list string),
     Ctx.ReqHeaders c1 !! "X-Amz-Target" = Some (awsMethod :: more) ->
     (awsMethod = "AmazonSQS.SendMessage" ->
      sqs.authMiddleware c1 q =
        match models.Enqueue tenantId queue (JSONObject.MessageBody o)
                (sqs.SendMessage_kv (JSONObject.MessageAttributes o))
                (JSONObject.DelaySeconds o) 30 q with
        | (q', inl e) => (q', inl e)
        | (q', inr messageId) =>
            (q', inr (JSON_SendMessageResponse
                        {| SendMessageResponse.MessageId :=
                             fmt_Sprintf_d messageId;
                           SendMessageResponse.MD5OfMessageBody :=
                             hex_EncodeToString
                               (md5_digest
                                  (list_byte_of_string
                                     (JSONObject.MessageBody o)));
                           SendMessageResponse.MD5OfMessageAttributes := "";
                           SendMessageResponse.SequenceNumber := "" |}))
        end) /\
     (awsMethod = "AmazonSQS.ReceiveMessage" ->
      sqs.authMiddleware c1 q =
        match models.Dequeue tenantId queue
                (if JSONObject.MaxNumberOfMessages o =? 0 then 1
                 else JSONObject.MaxNumberOfMessages o) q with
        | (q', inl e) => (q', inl e)
        | (q', inr messages) =>
            (q', inr (JSON_ReceiveMessageResponse
                        {| ReceiveMessageResponse.Messages :=
                             sqs.ReceiveMessage_loop md5_New messages |}))
        end) /\
     (awsMethod = "AmazonSQS.DeleteMessage" ->
      sqs.authMiddleware c1 q =
        match strconv_ParseInt (JSONObject.ReceiptHandle o) with
        | None => (q, inl (strconv_NumError (JSONObject.ReceiptHandle o)))
        | Some messageId =>
            match models.Delete tenantId queue messageId q with
            | (q', inl e) => (q', inl e)
            | (q', inr _) => (q', inr NoBody)
            end
        end) /\
     (awsMethod = "AmazonSQS.GetQueueAttributes" ->
      sqs.authMiddleware c1 q =
        let '(q', stats) := models.Stats tenantId queue q in
        (q', inr (JSON_GetQueueAttributesResponse
                    {| GetQueueAttributesResponse.Attributes :=
                         {[ "ApproximateNumberOfMessages" :=
                              fmt_Sprintf_d
                                (models.QueueStats.TotalMessages stats) ]} |}))) /\
     (awsMethod = "AmazonSQS.PurgeQueue" ->
      sqs.authMiddleware c1 q =
        let '(q1, messages) :=
          models.Filter tenantId queue models.FilterCriteria.zero q in
        (fold_left (fun q' msg => fst (models.Delete tenantId queue msg q'))
           messages q1,
         inr (JSON_PurgeQueueResponse
                {| PurgeQueueResponse.Success := true |}))) /\
     (awsMethod = "AmazonSQS.DeleteQueue" ->
      sqs.authMiddleware c1 q =
        match models.DeleteQueue tenantId queue q with
        | (q', inl e) => (q', inl e)
        | (q', inr _) => (q', inr DeleteQueueResponse)
        end) /\
     (awsMethod = "AmazonSQS.ListQueues" ->
      sqs.authMiddleware c1 q =
        match models.ListQueues tenantId q with
        | (q', inl e) => (q', inl e)
        | (q', inr queues) =>
            (q', inr (JSON_ListQueuesResponse
                        {| ListQueuesResponse.QueueUrls :=
                             List.map (sqs.queue_url tenantId) queues |}))
        end) /\
     (awsMethod = "AmazonSQS.CreateQueue" ->
      sqs.authMiddleware c1 q =
        match models.CreateQueue tenantId (JSONObject.QueueName o) q with
        | (q', inl e) => (q', inl e)
        | (q', inr _) =>
            (q', inr (JSON_CreateQueueResponse
                        {| CreateQueueResponse.QueueUrl :=
                             sqs.queue_url tenantId (JSONObject.QueueName o) |}))
        end)).
Proof.
  intros Hq Hh Hb1 Hb2 H1 H2.
  rewrite (authMiddleware_authenticated c1 tenantId q H1).
  rewrite (authMiddleware_authenticated c2 tenantId q H2).
  pose proof (final_segment_QueueUrl_format host segment1 queue Hq) as E1.
  pose proof (final_segment_QueueUrl_format host segment2 queue Hq) as E2.
  assert (Eq : final_segment queue = queue).
  { rewrite <- E1 at 1. rewrite final_segment_idem. exact E1. }
  split; [|split; [|split]].
  - eapply Action_QueueUrl; [exact Hh|simpl; by rewrite !lookup_insert_eq
                            |exact Hb1|exact Hb2|congruence].
  - eapply Action_QueueUrl; [reflexivity|reflexivity|exact Hb1|reflexivity
                            |congruence].
  - rewrite queue_of_url_final_segment. by rewrite E1.
  - intros awsMethod more Hm.
    assert (HA : sqs.Action (set_tenantId tenantId c1) q =
                 (if String.eqb awsMethod "AmazonSQS.SendMessage" then
                    sqs.SendMessage (set_tenantId tenantId c1) tenantId
                  else if String.eqb awsMethod "AmazonSQS.ReceiveMessage" then
                    sqs.ReceiveMessage (set_tenantId tenantId c1) tenantId
                  else if String.eqb awsMethod "AmazonSQS.DeleteMessage" then
                    sqs.DeleteMessage (set_tenantId tenantId c1) tenantId
                  else if String.eqb awsMethod "AmazonSQS.ListQueues" then
                    sqs.ListQueues (set_tenantId tenantId c1) tenantId
                  else if String.eqb awsMethod "AmazonSQS.CreateQueue" then
                    sqs.CreateQueue (set_tenantId tenantId c1) tenantId
                  else if String.eqb awsMethod "AmazonSQS.GetQueueAttributes"
                  then sqs.GetQueueAttributes (set_tenantId tenantId c1) tenantId
                  else if String.eqb awsMethod "AmazonSQS.PurgeQueue" then
                    sqs.PurgeQueue (set_tenantId tenantId c1) tenantId
                  else if String.eqb awsMethod "AmazonSQS.DeleteQueue" then
                    sqs.DeleteQueue (set_tenantId tenantId c1) tenantId
                  else throw (errors_New
                                ("SQS method " +:+ awsMethod
                                   +:+ " not implemented"))) q).
    { unfold sqs.Action. simpl. rewrite Hm. simpl.
      by rewrite lookup_insert_eq. }
    rewrite HA. clear HA.
    assert (Hb : Ctx.Body (set_tenantId tenantId c1)
                 = Some (set_QueueUrl (QueueUrl_format host segment1 queue) o))
      by exact Hb1.
    repeat apply conj; intros ->; cbn [String.eqb Ascii.eqb Bool.eqb];
      rewrite ?SendMessage_eq, ?ReceiveMessage_eq, ?DeleteMessage_eq,
        ?DeleteQueue_eq, ?PurgeQueue_eq, ?GetQueueAttributes_eq,
        ?ListQueues_eq, ?CreateQueue_eq, ?Hb;
      cbn [set_QueueUrl JSONObject.QueueUrl JSONObject.MessageBody
             JSONObject.MessageAttributes JSONObject.DelaySeconds
             JSONObject.MaxNumberOfMessages JSONObject.ReceiptHandle
             JSONObject.QueueName];
      rewrite ?E1; try reflexivity.
    cbv zeta. destruct (models.Filter _ _ _ q) as [q1 messages].
    by rewrite PurgeQueue_loop_fold.
Qed.

End adapter_routing.

(** ** The attributes of a received message *)

Section adapter_attributes.
Context {Q : Type} {engine_ : models.Queue Q} {runtime_ : GoRuntime}.

Lemma unflatten_keys (KeyValues : gmap string string)
    (entries : list (string * string)) (acc : gmap string MessageAttribute.t) :
  (forall k, is_Some (acc !! k) -> strings_HasSuffix k "_DataType" = false) ->
  forall k,
    is_Some (fold_left (sqs.unflatten_attribute KeyValues) entries acc !! k) ->
    strings_HasSuffix k "_DataType" = false.
Proof.
  revert acc. induction entries as [|[k0 v0] rest IH]; intros acc Hacc;
    [exact Hacc|].
  cbn [fold_left]. apply IH. intros k.
  unfold sqs.unflatten_attribute.
  destruct (strings_HasSuffix k0 "_DataType") eqn:Hk0; [apply Hacc|].
  rewrite lookup_insert_is_Some. intros [<-|[_ Hk]]; [exact Hk0|by apply Hacc].
Qed.

Lemma ReceiveMessage_attributes_keys (KeyValues : gmap string string)
    (k : string) :
  is_Some (sqs.ReceiveMessage_attributes KeyValues !! k) ->
  ~ ends_with k "_DataType".
Proof.
  intros Hk Hends. apply strings_HasSuffix_spec in Hends.
  unfold sqs.ReceiveMessage_attributes in Hk.
  apply unflatten_keys in Hk; [congruence|].
  intros k' [x Hx]. by rewrite lookup_empty in Hx.
Qed.

(** C10.  No key of the [MessageAttributes] of a message that
    [ReceiveMessage] returns ends with [_DataType]; in particular an
    attribute that was sent under a name ending in [_DataType] is absent
    from the attributes the receiver gets back from what [SendMessage]
    stored. *)
Theorem ReceiveMessage_no_DataType_keys :
  (forall (c : Ctx.t) (tenantId : Z) (q q' : Q) (resp : Response),
     sqs.ReceiveMessage c tenantId q = (q', inr resp) ->
     exists r,
       resp = JSON_ReceiveMessageResponse r /\
       forall m, m ∈ ReceiveMessageResponse.Messages r ->
         forall k, is_Some (Message.MessageAttributes m !! k) ->
           ~ ends_with k "_DataType")
  /\
  (forall (attrs : gmap string MessageAttributeValue.t) (name : string),
     ends_with name "_DataType" ->
     sqs.ReceiveMessage_attributes (sqs.SendMessage_kv attrs) !! name = None).
Proof.
  split.
  - intros c tenantId q q' resp Hrun.
    apply ReceiveMessage_inv in Hrun as (o & messages & _ & _ & ->).
    eexists. split; [reflexivity|]. simpl.
    rewrite ReceiveMessage_loop_spec.
    intros m Hm k Hk.
    apply list_elem_of_In, in_map_iff in Hm as (message & <- & _).
    simpl in Hk. by apply ReceiveMessage_attributes_keys in Hk.
  - intros attrs name Hends.
    apply eq_None_not_Some. intros Hk.
    by apply ReceiveMessage_attributes_keys in Hk.
Qed.

End adapter_attributes.

(** ** Attributes from sender to receiver *)

Lemma append_suffix_inj (a b s : string) : a +:+ s = b +:+ s -> a = b.
Proof.
  revert b. induction a as [|x a IH]; intros [|y b] E.
  - reflexivity.
  - exfalso. apply (f_equal String.length) in E.
    rewrite !length_append in E. simpl in E. lia.
  - exfalso. apply (f_equal String.length) in E.
    rewrite !length_append in E. simpl in E. lia.
  - change (String x (a +:+ s) = String y (b +:+ s)) in E.
    injection E as -> E. f_equal. by apply IH.
Qed.

Lemma flatten_attribute_carried (kv : gmap string string) (k : string)
    (v : MessageAttributeValue.t) :
  carried k v ->
  sqs.flatten_attribute kv (k, v) =
  <[k := flat_value v]>
    (<[k +:+ "_DataType" := MessageAttributeValue.DataType v]> kv).
Proof.
  intros [_ Ht]. unfold sqs.flatten_attribute, flat_value.
  destruct Ht as [-> | [-> | [-> _]]]; reflexivity.
Qed.

(** What the flattening loop leaves under an attribute name. *)
Lemma flatten_lookup_name (l : list (string * MessageAttributeValue.t))
    (acc : gmap string string) (name : string) :
  NoDup l.*1 -> Forall (fun e => carried e.1 e.2) l ->
  ~ ends_with name "_DataType" ->
  fold_left sqs.flatten_attribute l acc !! name =
  match (list_to_map l : gmap string MessageAttributeValue.t) !! name with
  | Some v => Some (flat_value v)
  | None => acc !! name
  end.
Proof.
  intros Hnd Hall Hname. revert acc.
  induction l as [|[k v] l IH]; intros acc; [reflexivity|].
  apply NoDup_cons in Hnd as [Hk Hnd]. apply Forall_cons in Hall as [Hc Hall].
  cbn [fold_left]. rewrite IH by assumption.
  rewrite (flatten_attribute_carried _ _ _ Hc). simpl.
  destruct (decide (k = name)) as [->|Hne].
  - rewrite (not_elem_of_list_to_map_1 _ _ Hk), !lookup_insert_eq. reflexivity.
  - rewrite (lookup_insert_ne (list_to_map l)) by done.
    destruct (list_to_map l !! name); [reflexivity|].
    rewrite lookup_insert_ne by done. apply lookup_insert_ne.
    intros <-. apply Hname. by exists k.
Qed.

(** What the flattening loop leaves under the type marker of a name. *)
Lemma flatten_lookup_marker (l : list (string * MessageAttributeValue.t))
    (acc : gmap string string) (name : string) :
  NoDup l.*1 -> Forall (fun e => carried e.1 e.2) l ->
  fold_left sqs.flatten_attribute l acc !! (name +:+ "_DataType") =
  match (list_to_map l : gmap string MessageAttributeValue.t) !! name with
  | Some v => Some (MessageAttributeValue.DataType v)
  | None => acc !! (name +:+ "_DataType")
  end.
Proof.
  intros Hnd Hall. revert acc.
  induction l as [|[k v] l IH]; intros acc; [reflexivity|].
  apply NoDup_cons in Hnd as [Hk Hnd]. apply Forall_cons in Hall as [Hc Hall].
  cbn [fold_left]. rewrite IH by assumption.
  rewrite (flatten_attribute_carried _ _ _ Hc). simpl.
  assert (Hkm : k <> name +:+ "_DataType").
  { intros ->. apply (proj1 Hc). by exists name. }
  destruct (decide (k = name)) as [->|Hne].
  - rewrite (not_elem_of_list_to_map_1 _ _ Hk), lookup_insert_eq.
    rewrite lookup_insert_ne by done. by rewrite lookup_insert_eq.
  - rewrite (lookup_insert_ne (list_to_map l)) by done.
    destruct (list_to_map l !! name); [reflexivity|].
    rewrite lookup_insert_ne by done. apply lookup_insert_ne.
    intros E. by apply append_suffix_inj in E.
Qed.

(** What the loop of [ReceiveMessage] leaves under a key. *)
Lemma unflatten_lookup (KeyValues : gmap string string)
    (l : list (string * string)) (acc : gmap string MessageAttribute.t)
    (k : string) :
  NoDup l.*1 ->
  fold_left (sqs.unflatten_attribute KeyValues) l acc !! k =
  if strings_HasSuffix k "_DataType" then acc !! k
  else
    match (list_to_map l : gmap string string) !! k with
    | Some v =>
        Some (sqs.typed_attribute
                (default "" (KeyValues !! (k +:+ "_DataType"))) v)
    | None => acc !! k
    end.
Proof.
  intros Hnd. revert acc.
  induction l as [|[k0 v0] l IH]; intros acc.
  - simpl. by destruct (strings_HasSuffix k "_DataType").
  - apply NoDup_cons in Hnd as [Hk0 Hnd].
    cbn [fold_left]. rewrite IH by assumption.
    unfold sqs.unflatten_attribute. simpl.
    destruct (strings_HasSuffix k "_DataType") eqn:Hk.
    + destruct (strings_HasSuffix k0 "_DataType") eqn:Hk0s; [reflexivity|].
      apply lookup_insert_ne. congruence.
    + destruct (decide (k0 = k)) as [->|Hne].
      * rewrite (not_elem_of_list_to_map_1 _ _ Hk0), Hk.
        by rewrite !lookup_insert_eq.
      * rewrite (lookup_insert_ne (list_to_map l)) by done.
        destruct (list_to_map l !! k); [reflexivity|].
        destruct (strings_HasSuffix k0 "_DataType"); [reflexivity|].
        by apply lookup_insert_ne.
Qed.


Section round_trip.
Context {Q : Type} {engine_ : models.Queue Q} {runtime_ : GoRuntime}.

Lemma range_NoDup {A} (m : gmap string A) : NoDup (range m).*1.
Proof.
  rewrite (range_enumerates A m). apply NoDup_fst_map_to_list.
Qed.

Lemma list_to_map_range {A} (m : gmap string A) :
  (list_to_map (range m) : gmap string A) = m.
Proof.
  rewrite (list_to_map_proper (range m) (map_to_list m));
    [apply list_to_map_to_list|apply range_NoDup|apply range_enumerates].
Qed.

Lemma range_carried (attrs : gmap string MessageAttributeValue.t) :
  map_Forall carried attrs ->
  Forall (fun e => carried e.1 e.2) (range attrs).
Proof.
  intros Hall. apply Forall_forall. intros [k v] Hin.
  rewrite (range_enumerates _ attrs) in Hin.
  apply elem_of_map_to_list in Hin. exact (Hall k v Hin).
Qed.

Lemma typed_attribute_received (v : MessageAttributeValue.t) :
  MessageAttributeValue.DataType v = "String" \/
  MessageAttributeValue.DataType v = "Number" \/
  MessageAttributeValue.DataType v = "Binary" ->
  sqs.typed_attribute (MessageAttributeValue.DataType v) (flat_value v)
  = received_attribute v.
Proof.
  unfold sqs.typed_attribute, received_attribute, flat_value.
  intros [-> | [-> | ->]]; simpl; try reflexivity.
  by destruct (base64_DecodeString _).
Qed.

(** The attributes rebuilt from what [SendMessage] stored. *)
Lemma round_trip_attributes (attrs : gmap string MessageAttributeValue.t) :
  map_Forall carried attrs ->
  sqs.ReceiveMessage_attributes (sqs.SendMessage_kv attrs)
  = received_attribute <$> attrs.
Proof.
  intros Hall. apply map_eq. intros name.
  unfold sqs.ReceiveMessage_attributes.
  rewrite unflatten_lookup by apply range_NoDup.
  rewrite list_to_map_range, lookup_fmap, lookup_empty.
  destruct (strings_HasSuffix name "_DataType") eqn:Hs.
  - apply strings_HasSuffix_spec in Hs.
    destruct (attrs !! name) as [v|] eqn:Hv; [|reflexivity].
    by destruct (Hall name v Hv).
  - assert (Hname : ~ ends_with name "_DataType").
    { intros Hends%strings_HasSuffix_spec. congruence. }
    unfold sqs.SendMessage_kv.
    rewrite flatten_lookup_name, flatten_lookup_marker, list_to_map_range;
      try (apply range_NoDup || by apply range_carried || done).
    destruct (attrs !! name) as [v|] eqn:Hv; simpl; [|reflexivity].
    f_equal. apply typed_attribute_received.
    destruct (Hall name v Hv) as [_ [?|[?|[? _]]]]; auto.
Qed.

Lemma received_attribute_carried (name : string)
    (v : MessageAttributeValue.t) :
  carried name v ->
  MessageAttribute.DataType (received_attribute v)
    = MessageAttributeValue.DataType v /\
  (MessageAttributeValue.DataType v = "Binary" ->
   wire_BinaryValue (received_attribute v)
     = MessageAttributeValue.BinaryValue v) /\
  (MessageAttributeValue.DataType v <> "Binary" ->
   MessageAttribute.StringValue (received_attribute v)
     = MessageAttributeValue.StringValue v).
Proof.
  intros [_ Ht]. unfold received_attribute, wire_BinaryValue.
  destruct Ht as [E | [E | [E [data Hd]]]]; rewrite E; simpl;
    repeat split; try done.
  intros _. by rewrite Hd, base64_DecodeString_EncodeToString.
Qed.

(** C1 (as the code has it).  Let a [SendMessage] succeed whose
    attribute names do not end in [_DataType], whose attribute types
    are String, Number or Binary, and whose Binary values are base64
    text as [base64.StdEncoding.EncodeToString] writes it.  The handler
    gives the engine's [Enqueue] the sent [MessageBody] and the
    key-value map [kv] built from the sent attributes, and answers with
    the numeral of the id that [Enqueue] returned.  Every
    [ReceiveMessage] answers with one message for each message that the
    engine's [Dequeue] returned to it, in that order and under the
    numeral of its id; and for each message that [Dequeue] returned
    with the body and the key-value map which that [Enqueue] was given,
    the received [Body] is the sent [MessageBody] and the received
    [MessageAttributes] are the sent ones: the same names, each with the
    sent [DataType], the sent [StringValue] for String and Number, and
    for Binary the bytes whose base64 text is the sent [BinaryValue]. *)
Theorem SendMessage_ReceiveMessage_round_trip
    (c : Ctx.t) (o : JSONObject.t) (tenantId : Z) (q q1 : Q) (sent : Response) :
  Ctx.Body c = Some o ->
  map_Forall carried (JSONObject.MessageAttributes o) ->
  sqs.SendMessage c tenantId q = (q1, inr sent) ->
  let kv := sqs.SendMessage_kv (JSONObject.MessageAttributes o) in
  exists msg_id : Z,
    models.Enqueue tenantId (final_segment (JSONObject.QueueUrl o))
      (JSONObject.MessageBody o) kv (JSONObject.DelaySeconds o) 30 q
      = (q1, inr msg_id) /\
    (exists r, sent = JSON_SendMessageResponse r /\
               SendMessageResponse.MessageId r = fmt_Sprintf_d msg_id) /\
    (forall (c' : Ctx.t) (q2 q3 : Q) (received : Response),
       sqs.ReceiveMessage c' tenantId q2 = (q3, inr received) ->
       exists (o' : JSONObject.t) (messages : list models.Message.t)
              (r : ReceiveMessageResponse.t),
         Ctx.Body c' = Some o' /\
         models.Dequeue tenantId (final_segment (JSONObject.QueueUrl o'))
           (if JSONObject.MaxNumberOfMessages o' =? 0 then 1
            else JSONObject.MaxNumberOfMessages o') q2
           = (q3, inr messages) /\
         received = JSON_ReceiveMessageResponse r /\
         Forall2
           (fun message m =>
              Message.MessageId m = fmt_Sprintf_d (models.Message.ID message) /\
              (models.Message.Message message
                 = list_byte_of_string (JSONObject.MessageBody o) ->
               models.Message.KeyValues message = kv ->
               Message.Body m = JSONObject.MessageBody o /\
               Message.MessageAttributes m
                 = received_attribute <$> JSONObject.MessageAttributes o))
           messages (ReceiveMessageResponse.Messages r)) /\
    (forall name v,
       JSONObject.MessageAttributes o !! name = Some v ->
       MessageAttribute.DataType (received_attribute v)
         = MessageAttributeValue.DataType v /\
       (MessageAttributeValue.DataType v = "Binary" ->
        wire_BinaryValue (received_attribute v)
          = MessageAttributeValue.BinaryValue v) /\
       (MessageAttributeValue.DataType v <> "Binary" ->
        MessageAttribute.StringValue (received_attribute v)
          = MessageAttributeValue.StringValue v)).
Proof.
  intros Hb Hall Hsend kv.
  apply SendMessage_inv in Hsend as (o1 & msg_id & Hb1 & Henq & ->).
  rewrite Hb in Hb1. injection Hb1 as <-.
  exists msg_id.
  split; [exact Henq|split; [|split]].
  - eexists. split; reflexivity.
  - intros c' q2 q3 received Hrecv.
    apply ReceiveMessage_inv in Hrecv as (o' & messages & Hb' & Hdeq & ->).
    exists o', messages. eexists.
    split; [exact Hb'|split; [exact Hdeq|split; [reflexivity|]]].
    cbn [ReceiveMessageResponse.Messages].
    rewrite ReceiveMessage_loop_spec. clear Hdeq.
    induction messages as [|message rest IH]; cbn [List.map]; constructor;
      [|exact IH].
    cbn [Message.MessageId Message.Body Message.MessageAttributes].
    split; [reflexivity|]. intros -> ->. split.
    + apply string_of_list_byte_of_string.
    + by apply round_trip_attributes.
  - intros name v Hv. apply (received_attribute_carried name).
    exact (Hall name v Hv).
Qed.

End round_trip.

(** ** Worked examples *)

Lemma ListQueues_ignores_request_body_witness :
  let c := request "AmazonSQS.ListQueues" 1 empty_object in
  Ctx.ReqHeaders c !! "X-Amz-Target" = Some ["AmazonSQS.ListQueues"] /\
  Ctx.Locals c !! "tenantId" = Some 1 /\
  models.ListQueues 1 three_queues = (three_queues, inr ["q1"; "q2"]) /\
  sqs.Action (set_Body (Some (ListQueues_body "zzz")) c) three_queues =
    (three_queues,
     inr (JSON_ListQueuesResponse
            {| ListQueuesResponse.QueueUrls :=
                 ["https://sqs.us-east-1.amazonaws.com/1/q1";
                  "https://sqs.us-east-1.amazonaws.com/1/q2"] |})).
Proof.
  intros c.
  assert (Hh : Ctx.ReqHeaders c !! "X-Amz-Target"
               = Some ["AmazonSQS.ListQueues"]) by reflexivity.
  assert (Hl : Ctx.Locals c !! "tenantId" = Some 1) by reflexivity.
  assert (Hq : models.ListQueues 1 three_queues
               = (three_queues, inr ["q1"; "q2"])) by (vm_compute; reflexivity).
  split; [exact Hh|split; [exact Hl|split; [exact Hq|]]].
  exact (proj1 (ListQueues_ignores_request_body c 1 three_queues three_queues
                  ["q1"; "q2"] Hh Hl Hq (Some (ListQueues_body "zzz")))).
Defined.

Lemma ReceiveMessage_MessageId_ReceiptHandle_witness :
  let c := request "AmazonSQS.ReceiveMessage" 1
             (ReceiveMessage_body q1_url 1 0) in
  let q' := fst (sqs.ReceiveMessage c 1 hello_sent) in
  sqs.ReceiveMessage c 1 hello_sent
    = (q', inr (JSON_ReceiveMessageResponse hello_received)) /\
  exists o messages r,
    Ctx.Body c = Some o /\
    models.Dequeue 1 (final_segment (JSONObject.QueueUrl o))
      (if JSONObject.MaxNumberOfMessages o =? 0 then 1
       else JSONObject.MaxNumberOfMessages o) hello_sent
      = (q', inr messages) /\
    JSON_ReceiveMessageResponse hello_received
      = JSON_ReceiveMessageResponse r /\
    Forall2
      (fun message m =>
         Message.MessageId m = fmt_Sprintf_d (models.Message.ID message) /\
         Message.ReceiptHandle m = fmt_Sprintf_d (models.Message.ID message) /\
         Message.MessageId m = Message.ReceiptHandle m /\
         (int64_min <= models.Message.ID message <= int64_max ->
          strconv_ParseInt (Message.ReceiptHandle m)
            = Some (models.Message.ID message)))
      messages (ReceiveMessageResponse.Messages r).
Proof.
  intros c q'.
  assert (E : sqs.ReceiveMessage c 1 hello_sent
              = (q', inr (JSON_ReceiveMessageResponse hello_received)))
    by (vm_compute; reflexivity).
  split; [exact E|].
  exact (ReceiveMessage_MessageId_ReceiptHandle c 1 hello_sent q' _ E).
Defined.

Lemma MD5_of_body_witness :
  let send := request "AmazonSQS.SendMessage" 1
                (SendMessage_body q1_url "hello world" 0 hello_attributes) in
  let receive := request "AmazonSQS.ReceiveMessage" 1
                   (ReceiveMessage_body q1_url 1 0) in
  let q' := fst (sqs.ReceiveMessage receive 1 hello_sent) in
  (sqs.SendMessage send 1 three_queues
     = (hello_sent, inr (JSON_SendMessageResponse hello_accepted)) /\
   exists o r,
     Ctx.Body send = Some o /\
     JSON_SendMessageResponse hello_accepted = JSON_SendMessageResponse r /\
     SendMessageResponse.MD5OfMessageBody r =
       hex_EncodeToString
         (md5_digest (list_byte_of_string (JSONObject.MessageBody o))) /\
     all_chars is_lower_hex (SendMessageResponse.MD5OfMessageBody r) = true /\
     String.length (SendMessageResponse.MD5OfMessageBody r) = 32%nat)
  /\
  (sqs.ReceiveMessage receive 1 hello_sent
     = (q', inr (JSON_ReceiveMessageResponse hello_received)) /\
   exists r,
     JSON_ReceiveMessageResponse hello_received
       = JSON_ReceiveMessageResponse r /\
     Forall
       (fun m =>
          Message.MD5OfBody m =
            hex_EncodeToString
              (md5_digest (list_byte_of_string (Message.Body m))) /\
          all_chars is_lower_hex (Message.MD5OfBody m) = true /\
          String.length (Message.MD5OfBody m) = 32%nat)
       (ReceiveMessageResponse.Messages r)).
Proof.
  intros send receive q'.
  assert (Es : sqs.SendMessage send 1 three_queues
               = (hello_sent, inr (JSON_SendMessageResponse hello_accepted)))
    by (vm_compute; reflexivity).
  assert (Er : sqs.ReceiveMessage receive 1 hello_sent
               = (q', inr (JSON_ReceiveMessageResponse hello_received)))
    by (vm_compute; reflexivity).
  split; (split; [assumption|]).
  - exact (proj1 MD5_of_body send 1 three_queues hello_sent _ Es).
  - exact (proj2 MD5_of_body receive 1 hello_sent q' _ Er).
Defined.

Lemma QueueUrl_tenant_segment_is_not_used_witness :
  let o := SendMessage_body "" "hello world" 0 hello_attributes in
  let host := "https://sqs.us-east-1.amazonaws.com" in
  let c1 := signed_request "AmazonSQS.SendMessage" "digest-one"
              (set_QueueUrl (QueueUrl_format host "1" "q1") o) in
  let c2 := signed_request "AmazonSQS.SendMessage" "digest-two"
              (set_QueueUrl (QueueUrl_format host "999" "q1") o) in
  has_slash "q1" = false /\
  Ctx.ReqHeaders c1 !! "X-Amz-Target" = Ctx.ReqHeaders c2 !! "X-Amz-Target" /\
  Ctx.Body c1 = Some (set_QueueUrl (QueueUrl_format host "1" "q1") o) /\
  Ctx.Body c2 = Some (set_QueueUrl (QueueUrl_format host "999" "q1") o) /\
  @sqs.authenticates single_tenant lenient_verifier c1 1 /\
  @sqs.authenticates single_tenant lenient_verifier c2 1 /\
  @sqs.authMiddleware _ _ _ single_tenant lenient_verifier c1 three_queues
    = @sqs.authMiddleware _ _ _ single_tenant lenient_verifier c2 three_queues /\
  @sqs.authMiddleware _ _ _ single_tenant lenient_verifier c1 three_queues
    = sqs.Action (set_tenantId 1 (set_Body (Some (set_QueueUrl "q1" o)) c1))
        three_queues /\
  sqs.queue_of_url (QueueUrl_format host "1" "q1") = inr "q1" /\
  @sqs.authMiddleware _ _ _ single_tenant lenient_verifier c1 three_queues
    = match models.Enqueue 1 "q1" (JSONObject.MessageBody o)
              (sqs.SendMessage_kv (JSONObject.MessageAttributes o))
              (JSONObject.DelaySeconds o) 30 three_queues with
      | (q', inl e) => (q', inl e)
      | (q', inr messageId) =>
          (q', inr (JSON_SendMessageResponse
                      {| SendMessageResponse.MessageId :=
                           fmt_Sprintf_d messageId;
                         SendMessageResponse.MD5OfMessageBody :=
                           hex_EncodeToString
                             (md5_digest
                                (list_byte_of_string
                                   (JSONObject.MessageBody o)));
                         SendMessageResponse.MD5OfMessageAttributes := "";
                         SendMessageResponse.SequenceNumber := "" |}))
      end /\
  models.Enqueue 1 "q1" "hello world" (sqs.SendMessage_kv hello_attributes)
    0 30 three_queues = (hello_sent, inr 1).
Proof.
  intros o host c1 c2.
  assert (Hq : has_slash "q1" = false) by reflexivity.
  assert (Hh : Ctx.ReqHeaders c1 !! "X-Amz-Target"
               = Ctx.ReqHeaders c2 !! "X-Amz-Target") by reflexivity.
  assert (Hm : Ctx.ReqHeaders c1 !! "X-Amz-Target"
               = Some ["AmazonSQS.SendMessage"]) by reflexivity.
  assert (Hb1 : Ctx.Body c1
                = Some (set_QueueUrl (QueueUrl_format host "1" "q1") o))
    by reflexivity.
  assert (Hb2 : Ctx.Body c2
                = Some (set_QueueUrl (QueueUrl_format host "999" "q1") o))
    by reflexivity.
  assert (H1 : @sqs.authenticates single_tenant lenient_verifier c1 1).
  { exists c1, (AWSHeader.mk "AKIDEXAMPLE" "us-east-1"), "secret".
    vm_compute. repeat split. }
  assert (H2 : @sqs.authenticates single_tenant lenient_verifier c2 1).
  { exists c2, (AWSHeader.mk "AKIDEXAMPLE" "us-east-1"), "secret".
    vm_compute. repeat split. }
  split; [exact Hq|split; [exact Hh|split; [exact Hb1|split; [exact Hb2|]]]].
  split; [exact H1|split; [exact H2|]].
  destruct (@QueueUrl_tenant_segment_is_not_used _ _ _ single_tenant
              lenient_verifier c1 c2 o host "1" "999" "q1" 1 three_queues
              Hq Hh Hb1 Hb2 H1 H2) as (Esame & Eserved & Equeue & Hcalls).
  split; [exact Esame|split; [exact Eserved|split; [exact Equeue|]]].
  split.
  - exact (proj1 (Hcalls "AmazonSQS.SendMessage" [] Hm) eq_refl).
  - vm_compute. reflexivity.
Defined.

Lemma ReceiveMessage_no_DataType_keys_witness :
  let attrs : gmap string MessageAttributeValue.t :=
    {[ "colour" := String_attribute "red";
       "x_DataType" := String_attribute "v" ]} in
  let sent :=
    state_after
      (request "AmazonSQS.SendMessage" 1 (SendMessage_body q1_url "m" 0 attrs))
      three_queues in
  let receive := request "AmazonSQS.ReceiveMessage" 1
                   (ReceiveMessage_body q1_url 1 0) in
  let q' := fst (sqs.ReceiveMessage receive 1 sent) in
  let received :=
    {| ReceiveMessageResponse.Messages :=
         [ {| Message.MessageId := "1";
              Message.ReceiptHandle := "1";
              Message.MD5OfBody := "6f8f57715090da2632453988d9a1501b";
              Message.Body := "m";
              Message.Attributes := ∅;
              Message.MD5OfMessageAttributes := "";
              Message.MessageAttributes :=
                {[ "colour" := MessageAttribute.mk "red" [] [] [] "String" ]}
           |} ] |} in
  (sqs.ReceiveMessage receive 1 sent
     = (q', inr (JSON_ReceiveMessageResponse received)) /\
   exists r,
     JSON_ReceiveMessageResponse received = JSON_ReceiveMessageResponse r /\
     forall m, m ∈ ReceiveMessageResponse.Messages r ->
       forall k, is_Some (Message.MessageAttributes m !! k) ->
         ~ ends_with k "_DataType")
  /\
  (ends_with "x_DataType" "_DataType" /\
   sqs.ReceiveMessage_attributes (sqs.SendMessage_kv attrs) !! "x_DataType"
     = None).
Proof.
  intros attrs sent receive q' received.
  assert (E : sqs.ReceiveMessage receive 1 sent
              = (q', inr (JSON_ReceiveMessageResponse received)))
    by (vm_compute; reflexivity).
  assert (Hends : ends_with "x_DataType" "_DataType")
    by (exists "x"; reflexivity).
  split; (split; [assumption|]).
  - exact (proj1 ReceiveMessage_no_DataType_keys receive 1 sent q' _ E).
  - exact (proj2 ReceiveMessage_no_DataType_keys attrs "x_DataType" Hends).
Defined.

Lemma hello_attributes_carried : map_Forall carried hello_attributes.
Proof.
  unfold hello_attributes.
  apply map_Forall_insert_2; [|apply map_Forall_singleton].
  - split.
    + intros Hends%strings_HasSuffix_spec. discriminate Hends.
    + right. right. split; [reflexivity|].
      by exists (list_byte_of_string "hello").
  - split.
    + intros Hends%strings_HasSuffix_spec. discriminate Hends.
    + right. left. reflexivity.
Qed.

Lemma SendMessage_ReceiveMessage_round_trip_witness :
  let o := SendMessage_body q1_url "hello world" 0 hello_attributes in
  let c := request "AmazonSQS.SendMessage" 1 o in
  let receive := request "AmazonSQS.ReceiveMessage" 1
                   (ReceiveMessage_body q1_url 1 0) in
  let kv := sqs.SendMessage_kv (JSONObject.MessageAttributes o) in
  let message :=
    {| models.Message.ID := 1;
       models.Message.Message :=
         list_byte_of_string (JSONObject.MessageBody o);
       models.Message.KeyValues := kv |} in
  Ctx.Body c = Some o /\
  map_Forall carried (JSONObject.MessageAttributes o) /\
  sqs.SendMessage c 1 three_queues
    = (hello_sent, inr (JSON_SendMessageResponse hello_accepted)) /\
  (exists q',
     models.Dequeue 1 "q1" 1 hello_sent = (q', inr [message]) /\
     sqs.ReceiveMessage receive 1 hello_sent
       = (q', inr (JSON_ReceiveMessageResponse hello_received))) /\
  exists msg_id : Z,
    models.Enqueue 1 (final_segment (JSONObject.QueueUrl o))
      (JSONObject.MessageBody o) kv (JSONObject.DelaySeconds o) 30 three_queues
      = (hello_sent, inr msg_id) /\
    (exists r, JSON_SendMessageResponse hello_accepted
                 = JSON_SendMessageResponse r /\
               SendMessageResponse.MessageId r = fmt_Sprintf_d msg_id) /\
    (forall (c' : Ctx.t) (q2 q3 : engine.Store) (received : Response),
       sqs.ReceiveMessage c' 1 q2 = (q3, inr received) ->
       exists (o' : JSONObject.t) (messages : list models.Message.t)
              (r : ReceiveMessageResponse.t),
         Ctx.Body c' = Some o' /\
         models.Dequeue 1 (final_segment (JSONObject.QueueUrl o'))
           (if JSONObject.MaxNumberOfMessages o' =? 0 then 1
            else JSONObject.MaxNumberOfMessages o') q2
           = (q3, inr messages) /\
         received = JSON_ReceiveMessageResponse r /\
         Forall2
           (fun message m =>
              Message.MessageId m = fmt_Sprintf_d (models.Message.ID message) /\
              (models.Message.Message message
                 = list_byte_of_string (JSONObject.MessageBody o) ->
               models.Message.KeyValues message = kv ->
               Message.Body m = JSONObject.MessageBody o /\
               Message.MessageAttributes m
                 = received_attribute <$> JSONObject.MessageAttributes o))
           messages (ReceiveMessageResponse.Messages r)) /\
    (forall name v,
       JSONObject.MessageAttributes o !! name = Some v ->
       MessageAttribute.DataType (received_attribute v)
         = MessageAttributeValue.DataType v /\
       (MessageAttributeValue.DataType v = "Binary" ->
        wire_BinaryValue (received_attribute v)
          = MessageAttributeValue.BinaryValue v) /\
       (MessageAttributeValue.DataType v <> "Binary" ->
        MessageAttribute.StringValue (received_attribute v)
          = MessageAttributeValue.StringValue v)).
Proof.
  intros o c receive kv message.
  assert (Hb : Ctx.Body c = Some o) by reflexivity.
  assert (Hsend : sqs.SendMessage c 1 three_queues
                  = (hello_sent, inr (JSON_SendMessageResponse hello_accepted)))
    by (vm_compute; reflexivity).
  split; [exact Hb|split; [exact hello_attributes_carried|]].
  split; [exact Hsend|split].
  - exists (fst (sqs.ReceiveMessage receive 1 hello_sent)).
    split; vm_compute; reflexivity.
  - exact (SendMessage_ReceiveMessage_round_trip c o 1 three_queues hello_sent
             _ Hb hello_attributes_carried Hsend).
Defined.

(** Text that [DecodeString] accepts without its being what
    [EncodeToString] writes comes back changed. *)
Lemma base64_text_not_as_encoded :
  let padded := "QR==" in
  let broken := String "a" (String "G" (String "V" (String "s"
                  (String (ascii_of_nat 10) "bG8=")))) in
  base64_DecodeString padded = Some (list_byte_of_string "A") /\
  base64_EncodeToString (list_byte_of_string "A") = "QQ==" /\
  base64_DecodeString broken = Some (list_byte_of_string "hello") /\
  base64_EncodeToString (list_byte_of_string "hello") = "aGVsbG8=" /\
  wire_BinaryValue (received_attribute (Binary_attribute padded)) = "QQ==" /\
  wire_BinaryValue (received_attribute (Binary_attribute broken)) = "aGVsbG8=".
Proof. vm_compute. repeat split. Qed.

(** C1 as stated fails: an attribute whose name ends in [_DataType] and
    an attribute of a custom type are both sent with a message, and the
    message comes back without attributes. *)
Lemma round_trip_counterexample :
  let attrs : gmap string MessageAttributeValue.t :=
    {[ "x_DataType" := String_attribute "v";
       "shade" := MessageAttributeValue.mk "red" "" [] [] "String.colour" ]} in
  let send := request "AmazonSQS.SendMessage" 1
                (SendMessage_body q1_url "m" 0 attrs) in
  let receive := request "AmazonSQS.ReceiveMessage" 1
                   (ReceiveMessage_body q1_url 1 0) in
  exists (sent : SendMessageResponse.t) (m : Message.t),
    answer_to send three_queues = inr (JSON_SendMessageResponse sent) /\
    answer_to receive (state_after send three_queues)
      = inr (JSON_ReceiveMessageResponse
               {| ReceiveMessageResponse.Messages := [m] |}) /\
    Message.MessageId m = SendMessageResponse.MessageId sent /\
    Message.Body m = "m" /\
    Message.MessageAttributes m = ∅ /\
    attrs !! "x_DataType" = Some (String_attribute "v") /\
    attrs !! "shade"
      = Some (MessageAttributeValue.mk "red" "" [] [] "String.colour").
Proof.
  intros attrs send receive. eexists _, _.
  split; [vm_compute; reflexivity|].
  split; [vm_compute; reflexivity|].
  vm_compute. repeat split.
Qed.

(** ** The engine: invariant and delivery *)

(** The engine lists exactly the queues of the tenant. *)
Lemma list_queues_owned (tenant : Z) (s : engine.Store) (name : string) :
  exists names,
    engine.list_queues tenant s = (s, inr names) /\
    (name ∈ names <-> is_Some (engine.queues s !! (tenant, name))).
Proof.
  eexists. split; [reflexivity|].
  rewrite list_elem_of_In, in_map_iff. split.
  - intros ([t n] & <- & Hin). apply filter_In in Hin as [Hin Ht].
    simpl in Ht. apply Z.eqb_eq in Ht. subst t.
    apply in_map_iff in Hin as ([k qd] & Hk & Hin). simpl in Hk. subst k.
    apply list_elem_of_In, elem_of_map_to_list in Hin. by exists qd.
  - intros [qd Hqd]. exists (tenant, name). split; [reflexivity|].
    apply filter_In. split; [|simpl; apply Z.eqb_refl].
    apply in_map_iff. exists (tenant, name, qd). split; [reflexivity|].
    by apply list_elem_of_In, elem_of_map_to_list.
Qed.

Lemma insert_ordered_elem (m x : engine.StoredMessage)
    (l : list engine.StoredMessage) :
  x ∈ engine.insert_ordered m l <-> x = m \/ x ∈ l.
Proof.
  induction l as [|y l IH]; simpl.
  - rewrite list_elem_of_singleton, elem_of_nil. tauto.
  - destruct (engine.before m y).
    + rewrite elem_of_cons. reflexivity.
    + rewrite !elem_of_cons, IH. tauto.
Qed.

Lemma delivery_order_elem (x : engine.StoredMessage)
    (l : list engine.StoredMessage) :
  x ∈ engine.delivery_order l <-> x ∈ l.
Proof.
  induction l as [|y l IH]; simpl; [reflexivity|].
  rewrite insert_ordered_elem, elem_of_cons, IH. reflexivity.
Qed.

Lemma claimed_elem (t : Z) (n : nat) (msgs : list engine.StoredMessage)
    (x : engine.StoredMessage) :
  x ∈ engine.claimed t n msgs -> x ∈ msgs /\ engine.eligible t x = true.
Proof.
  unfold engine.claimed. intros Hx.
  apply elem_of_take in Hx as (i & Hx%list_elem_of_lookup_2 & _).
  apply delivery_order_elem, list_elem_of_In, filter_In in Hx as [Hin He].
  split; [by apply list_elem_of_In|exact He].
Qed.

Lemma claimed_length (t : Z) (n : nat) (msgs : list engine.StoredMessage) :
  (List.length (engine.claimed t n msgs) <= n)%nat.
Proof. unfold engine.claimed. apply firstn_le_length. Qed.

(** What [Dequeue] answers with. *)
Lemma Dequeue_inv (tenant : Z) (queue : string) (max_n : Z)
    (s s' : engine.Store) (messages : list models.Message.t) :
  engine.Dequeue tenant queue max_n s = (s', inr messages) ->
  exists qd,
    engine.queues s !! (tenant, queue) = Some qd /\
    let chosen :=
      engine.claimed (engine.now s) (Z.to_nat (Z.max 1 (Z.min 10 max_n)))
        (engine.messages qd) in
    messages = List.map engine.to_message chosen /\
    s' = engine.with_queues s
           (<[(tenant, queue) :=
                engine.mkQueue (engine.next_id qd)
                  (List.map
                     (fun m =>
                        if bool_decide (engine.id m ∈ List.map engine.id chosen)
                        then engine.lease (engine.now s) m else m)
                     (engine.messages qd))]> (engine.queues s)).
Proof.
  unfold engine.Dequeue, engine.claim_visible.
  destruct (engine.queues s !! (tenant, queue)) as [qd|]; [|discriminate].
  intros [= <- <-]. exists qd. repeat split.
Qed.

Lemma Dequeue_at_most_ten (tenant : Z) (queue : string) (max_n : Z)
    (s s' : engine.Store) (messages : list models.Message.t) :
  engine.Dequeue tenant queue max_n s = (s', inr messages) ->
  (List.length messages <= 10)%nat.
Proof.
  intros (qd & _ & -> & _)%Dequeue_inv.
  rewrite length_map.
  etrans; [apply claimed_length|]. lia.
Qed.

Lemma Dequeue_clamp_high (tenant : Z) (queue : string) (max_n : Z)
    (s : engine.Store) :
  10 < max_n ->
  engine.Dequeue tenant queue max_n s = engine.Dequeue tenant queue 10 s.
Proof.
  intros Hn. unfold engine.Dequeue.
  replace (Z.max 1 (Z.min 10 max_n)) with (Z.max 1 (Z.min 10 10)) by lia.
  reflexivity.
Qed.

Lemma Dequeue_clamp_low (tenant : Z) (queue : string) (max_n : Z)
    (s : engine.Store) :
  max_n < 1 ->
  engine.Dequeue tenant queue max_n s = engine.Dequeue tenant queue 1 s.
Proof.
  intros Hn. unfold engine.Dequeue.
  replace (Z.max 1 (Z.min 10 max_n)) with (Z.max 1 (Z.min 10 1)) by lia.
  reflexivity.
Qed.

Lemma Enqueue_inv (tenant : Z) (queue msg : string) (kv : gmap string string)
    (delay_s visibility_s : Z) (s s' : engine.Store) (new_id : Z) :
  engine.Enqueue tenant queue msg kv delay_s visibility_s s = (s', inr new_id) ->
  0 <= delay_s <= 900 /\ 0 <= visibility_s <= 43200 /\
  exists qd,
    engine.queues s !! (tenant, queue) = Some qd /\
    new_id = engine.next_id qd /\
    s' = engine.with_queues s
           (<[(tenant, queue) :=
                engine.mkQueue (engine.next_id qd + 1)
                  (engine.messages qd ++
                   [ {| engine.id := engine.next_id qd;
                        engine.body := list_byte_of_string msg;
                        engine.attributes := kv;
                        engine.state := if delay_s =? 0 then models.Visible
                                        else models.Delayed;
                        engine.visible_at := engine.now s + delay_s;
                        engine.visibility_s := visibility_s;
                        engine.enqueued_at := engine.now s;
                        engine.deliveries := 0 |} ])]> (engine.queues s)).
Proof.
  unfold engine.Enqueue.
  destruct ((0 <=? delay_s) && (delay_s <=? 900) && (0 <=? visibility_s)
            && (visibility_s <=? 43200)) eqn:Hb; simpl; [|discriminate].
  destruct (engine.queues s !! (tenant, queue)) as [qd|]; [|discriminate].
  intros [= <- <-].
  repeat (apply andb_true_iff in Hb as [Hb ?]).
  repeat split; try lia. exists qd. repeat split.
Qed.

Lemma Enqueue_out_of_bounds (tenant : Z) (queue msg : string)
    (kv : gmap string string) (delay_s visibility_s : Z) (s : engine.Store) :
  delay_s < 0 \/ 900 < delay_s ->
  engine.Enqueue tenant queue msg kv delay_s visibility_s s =
    (s, inl (service_error InvalidParameterValue)).
Proof.
  intros Hd. unfold engine.Enqueue.
  replace ((0 <=? delay_s) && (delay_s <=? 900)) with false; [reflexivity|].
  symmetry. apply andb_false_iff. destruct Hd; [left|right]; lia.
Qed.

Lemma wf_with_queue (s : engine.Store) (k : Z * string) (qd : engine.QueueData) :
  wf s -> wf_queue qd ->
  wf (engine.with_queues s (<[k := qd]> (engine.queues s))).
Proof. intros Hs Hq. unfold wf. simpl. by apply map_Forall_insert_2. Qed.

Lemma wf_queue_same_ids (qd : engine.QueueData)
    (g : engine.StoredMessage -> engine.StoredMessage) :
  (forall m, engine.id (g m) = engine.id m) ->
  wf_queue qd ->
  wf_queue (engine.mkQueue (engine.next_id qd) (List.map g (engine.messages qd))).
Proof.
  intros Hg [Hnd Hlt]. split; simpl.
  - rewrite map_map. erewrite map_ext; [exact Hnd|]. intros m. apply Hg.
  - apply Forall_forall. intros m' (m & <- & Hm)%list_elem_of_In%in_map_iff.
    rewrite Hg. rewrite Forall_forall in Hlt. by apply Hlt, list_elem_of_In.
Qed.

Lemma wf_empty (t : Z) (cap : nat) : wf (engine.empty t cap).
Proof. unfold wf, engine.empty. simpl. apply map_Forall_empty. Qed.

Lemma create_queue_wf (tenant : Z) (name : string) (s : engine.Store) :
  wf s -> wf (fst (engine.create_queue tenant name s)).
Proof.
  intros Hs. unfold engine.create_queue.
  destruct (engine.queues s !! (tenant, name)); [exact Hs|]. simpl.
  apply wf_with_queue; [exact Hs|]. split; simpl; constructor.
Qed.

Lemma delete_queue_wf (tenant : Z) (name : string) (s : engine.Store) :
  wf s -> wf (fst (engine.delete_queue tenant name s)).
Proof.
  intros Hs. unfold engine.delete_queue.
  destruct (engine.queues s !! (tenant, name)); [|exact Hs]. simpl.
  unfold wf. simpl. by apply map_Forall_delete.
Qed.

Lemma Enqueue_wf (tenant : Z) (queue msg : string) (kv : gmap string string)
    (delay_s visibility_s : Z) (s : engine.Store) :
  wf s -> wf (fst (engine.Enqueue tenant queue msg kv delay_s visibility_s s)).
Proof.
  intros Hs.
  destruct (engine.Enqueue tenant queue msg kv delay_s visibility_s s)
    as [s' [e|new_id]] eqn:E.
  - unfold engine.Enqueue in E.
    destruct (negb _); [by simplify_eq|].
    destruct (engine.queues s !! (tenant, queue)); by simplify_eq.
  - apply Enqueue_inv in E as (_ & _ & qd & Hqd & _ & ->). simpl.
    apply wf_with_queue; [exact Hs|].
    destruct (Hs _ _ Hqd) as [Hnd Hlt]. split; simpl.
    + rewrite map_app. simpl. apply NoDup_app. repeat split.
      * exact Hnd.
      * intros x Hx ->%list_elem_of_singleton.
        apply list_elem_of_In, in_map_iff in Hx as (m & Hid & Hm).
        rewrite Forall_forall in Hlt.
        apply list_elem_of_In, Hlt in Hm. lia.
      * apply NoDup_singleton.
    + apply Forall_app. split.
      * eapply Forall_impl; [exact Hlt|]. simpl. intros; lia.
      * constructor; [simpl; lia|constructor].
Qed.

Lemma Dequeue_wf (tenant : Z) (queue : string) (max_n : Z) (s : engine.Store) :
  wf s -> wf (fst (engine.Dequeue tenant queue max_n s)).
Proof.
  intros Hs.
  destruct (engine.Dequeue tenant queue max_n s) as [s' [e|messages]] eqn:E.
  - unfold engine.Dequeue in E.
    destruct (engine.queues s !! (tenant, queue)); [|by simplify_eq].
    destruct (engine.claim_visible _ _ _). by simplify_eq.
  - apply Dequeue_inv in E as (qd & Hqd & _ & ->). simpl.
    apply wf_with_queue; [exact Hs|].
    apply wf_queue_same_ids; [|exact (Hs _ _ Hqd)].
    intros m. by destruct (bool_decide _).
Qed.

Lemma Delete_wf (tenant : Z) (queue : string) (msg_id : Z) (s : engine.Store) :
  wf s -> wf (fst (engine.Delete tenant queue msg_id s)).
Proof.
  intros Hs. unfold engine.Delete.
  destruct (engine.queues s !! (tenant, queue)) as [qd|] eqn:Hqd; [|exact Hs].
  destruct (bool_decide _); [|exact Hs]. simpl.
  apply wf_with_queue; [exact Hs|].
  apply wf_queue_same_ids; [|exact (Hs _ _ Hqd)].
  intros m. by destruct (engine.id m =? msg_id).
Qed.

Lemma PurgeQueue_loop_wf (tenant : Z) (queue : string) (ids : list Z)
    (s : engine.Store) :
  wf s -> wf (sqs.PurgeQueue_loop tenant queue ids s).
Proof.
  revert s. induction ids as [|i ids IH]; intros s Hs; [exact Hs|].
  simpl. apply IH. by apply Delete_wf.
Qed.

(** Every operation of the wire protocol keeps the ids of each queue
    unique and below the next id. *)
Lemma Action_wf `{!GoRuntime} (c : Ctx.t) (s : engine.Store) :
  wf s -> wf (fst (sqs.Action c s)).
Proof.
  intros Hs. unfold sqs.Action.
  destruct (Ctx.ReqHeaders c !! "X-Amz-Target") as [hs|]; [|exact Hs].
  destruct (hs !! 0%nat) as [awsMethod|]; [|exact Hs].
  destruct (Ctx.Locals c !! "tenantId") as [tenantId|]; [|exact Hs].
  repeat match goal with
         | |- wf (fst ((if ?b then _ else _) _)) => destruct b
         end;
    rewrite ?SendMessage_eq, ?ReceiveMessage_eq, ?DeleteMessage_eq,
      ?DeleteQueue_eq, ?PurgeQueue_eq, ?GetQueueAttributes_eq, ?ListQueues_eq;
    try exact Hs;
    try (destruct (Ctx.Body c) as [o|]; [|exact Hs]);
    try exact Hs.
  - pose proof (Enqueue_wf tenantId (final_segment (JSONObject.QueueUrl o))
                  (JSONObject.MessageBody o)
                  (sqs.SendMessage_kv (JSONObject.MessageAttributes o))
                  (JSONObject.DelaySeconds o) 30 s Hs) as Hw.
    simpl. destruct (engine.Enqueue _ _ _ _ _ _ s) as [s' [e|i]]; exact Hw.
  - pose proof (Dequeue_wf tenantId (final_segment (JSONObject.QueueUrl o))
                  (if JSONObject.MaxNumberOfMessages o =? 0 then 1
                   else JSONObject.MaxNumberOfMessages o) s Hs) as Hw.
    simpl. destruct (engine.Dequeue _ _ _ s) as [s' [e|ms]]; exact Hw.
  - destruct (strconv_ParseInt _) as [i|]; [|exact Hs].
    pose proof (Delete_wf tenantId (final_segment (JSONObject.QueueUrl o))
                  i s Hs) as Hw.
    simpl. destruct (engine.Delete _ _ _ s) as [s' [e|[]]]; exact Hw.
  - unfold sqs.CreateQueue. unfold_handler. simpl.
    destruct (Ctx.Body c) as [o|]; [|exact Hs]. simpl.
    pose proof (create_queue_wf tenantId (JSONObject.QueueName o) s Hs) as Hw.
    destruct (engine.create_queue _ _ s) as [s' [e|[]]]; exact Hw.
  - simpl. by apply PurgeQueue_loop_wf.
  - pose proof (delete_queue_wf tenantId
                  (final_segment (JSONObject.QueueUrl o)) s Hs) as Hw.
    simpl. destruct (engine.delete_queue _ _ s) as [s' [e|[]]]; exact Hw.
Qed.

Lemma Enqueue_ok (tenant : Z) (queue msg : string) (kv : gmap string string)
    (delay_s visibility_s : Z) (s : engine.Store) (qd : engine.QueueData) :
  0 <= delay_s <= 900 -> 0 <= visibility_s <= 43200 ->
  engine.queues s !! (tenant, queue) = Some qd ->
  engine.Enqueue tenant queue msg kv delay_s visibility_s s =
    (engine.with_queues s
       (<[(tenant, queue) :=
            engine.mkQueue (engine.next_id qd + 1)
              (engine.messages qd ++
               [ {| engine.id := engine.next_id qd;
                    engine.body := list_byte_of_string msg;
                    engine.attributes := kv;
                    engine.state := if delay_s =? 0 then models.Visible
                                    else models.Delayed;
                    engine.visible_at := engine.now s + delay_s;
                    engine.visibility_s := visibility_s;
                    engine.enqueued_at := engine.now s;
                    engine.deliveries := 0 |} ])]> (engine.queues s)),
     inr (engine.next_id qd)).
Proof.
  intros Hd Hv Hqd. unfold engine.Enqueue.
  replace ((0 <=? delay_s) && (delay_s <=? 900) && (0 <=? visibility_s)
           && (visibility_s <=? 43200)) with true.
  - simpl. rewrite Hqd. reflexivity.
  - symmetry. repeat (apply andb_true_intro; split); lia.
Qed.

Lemma find_appended (old : list engine.StoredMessage) (m : engine.StoredMessage) :
  Forall (fun x => engine.id x < engine.id m) old ->
  List.find (fun x => engine.id x =? engine.id m) (old ++ [m]) = Some m.
Proof.
  induction 1 as [|x old Hx _ IH]; simpl.
  - by rewrite Z.eqb_refl.
  - replace (engine.id x =? engine.id m) with false by lia. exact IH.
Qed.

Lemma no_present_no_eligible (t : Z) (msgs : list engine.StoredMessage) :
  engine.alive msgs = [] ->
  List.filter (engine.eligible t) msgs = [].
Proof.
  unfold engine.alive.
  induction msgs as [|m msgs IH]; simpl; [reflexivity|].
  unfold engine.eligible at 1.
  destruct (negb (engine.is_tombstoned m)); [discriminate|]. exact IH.
Qed.

Lemma ReceiveMessage_loop_elem `{!GoRuntime} (hasher : Hasher)
    (messages : list models.Message.t) (m : Message.t) :
  m ∈ sqs.ReceiveMessage_loop hasher messages ->
  exists message,
    message ∈ messages /\
    Message.MessageId m = fmt_Sprintf_d (models.Message.ID message) /\
    Message.Body m = string_of_list_byte (models.Message.Message message) /\
    Message.MessageAttributes m =
      sqs.ReceiveMessage_attributes (models.Message.KeyValues message).
Proof.
  rewrite ReceiveMessage_loop_spec.
  intros (message & <- & Hin)%list_elem_of_In%in_map_iff.
  exists message. by split; [apply list_elem_of_In|].
Qed.

(** C4.  A [ReceiveMessage] whose [MaxNumberOfMessages] is 0 (or absent)
    is served exactly as one that asks for 1, one that asks for more
    than 10 exactly as one that asks for 10, and no response carries
    more than 10 messages (one message when 0 was asked for). *)
Theorem MaxNumberOfMessages_is_clamped `{!GoRuntime}
    (c : Ctx.t) (o : JSONObject.t) (tenantId : Z) (s : engine.Store) :
  Ctx.Body c = Some o ->
  let asking k := set_Body (Some (set_MaxNumberOfMessages k o)) c in
  (JSONObject.MaxNumberOfMessages o = 0 ->
   sqs.ReceiveMessage c tenantId s = sqs.ReceiveMessage (asking 1) tenantId s)
  /\
  (10 < JSONObject.MaxNumberOfMessages o ->
   sqs.ReceiveMessage c tenantId s = sqs.ReceiveMessage (asking 10) tenantId s)
  /\
  (forall s' r,
     sqs.ReceiveMessage c tenantId s
       = (s', inr (JSON_ReceiveMessageResponse r)) ->
     (List.length (ReceiveMessageResponse.Messages r) <= 10)%nat /\
     (JSONObject.MaxNumberOfMessages o = 0 ->
      (List.length (ReceiveMessageResponse.Messages r) <= 1)%nat)).
Proof.
  intros Hb asking. rewrite !ReceiveMessage_eq, Hb. simpl.
  split; [|split].
  - intros ->. reflexivity.
  - intros Hn.
    replace (JSONObject.MaxNumberOfMessages o =? 0) with false by lia.
    simpl. by rewrite Dequeue_clamp_high.
  - intros s' r Hrun.
    destruct (engine.Dequeue _ _ _ s) as [s1 [e|messages]] eqn:E;
      [discriminate|].
    injection Hrun as <- <-. simpl.
    rewrite ReceiveMessage_loop_spec, length_map. split.
    + by eapply Dequeue_at_most_ten.
    + intros Hz. rewrite Hz in E. simpl in E.
      apply Dequeue_inv in E as (qd & _ & -> & _).
      rewrite length_map. apply claimed_length.
Qed.

(** C5.  A [SendMessage] whose [DelaySeconds] lies outside [0, 900]
    (901, say) fails with [InvalidParameterValue] and stores nothing.
    With [DelaySeconds = 900] on an existing queue it succeeds, and the
    message may be claimed exactly from 900 seconds on: no
    [ReceiveMessage] on the queue returns it earlier, and on a queue
    that held no other message a [ReceiveMessage] after 900 seconds
    returns it. *)
Theorem DelaySeconds_bounds `{!GoRuntime}
    (c : Ctx.t) (o : JSONObject.t) (tenantId : Z) (s : engine.Store) :
  Ctx.Body c = Some o ->
  let queue := final_segment (JSONObject.QueueUrl o) in
  (JSONObject.DelaySeconds o < 0 \/ 900 < JSONObject.DelaySeconds o ->
   sqs.SendMessage c tenantId s
     = (s, inl (service_error InvalidParameterValue)))
  /\
  (JSONObject.DelaySeconds o = 900 ->
   wf s ->
   is_Some (engine.queues s !! (tenantId, queue)) ->
   exists s' new_id r,
     sqs.SendMessage c tenantId s = (s', inr (JSON_SendMessageResponse r)) /\
     SendMessageResponse.MessageId r = fmt_Sprintf_d new_id /\
     (forall dt,
        deliverable (engine.advance dt s') tenantId queue new_id = true
        <-> 900 <= dt) /\
     (forall dt c' o' s'' r',
        dt < 900 ->
        Ctx.Body c' = Some o' ->
        final_segment (JSONObject.QueueUrl o') = queue ->
        sqs.ReceiveMessage c' tenantId (engine.advance dt s')
          = (s'', inr (JSON_ReceiveMessageResponse r')) ->
        forall m, m ∈ ReceiveMessageResponse.Messages r' ->
          Message.MessageId m <> SendMessageResponse.MessageId r) /\
     (forall dt c' o',
        900 <= dt ->
        engine.present s tenantId queue = [] ->
        Ctx.Body c' = Some o' ->
        final_segment (JSONObject.QueueUrl o') = queue ->
        exists s'' m,
          sqs.ReceiveMessage c' tenantId (engine.advance dt s')
            = (s'', inr (JSON_ReceiveMessageResponse
                           {| ReceiveMessageResponse.Messages := [m] |})) /\
          Message.MessageId m = SendMessageResponse.MessageId r /\
          Message.Body m = JSONObject.MessageBody o)).
Proof.
  intros Hb queue. split.
  - intros Hd. rewrite SendMessage_eq, Hb.
    change (models.Enqueue tenantId (final_segment (JSONObject.QueueUrl o)))
      with (engine.Enqueue tenantId (final_segment (JSONObject.QueueUrl o))).
    by rewrite Enqueue_out_of_bounds.
  - intros Hd Hwf [qd Hqd].
    destruct (Hwf _ _ Hqd) as [_ Hlt].
    set (kv := sqs.SendMessage_kv (JSONObject.MessageAttributes o)).
    set (new := {| engine.id := engine.next_id qd;
                   engine.body := list_byte_of_string (JSONObject.MessageBody o);
                   engine.attributes := kv;
                   engine.state := models.Delayed;
                   engine.visible_at := engine.now s + 900;
                   engine.visibility_s := 30;
                   engine.enqueued_at := engine.now s;
                   engine.deliveries := 0 |}).
    set (qd' := engine.mkQueue (engine.next_id qd + 1)
                  (engine.messages qd ++ [new])).
    set (s' := engine.with_queues s (<[(tenantId, queue) := qd']> (engine.queues s))).
    assert (Hsend : engine.Enqueue tenantId queue (JSONObject.MessageBody o) kv
                      (JSONObject.DelaySeconds o) 30 s
                    = (s', inr (engine.next_id qd))).
    { rewrite (Enqueue_ok _ _ _ _ _ _ _ qd); [|lia|lia|exact Hqd].
      rewrite Hd. reflexivity. }
    assert (Hq' : forall dt,
              engine.queues (engine.advance dt s') !! (tenantId, queue)
              = Some qd').
    { intros dt. simpl. apply lookup_insert_eq. }
    assert (Hstored : forall dt,
              stored_message (engine.advance dt s') tenantId queue
                (engine.next_id qd) = Some new).
    { intros dt. unfold stored_message. rewrite Hq'. simpl.
      apply (find_appended (engine.messages qd) new). exact Hlt. }
    eexists s', (engine.next_id qd), _. split; [|split; [|split; [|split]]].
    + rewrite SendMessage_eq, Hb.
      change (models.Enqueue tenantId (final_segment (JSONObject.QueueUrl o))
                (JSONObject.MessageBody o)
                (sqs.SendMessage_kv (JSONObject.MessageAttributes o)))
        with (engine.Enqueue tenantId queue (JSONObject.MessageBody o) kv).
      rewrite Hsend. reflexivity.
    + reflexivity.
    + intros dt. unfold deliverable. rewrite Hstored.
      unfold engine.eligible. simpl. rewrite Z.leb_le. lia.
    + intros dt c' o' s'' r' Hdt Hb' Hq Hrun m Hm Hid. simpl in Hid.
      apply ReceiveMessage_inv in Hrun as (o2 & messages & Hb2 & Hdq & [= ->]).
      rewrite Hb' in Hb2. injection Hb2 as <-. rewrite Hq in Hdq.
      apply ReceiveMessage_loop_elem in Hm as (message & Hin & Hmid & _).
      rewrite Hmid in Hid. apply fmt_Sprintf_d_inj in Hid.
      apply Dequeue_inv in Hdq as (qd2 & Hqd2 & -> & _).
      rewrite Hq' in Hqd2. injection Hqd2 as <-.
      apply list_elem_of_In, in_map_iff in Hin as (x & <- & Hx).
      apply list_elem_of_In, claimed_elem in Hx as [Hx He]. simpl in Hid, Hx.
      apply elem_of_app in Hx as [Hx| ->%list_elem_of_singleton].
      * rewrite Forall_forall in Hlt. apply Hlt in Hx. lia.
      * unfold engine.eligible in He. simpl in He.
        apply Z.leb_le in He. lia.
    + intros dt c' o' Hdt Hempty Hb' Hq.
      rewrite ReceiveMessage_eq, Hb', Hq.
      change (models.Dequeue tenantId queue)
        with (engine.Dequeue tenantId queue).
      unfold engine.Dequeue. rewrite Hq'.
      unfold engine.claim_visible, engine.claimed. simpl.
      unfold engine.present in Hempty. rewrite Hqd in Hempty.
      rewrite List.filter_app, (no_present_no_eligible _ _ Hempty). simpl.
      replace (engine.eligible (engine.now s + dt) new) with true.
      2:{ symmetry. unfold engine.eligible. simpl. apply Z.leb_le. lia. }
      simpl.
      match goal with
      | |- context [Z.to_nat (Z.max 1 ?x)] =>
          generalize x; intros k;
          destruct (Z.to_nat (Z.max 1 k)) as [|n] eqn:Hn; [lia|]
      end.
      simpl. rewrite take_nil. simpl.
      eexists _, _. split; [reflexivity|]. simpl.
      split; [reflexivity|apply string_of_list_byte_of_string].
Qed.

Lemma wf_three_queues : wf three_queues.
Proof. unfold three_queues, state_after. repeat apply Action_wf. apply wf_empty. Qed.

Lemma MaxNumberOfMessages_is_clamped_witness :
  let absent := ReceiveMessage_body q1_url 0 0 in
  let many := ReceiveMessage_body q1_url 25 0 in
  let c0 := request "AmazonSQS.ReceiveMessage" 1 absent in
  let c25 := request "AmazonSQS.ReceiveMessage" 1 many in
  (Ctx.Body c0 = Some absent /\
   JSONObject.MaxNumberOfMessages absent = 0 /\
   sqs.ReceiveMessage c0 1 twelve_sent =
     sqs.ReceiveMessage
       (set_Body (Some (set_MaxNumberOfMessages 1 absent)) c0) 1 twelve_sent)
  /\
  (Ctx.Body c25 = Some many /\
   10 < JSONObject.MaxNumberOfMessages many /\
   sqs.ReceiveMessage c25 1 twelve_sent =
     sqs.ReceiveMessage
       (set_Body (Some (set_MaxNumberOfMessages 10 many)) c25) 1 twelve_sent)
  /\
  (exists r,
     snd (sqs.ReceiveMessage c25 1 twelve_sent)
       = inr (JSON_ReceiveMessageResponse r) /\
     List.length (ReceiveMessageResponse.Messages r) = 10%nat).
Proof.
  intros absent many c0 c25.
  assert (H0 : Ctx.Body c0 = Some absent) by reflexivity.
  assert (H25 : Ctx.Body c25 = Some many) by reflexivity.
  assert (Hz : JSONObject.MaxNumberOfMessages absent = 0) by reflexivity.
  assert (Hm : 10 < JSONObject.MaxNumberOfMessages many) by (simpl; lia).
  split; [|split].
  - split; [exact H0|split; [exact Hz|]].
    exact (proj1 (MaxNumberOfMessages_is_clamped c0 absent 1 twelve_sent H0) Hz).
  - split; [exact H25|split; [exact Hm|]].
    exact (proj1 (proj2 (MaxNumberOfMessages_is_clamped c25 many 1 twelve_sent
                           H25)) Hm).
  - eexists. split; vm_compute; reflexivity.
Defined.

Lemma DelaySeconds_bounds_witness :
  let late := SendMessage_body q1_url "later" 901 ∅ in
  let last := SendMessage_body q1_url "later" 900 ∅ in
  let c901 := request "AmazonSQS.SendMessage" 1 late in
  let c900 := request "AmazonSQS.SendMessage" 1 last in
  (Ctx.Body c901 = Some late /\
   (JSONObject.DelaySeconds late < 0 \/ 900 < JSONObject.DelaySeconds late) /\
   sqs.SendMessage c901 1 three_queues
     = (three_queues, inl (service_error InvalidParameterValue)))
  /\
  (Ctx.Body c900 = Some last /\
   JSONObject.DelaySeconds last = 900 /\
   wf three_queues /\
   is_Some (engine.queues three_queues !! (1, "q1")) /\
   exists s' new_id r,
     sqs.SendMessage c900 1 three_queues
       = (s', inr (JSON_SendMessageResponse r)) /\
     SendMessageResponse.MessageId r = fmt_Sprintf_d new_id /\
     (forall dt,
        deliverable (engine.advance dt s') 1 "q1" new_id = true <-> 900 <= dt) /\
     (forall dt c' o' s'' r',
        dt < 900 ->
        Ctx.Body c' = Some o' ->
        final_segment (JSONObject.QueueUrl o') = "q1" ->
        sqs.ReceiveMessage c' 1 (engine.advance dt s')
          = (s'', inr (JSON_ReceiveMessageResponse r')) ->
        forall m, m ∈ ReceiveMessageResponse.Messages r' ->
          Message.MessageId m <> SendMessageResponse.MessageId r) /\
     (forall dt c' o',
        900 <= dt ->
        engine.present three_queues 1 "q1" = [] ->
        Ctx.Body c' = Some o' ->
        final_segment (JSONObject.QueueUrl o') = "q1" ->
        exists s'' m,
          sqs.ReceiveMessage c' 1 (engine.advance dt s')
            = (s'', inr (JSON_ReceiveMessageResponse
                           {| ReceiveMessageResponse.Messages := [m] |})) /\
          Message.MessageId m = SendMessageResponse.MessageId r /\
          Message.Body m = JSONObject.MessageBody last)).
Proof.
  intros late last c901 c900.
  assert (H901 : Ctx.Body c901 = Some late) by reflexivity.
  assert (H900 : Ctx.Body c900 = Some last) by reflexivity.
  assert (Hout : JSONObject.DelaySeconds late < 0
                 \/ 900 < JSONObject.DelaySeconds late) by (right; simpl; lia).
  assert (Hin : JSONObject.DelaySeconds last = 900) by reflexivity.
  assert (Hq : is_Some (engine.queues three_queues !! (1, "q1")))
    by (vm_compute; eexists; reflexivity).
  split.
  - split; [exact H901|split; [exact Hout|]].
    exact (proj1 (DelaySeconds_bounds c901 late 1 three_queues H901) Hout).
  - split; [exact H900|split; [exact Hin|split; [exact wf_three_queues|]]].
    split; [exact Hq|].
    exact (proj2 (DelaySeconds_bounds c900 last 1 three_queues H900)
             Hin wf_three_queues Hq).
Defined.

(** ** The visibility timeout *)

Lemma thirty_with_queue (s : engine.Store) (k : Z * string)
    (qd : engine.QueueData) :
  thirty_only s ->
  Forall (fun m => engine.visibility_s m = 30) (engine.messages qd) ->
  thirty_only (engine.with_queues s (<[k := qd]> (engine.queues s))).
Proof. intros Hs Hq. unfold thirty_only. simpl. by apply map_Forall_insert_2. Qed.

Lemma thirty_same_timeout (msgs : list engine.StoredMessage)
    (g : engine.StoredMessage -> engine.StoredMessage) :
  (forall m, engine.visibility_s (g m) = engine.visibility_s m) ->
  Forall (fun m => engine.visibility_s m = 30) msgs ->
  Forall (fun m => engine.visibility_s m = 30) (List.map g msgs).
Proof.
  intros Hg Hall. apply Forall_forall.
  intros m' (m & <- & Hm)%list_elem_of_In%in_map_iff.
  rewrite Hg. rewrite Forall_forall in Hall. by apply Hall, list_elem_of_In.
Qed.

Lemma Delete_thirty (tenant : Z) (queue : string) (msg_id : Z)
    (s : engine.Store) :
  thirty_only s -> thirty_only (fst (engine.Delete tenant queue msg_id s)).
Proof.
  intros Hs. unfold engine.Delete.
  destruct (engine.queues s !! (tenant, queue)) as [qd|] eqn:Hqd; [|exact Hs].
  destruct (bool_decide _); [|exact Hs]. simpl.
  apply thirty_with_queue; [exact Hs|]. simpl.
  apply thirty_same_timeout; [|exact (Hs _ _ Hqd)].
  intros m. by destruct (engine.id m =? msg_id).
Qed.

Lemma PurgeQueue_loop_thirty (tenant : Z) (queue : string) (ids : list Z)
    (s : engine.Store) :
  thirty_only s -> thirty_only (sqs.PurgeQueue_loop tenant queue ids s).
Proof.
  revert s. induction ids as [|i ids IH]; intros s Hs; [exact Hs|].
  simpl. apply IH. by apply Delete_thirty.
Qed.

(** [SendMessage] is the only operation that stores a message, and it
    stores it with the 30 seconds it hardcodes. *)
Lemma Action_thirty `{!GoRuntime} (c : Ctx.t) (s : engine.Store) :
  thirty_only s -> thirty_only (fst (sqs.Action c s)).
Proof.
  intros Hs. unfold sqs.Action.
  destruct (Ctx.ReqHeaders c !! "X-Amz-Target") as [hs|]; [|exact Hs].
  destruct (hs !! 0%nat) as [awsMethod|]; [|exact Hs].
  destruct (Ctx.Locals c !! "tenantId") as [tenantId|]; [|exact Hs].
  repeat match goal with
         | |- thirty_only (fst ((if ?b then _ else _) _)) => destruct b
         end;
    rewrite ?SendMessage_eq, ?ReceiveMessage_eq, ?DeleteMessage_eq,
      ?DeleteQueue_eq, ?PurgeQueue_eq, ?GetQueueAttributes_eq, ?ListQueues_eq;
    try exact Hs;
    try (destruct (Ctx.Body c) as [o|]; [|exact Hs]);
    try exact Hs.
  - destruct (models.Enqueue tenantId (final_segment (JSONObject.QueueUrl o))
                (JSONObject.MessageBody o)
                (sqs.SendMessage_kv (JSONObject.MessageAttributes o))
                (JSONObject.DelaySeconds o) 30 s) as [s' [e|i]] eqn:E.
    + unfold models.Enqueue in E. simpl in E. unfold engine.Enqueue in E.
      destruct (negb _); [by simplify_eq|].
      destruct (engine.queues s !! _); by simplify_eq.
    + apply Enqueue_inv in E as (_ & _ & qd & Hqd & _ & ->). simpl.
      apply thirty_with_queue; [exact Hs|]. simpl.
      apply Forall_app. split; [exact (Hs _ _ Hqd)|].
      by constructor.
  - destruct (models.Dequeue tenantId (final_segment (JSONObject.QueueUrl o))
                (if JSONObject.MaxNumberOfMessages o =? 0 then 1
                 else JSONObject.MaxNumberOfMessages o) s)
      as [s' [e|ms]] eqn:E.
    + unfold models.Dequeue in E. simpl in E. unfold engine.Dequeue in E.
      destruct (engine.queues s !! _); [|by simplify_eq].
      destruct (engine.claim_visible _ _ _). by simplify_eq.
    + apply Dequeue_inv in E as (qd & Hqd & _ & ->). simpl.
      apply thirty_with_queue; [exact Hs|]. simpl.
      apply thirty_same_timeout; [|exact (Hs _ _ Hqd)].
      intros m. by destruct (bool_decide _).
  - destruct (strconv_ParseInt _) as [i|]; [|exact Hs].
    pose proof (Delete_thirty tenantId (final_segment (JSONObject.QueueUrl o))
                  i s Hs) as Hw.
    simpl. destruct (engine.Delete _ _ _ s) as [s' [e|[]]]; exact Hw.
  - unfold sqs.CreateQueue. unfold_handler. simpl.
    destruct (Ctx.Body c) as [o|]; [|exact Hs]. simpl.
    unfold engine.create_queue.
    destruct (engine.queues s !! _); [exact Hs|]. simpl.
    apply thirty_with_queue; [exact Hs|]. constructor.
  - simpl. by apply PurgeQueue_loop_thirty.
  - simpl. unfold engine.delete_queue.
    destruct (engine.queues s !! _); [|exact Hs]. simpl.
    unfold thirty_only. simpl. by apply map_Forall_delete.
Qed.

Lemma reachable_wf `{!GoRuntime} (s : engine.Store) : reachable s -> wf s.
Proof.
  induction 1; [apply wf_empty|by apply Action_wf|assumption].
Qed.

Lemma reachable_thirty `{!GoRuntime} (s : engine.Store) :
  reachable s -> thirty_only s.
Proof.
  induction 1; [apply map_Forall_empty|by apply Action_thirty|assumption].
Qed.

Lemma find_after_update (msgs : list engine.StoredMessage)
    (g : engine.StoredMessage -> engine.StoredMessage) (x : engine.StoredMessage) :
  (forall m, engine.id (g m) = engine.id m) ->
  NoDup (List.map engine.id msgs) ->
  x ∈ msgs ->
  List.find (fun m => engine.id m =? engine.id x) (List.map g msgs)
    = Some (g x).
Proof.
  intros Hg. induction msgs as [|m msgs IH]; intros Hnd Hx; [by inversion Hx|].
  simpl in *. apply NoDup_cons in Hnd as [Hm Hnd]. rewrite Hg.
  destruct (engine.id m =? engine.id x) eqn:E.
  - apply Z.eqb_eq in E.
    apply elem_of_cons in Hx as [->|Hx]; [reflexivity|].
    exfalso. apply Hm. rewrite E. apply list_elem_of_In, in_map.
    by apply list_elem_of_In.
  - apply elem_of_cons in Hx as [->|Hx]; [by rewrite Z.eqb_refl in E|].
    by apply IH.
Qed.

Lemma find_present (msgs : list engine.StoredMessage) (x : engine.StoredMessage) :
  NoDup (List.map engine.id msgs) ->
  x ∈ msgs ->
  List.find (fun m => engine.id m =? engine.id x) msgs = Some x.
Proof.
  intros Hnd Hx.
  pose proof (find_after_update msgs (fun m => m) x (fun _ => eq_refl) Hnd Hx)
    as H.
  by rewrite map_id in H.
Qed.

(** A returned message is leased for the visibility timeout that was
    stored with it. *)
Lemma ReceiveMessage_lease `{!GoRuntime}
    (c : Ctx.t) (o : JSONObject.t) (tenantId : Z) (s s' : engine.Store)
    (r : ReceiveMessageResponse.t) (m : Message.t) (msg_id : Z) :
  wf s ->
  Ctx.Body c = Some o ->
  sqs.ReceiveMessage c tenantId s = (s', inr (JSON_ReceiveMessageResponse r)) ->
  m ∈ ReceiveMessageResponse.Messages r ->
  Message.MessageId m = fmt_Sprintf_d msg_id ->
  exists x,
    stored_message s tenantId (final_segment (JSONObject.QueueUrl o)) msg_id
      = Some x /\
    lease_remaining s' tenantId (final_segment (JSONObject.QueueUrl o)) msg_id
      = Some (engine.visibility_s x).
Proof.
  intros Hwf Hb Hrun Hm Hid.
  apply ReceiveMessage_inv in Hrun as (o2 & messages & Hb2 & Hdq & [= ->]).
  rewrite Hb in Hb2. injection Hb2 as <-.
  apply ReceiveMessage_loop_elem in Hm as (message & Hin & Hmid & _).
  rewrite Hmid in Hid. apply fmt_Sprintf_d_inj in Hid.
  apply Dequeue_inv in Hdq as (qd & Hqd & -> & ->).
  destruct (Hwf _ _ Hqd) as [Hnd _].
  apply list_elem_of_In, in_map_iff in Hin as (x & <- & Hx).
  simpl in Hid. subst msg_id.
  pose proof Hx as Hx'.
  apply list_elem_of_In, claimed_elem in Hx' as [Hxin _].
  exists x. split.
  - unfold stored_message. rewrite Hqd. by apply find_present.
  - unfold lease_remaining, stored_message. simpl.
    rewrite lookup_insert_eq. simpl.
    rewrite find_after_update; [|by intros y; destruct (bool_decide _)|done..].
    rewrite bool_decide_eq_true_2; [simpl; f_equal; lia|].
    by apply list_elem_of_In, in_map.
Qed.

(** C6 (as the code has it).  The [VisibilityTimeout] of a
    [ReceiveMessage] request is not used: the request is served exactly
    as with any other value of the field, and in every state the server
    reaches through the wire protocol each returned message is leased
    for the 30 seconds that [SendMessage] hardcodes and stores with the
    message. *)
Theorem VisibilityTimeout_is_not_used `{!GoRuntime}
    (c : Ctx.t) (o : JSONObject.t) (tenantId : Z) (s : engine.Store) :
  Ctx.Body c = Some o ->
  reachable s ->
  (forall v,
     sqs.ReceiveMessage (set_Body (Some (set_VisibilityTimeout v o)) c)
       tenantId s
     = sqs.ReceiveMessage c tenantId s)
  /\
  (forall s' r,
     sqs.ReceiveMessage c tenantId s
       = (s', inr (JSON_ReceiveMessageResponse r)) ->
     forall m msg_id,
       m ∈ ReceiveMessageResponse.Messages r ->
       Message.MessageId m = fmt_Sprintf_d msg_id ->
       lease_remaining s' tenantId (final_segment (JSONObject.QueueUrl o))
         msg_id = Some 30).
Proof.
  intros Hb Hreach. split.
  - intros v. rewrite !ReceiveMessage_eq, Hb. reflexivity.
  - intros s' r Hrun m msg_id Hm Hid.
    destruct (ReceiveMessage_lease c o tenantId s s' r m msg_id
                (reachable_wf s Hreach) Hb Hrun Hm Hid) as (x & Hx & ->).
    f_equal.
    unfold stored_message in Hx.
    destruct (engine.queues s !! _) as [qd|] eqn:Hqd; [|discriminate].
    apply find_some in Hx as [Hx _].
    pose proof (reachable_thirty s Hreach _ _ Hqd) as Hall.
    rewrite Forall_forall in Hall. by apply Hall, list_elem_of_In.
Qed.

Lemma reachable_hello_sent : reachable hello_sent.
Proof.
  unfold hello_sent, three_queues, state_after.
  repeat apply reachable_Action. apply reachable_empty.
Qed.

(** C6 as stated fails: a [ReceiveMessage] with [VisibilityTimeout = 5]
    leases the message for 30 seconds. *)
Lemma VisibilityTimeout_counterexample :
  ~ honours_VisibilityTimeout
      (request "AmazonSQS.ReceiveMessage" 1 (ReceiveMessage_body q1_url 1 5))
      1 hello_sent.
Proof.
  intros Hclaim.
  set (c := request "AmazonSQS.ReceiveMessage" 1
              (ReceiveMessage_body q1_url 1 5)) in *.
  assert (E : sqs.ReceiveMessage c 1 hello_sent
              = (fst (sqs.ReceiveMessage c 1 hello_sent),
                 inr (JSON_ReceiveMessageResponse hello_received)))
    by (vm_compute; reflexivity).
  specialize (Hclaim _ _ _ eq_refl E _ 1 (list_elem_of_here _ _) eq_refl).
  vm_compute in Hclaim. discriminate Hclaim.
Qed.

Lemma VisibilityTimeout_is_not_used_witness :
  let o := ReceiveMessage_body q1_url 1 5 in
  let c := request "AmazonSQS.ReceiveMessage" 1 o in
  Ctx.Body c = Some o /\
  reachable hello_sent /\
  (forall v,
     sqs.ReceiveMessage (set_Body (Some (set_VisibilityTimeout v o)) c)
       1 hello_sent
     = sqs.ReceiveMessage c 1 hello_sent)
  /\
  (forall s' r,
     sqs.ReceiveMessage c 1 hello_sent
       = (s', inr (JSON_ReceiveMessageResponse r)) ->
     forall m msg_id,
       m ∈ ReceiveMessageResponse.Messages r ->
       Message.MessageId m = fmt_Sprintf_d msg_id ->
       lease_remaining s' 1 (final_segment (JSONObject.QueueUrl o)) msg_id
         = Some 30).
Proof.
  intros o c.
  assert (Hb : Ctx.Body c = Some o) by reflexivity.
  split; [exact Hb|split; [exact reachable_hello_sent|]].
  exact (VisibilityTimeout_is_not_used c o 1 hello_sent Hb reachable_hello_sent).
Defined.

(** ** Purging a queue *)










(** ** Further properties of the adapter *)

Section adapter_errors.
Context {Q : Type} {engine_ : models.Queue Q} {runtime_ : GoRuntime}.
Context {tenants_ : models.TenantManager} {verifier_ : Verifier}.

(** X1.  The middleware fails closed.  A request that does not
    authenticate as any tenant (its conversion, its [Authorization]
    header, its access key or its signature is refused) is answered
    with an error: [Action] is not run and the engine is left as it
    was. *)
Theorem authMiddleware_rejects_unauthenticated (c : Ctx.t) (q : Q) :
  (forall tenantId, ~ sqs.authenticates c tenantId) ->
  exists e, sqs.authMiddleware c q = (q, inl e).
Proof.
  intros Hno. unfold sqs.authMiddleware. unfold_handler.
  destruct (ConvertRequest c) as [e|r] eqn:Hr; [by exists e|].
  destruct (ParseAuthorizationHeader r) as [e|awsHeader] eqn:Hp; [by exists e|].
  destruct (models.GetAWSSecretKey _ _) as [e|[tenantId secretKey]] eqn:Hk;
    [by exists e|].
  destruct (ValidateAWSRequest awsHeader secretKey r) as [e|] eqn:Hv;
    [by exists e|].
  exfalso. apply (Hno tenantId). by exists r, awsHeader, secretKey.
Qed.

Lemma eqb_not_implemented (awsMethod target : string) :
  awsMethod ∉ implemented_methods -> target ∈ implemented_methods ->
  String.eqb awsMethod target = false.
Proof.
  intros Hout Hin. apply String.eqb_neq. by intros ->.
Qed.

(** X2.  [Action] serves the eight operations of its switch and nothing
    else.  For any other value of the first [X-Amz-Target] header it
    returns the error [SQS method <name> not implemented], and the
    engine is left as it was. *)
Theorem Action_method_not_implemented (c : Ctx.t) (awsMethod : string)
    (more : list string) (tenantId : Z) (q : Q) :
  Ctx.ReqHeaders c !! "X-Amz-Target" = Some (awsMethod :: more) ->
  Ctx.Locals c !! "tenantId" = Some tenantId ->
  awsMethod ∉ implemented_methods ->
  sqs.Action c q =
    (q, inl (errors_New ("SQS method " +:+ awsMethod +:+ " not implemented"))).
Proof.
  intros Hh Hl Hout. unfold sqs.Action. rewrite Hh. simpl. rewrite Hl.
  rewrite !(eqb_not_implemented awsMethod) by
    (assumption || (unfold implemented_methods; set_solver)).
  reflexivity.
Qed.

(** X3.  A body that [json.Unmarshal] rejects stops every operation but
    [ListQueues] before the engine is called: the answer is the decoding
    error and the engine is left as it was. *)
Theorem Action_rejects_malformed_body (c : Ctx.t) (awsMethod : string)
    (more : list string) (tenantId : Z) (q : Q) :
  Ctx.ReqHeaders c !! "X-Amz-Target" = Some (awsMethod :: more) ->
  Ctx.Locals c !! "tenantId" = Some tenantId ->
  Ctx.Body c = None ->
  awsMethod ∈ implemented_methods ->
  awsMethod <> "AmazonSQS.ListQueues" ->
  sqs.Action c q = (q, inl json_SyntaxError).
Proof.
  intros Hh Hl Hb Hin Hne. unfold sqs.Action. rewrite Hh. simpl. rewrite Hl.
  unfold implemented_methods in Hin.
  repeat (apply elem_of_cons in Hin as [->|Hin]); try done; simpl;
    rewrite ?SendMessage_eq, ?ReceiveMessage_eq, ?DeleteMessage_eq,
      ?DeleteQueue_eq, ?PurgeQueue_eq, ?GetQueueAttributes_eq, ?Hb;
    try reflexivity.
  - unfold sqs.CreateQueue. unfold_handler. by rewrite Hb.
  - by apply elem_of_nil in Hin.
Qed.

End adapter_errors.

(** *** Receipt handles *)

Lemma parse_digits_all_digits (s : string) (acc v : Z) :
  parse_digits acc s = Some v -> all_chars is_digit s = true.
Proof.
  revert acc. induction s as [|c s IH]; intros acc; simpl; [done|].
  unfold digit_of_ascii, is_digit, byte_value.
  destruct ((48 <=? Z.of_N (N_of_ascii c)) && (Z.of_N (N_of_ascii c) <=? 57));
    [|discriminate].
  intros Hp. simpl. by apply (IH _ Hp).
Qed.

Lemma strconv_ParseInt_decimal_numeral (s : string) (n : Z) :
  strconv_ParseInt s = Some n -> decimal_numeral s = true.
Proof.
  unfold strconv_ParseInt, decimal_numeral.
  set (split := match s with
                | String "-" r => (true, r)
                | String "+" r => (false, r)
                | _ => (false, s)
                end).
  assert (Hd : match s with
               | String "-" r => r
               | String "+" r => r
               | _ => s
               end = split.2).
  { subst split. destruct s as [|c r]; [reflexivity|].
    destruct c as [[] [] [] [] [] [] [] []]; reflexivity. }
  rewrite Hd. destruct split as [neg digits]. simpl.
  destruct digits as [|d ds]; [discriminate|].
  destruct (parse_digits 0 (String d ds)) as [v|] eqn:Hp; [|discriminate].
  intros _. by apply parse_digits_all_digits in Hp.
Qed.

Section adapter_handles.
Context {Q : Type} {engine_ : models.Queue Q} {runtime_ : GoRuntime}.

(** X4.  The [MessageId] that [SendMessage] answers is accepted by
    [DeleteMessage] as a [ReceiptHandle].  It is the decimal numeral of
    the id that [Enqueue] returned, and a [DeleteMessage] that carries
    it for the same queue calls the engine's [Delete] with that id (an
    int64, as in the Go code), answering with the error of [Delete] or,
    when it succeeds, with no body.  The message need not have been
    received. *)
Theorem SendMessage_MessageId_is_a_ReceiptHandle
    (c c' : Ctx.t) (o o' : JSONObject.t) (tenantId : Z) (q q1 q2 : Q)
    (r : SendMessageResponse.t) :
  Ctx.Body c = Some o ->
  sqs.SendMessage c tenantId q = (q1, inr (JSON_SendMessageResponse r)) ->
  Ctx.Body c' = Some o' ->
  JSONObject.ReceiptHandle o' = SendMessageResponse.MessageId r ->
  final_segment (JSONObject.QueueUrl o')
    = final_segment (JSONObject.QueueUrl o) ->
  exists messageId : Z,
    models.Enqueue tenantId (final_segment (JSONObject.QueueUrl o))
      (JSONObject.MessageBody o)
      (sqs.SendMessage_kv (JSONObject.MessageAttributes o))
      (JSONObject.DelaySeconds o) 30 q = (q1, inr messageId) /\
    (int64_min <= messageId <= int64_max ->
     sqs.DeleteMessage c' tenantId q2 =
       match models.Delete tenantId (final_segment (JSONObject.QueueUrl o))
               messageId q2 with
       | (q3, inl e) => (q3, inl e)
       | (q3, inr _) => (q3, inr NoBody)
       end).
Proof.
  intros Hb Hsend Hb' Hh Hu.
  apply SendMessage_inv in Hsend as (o1 & messageId & Hb1 & Henq & Hr).
  rewrite Hb in Hb1. injection Hb1 as <-. injection Hr as ->.
  exists messageId. split; [exact Henq|]. intros Hn.
  rewrite DeleteMessage_eq, Hb', Hh, Hu. simpl.
  by rewrite (strconv_ParseInt_fmt_Sprintf_d _ Hn).
Qed.

(** X5.  A [ReceiptHandle] that is not a decimal numeral (an optional
    sign followed by digits), such as the opaque handle of another SQS
    service, is refused by [DeleteMessage] with the error of
    [strconv.ParseInt]; the engine is left as it was. *)
Theorem DeleteMessage_rejects_other_handles
    (c : Ctx.t) (o : JSONObject.t) (tenantId : Z) (q : Q) :
  Ctx.Body c = Some o ->
  decimal_numeral (JSONObject.ReceiptHandle o) = false ->
  sqs.DeleteMessage c tenantId q =
    (q, inl (strconv_NumError (JSONObject.ReceiptHandle o))).
Proof.
  intros Hb Hd. rewrite DeleteMessage_eq, Hb.
  destruct (strconv_ParseInt (JSONObject.ReceiptHandle o)) as [n|] eqn:Hp;
    [|reflexivity].
  apply strconv_ParseInt_decimal_numeral in Hp. congruence.
Qed.

End adapter_handles.

(** *** Queue URLs *)

Lemma final_segment_no_slash (url : string) :
  has_slash (final_segment url) = false.
Proof.
  induction url as [|c rest IH]; simpl; [reflexivity|].
  destruct (has_slash rest) eqn:Hs; [exact IH|].
  destruct (Ascii.eqb c "/") eqn:Hc; [exact Hs|].
  simpl. by rewrite Hc, Hs.
Qed.

Lemma queue_of_url_queue_url (tenantId : Z) (queue : string) :
  sqs.queue_of_url (sqs.queue_url tenantId queue) = inr (final_segment queue).
Proof.
  rewrite queue_of_url_final_segment. f_equal.
  unfold sqs.queue_url.
  pose proof (last_Split_final_segment
                ("https://sqs.us-east-1.amazonaws.com/" +:+ fmt_Sprintf_d tenantId
                   +:+ "/" +:+ queue)) as H.
  change ("/" +:+ queue) with (String "/" queue) in H.
  rewrite <- append_assoc, strings_Split_app in H.
  pose proof (strings_Split_nonempty queue "/") as Hne.
  pose proof (last_Split_final_segment queue) as Hq.
  rewrite last_app in H.
  destruct (last (strings_Split queue "/")) as [x|] eqn:E.
  - change ("/" +:+ queue) with (String "/" queue). rewrite <- append_assoc.
    congruence.
  - apply last_None in E. done.
Qed.

Lemma final_segment_id (name : string) :
  has_slash name = false -> final_segment name = name.
Proof.
  intros Hn. pose proof (last_Split_final_segment name) as H.
  rewrite (strings_Split_no_slash _ Hn) in H. simpl in H. congruence.
Qed.

Section adapter_urls.
Context {Q : Type} {engine_ : models.Queue Q} {runtime_ : GoRuntime}.

(** X6.  [CreateQueue] hands the [QueueName] to the engine unchanged
    and answers
    [https://sqs.us-east-1.amazonaws.com/<tenant>/<name>]; when the name
    has no slash, the queue that every other operation cuts out of this
    URL is the one just created. *)
Theorem CreateQueue_QueueUrl_names_the_queue
    (c : Ctx.t) (o : JSONObject.t) (tenantId : Z) (q q' : Q)
    (r : CreateQueueResponse.t) :
  Ctx.Body c = Some o ->
  has_slash (JSONObject.QueueName o) = false ->
  sqs.CreateQueue c tenantId q = (q', inr (JSON_CreateQueueResponse r)) ->
  models.CreateQueue tenantId (JSONObject.QueueName o) q = (q', inr tt) /\
  CreateQueueResponse.QueueUrl r =
    "https://sqs.us-east-1.amazonaws.com/" +:+ fmt_Sprintf_d tenantId
      +:+ "/" +:+ JSONObject.QueueName o /\
  sqs.queue_of_url (CreateQueueResponse.QueueUrl r)
    = inr (JSONObject.QueueName o).
Proof.
  intros Hb Hn. rewrite CreateQueue_eq, Hb.
  destruct (models.CreateQueue _ _ q) as [q1 [e|[]]]; [discriminate|].
  intros [= <- <-]. simpl. repeat split.
  by rewrite queue_of_url_queue_url, final_segment_id.
Qed.

(** X7.  [CreateQueue] does not check the name.  A name with a slash
    is handed to the engine as it is, but the [QueueUrl] of the answer
    addresses the queue named by the text after its last slash, and no
    [QueueUrl] whatsoever addresses the queue just created. *)
Theorem CreateQueue_name_with_slash
    (c : Ctx.t) (o : JSONObject.t) (tenantId : Z) (q q' : Q)
    (r : CreateQueueResponse.t) :
  Ctx.Body c = Some o ->
  has_slash (JSONObject.QueueName o) = true ->
  sqs.CreateQueue c tenantId q = (q', inr (JSON_CreateQueueResponse r)) ->
  models.CreateQueue tenantId (JSONObject.QueueName o) q = (q', inr tt) /\
  sqs.queue_of_url (CreateQueueResponse.QueueUrl r)
    = inr (final_segment (JSONObject.QueueName o)) /\
  forall QueueUrl : string,
    sqs.queue_of_url QueueUrl <> inr (JSONObject.QueueName o).
Proof.
  intros Hb Hn. rewrite CreateQueue_eq, Hb.
  destruct (models.CreateQueue _ _ q) as [q1 [e|[]]]; [discriminate|].
  intros [= <- <-]. simpl. repeat split.
  - apply queue_of_url_queue_url.
  - intros u. rewrite queue_of_url_final_segment. intros [= E].
    pose proof (final_segment_no_slash u) as Hu. congruence.
Qed.

(** X8.  Every [QueueUrl] in the answer of [ListQueues] is
    [https://sqs.us-east-1.amazonaws.com/<tenant>/<name>] for the name
    at the same position of the engine's list, and it addresses the
    queue of that name when the name has no slash. *)
Theorem ListQueues_QueueUrls_name_the_queues
    (c : Ctx.t) (tenantId : Z) (q q' : Q) (r : ListQueuesResponse.t) :
  sqs.ListQueues c tenantId q = (q', inr (JSON_ListQueuesResponse r)) ->
  exists queues : list string,
    models.ListQueues tenantId q = (q', inr queues) /\
    Forall2
      (fun queue QueueUrl =>
         QueueUrl = "https://sqs.us-east-1.amazonaws.com/"
                      +:+ fmt_Sprintf_d tenantId +:+ "/" +:+ queue /\
         sqs.queue_of_url QueueUrl = inr (final_segment queue) /\
         (has_slash queue = false -> sqs.queue_of_url QueueUrl = inr queue))
      queues (ListQueuesResponse.QueueUrls r).
Proof.
  rewrite ListQueues_eq.
  destruct (models.ListQueues tenantId q) as [q1 [e|queues]]; [discriminate|].
  intros [= <- <-]. exists queues. split; [reflexivity|]. simpl.
  induction queues as [|queue rest IH]; simpl; constructor; [|exact IH].
  split; [reflexivity|]. split; [apply queue_of_url_queue_url|].
  intros Hn. by rewrite queue_of_url_queue_url, final_segment_id.
Qed.

(** X9.  [GetQueueAttributes] with a body that decodes never fails, not
    even for a queue that the engine does not know ([Stats] returns no
    error), and whatever [AttributeNames] asks for it answers exactly
    one attribute, [ApproximateNumberOfMessages], the decimal numeral of
    [TotalMessages]. *)
Theorem GetQueueAttributes_answers_one_attribute
    (c : Ctx.t) (o : JSONObject.t) (tenantId : Z) (q : Q) :
  Ctx.Body c = Some o ->
  exists (q' : Q) (stats : models.QueueStats.t)
         (r : GetQueueAttributesResponse.t),
    models.Stats tenantId (final_segment (JSONObject.QueueUrl o)) q
      = (q', stats) /\
    sqs.GetQueueAttributes c tenantId q
      = (q', inr (JSON_GetQueueAttributesResponse r)) /\
    dom (GetQueueAttributesResponse.Attributes r)
      = {[ "ApproximateNumberOfMessages" ]} /\
    GetQueueAttributesResponse.Attributes r !! "ApproximateNumberOfMessages"
      = Some (fmt_Sprintf_d (models.QueueStats.TotalMessages stats)).
Proof.
  intros Hb. rewrite GetQueueAttributes_eq, Hb.
  destruct (models.Stats _ _ q) as [q' stats]. simpl.
  eexists q', stats, _. split; [reflexivity|]. split; [reflexivity|].
  simpl. split; [by rewrite dom_singleton_L|apply lookup_singleton_eq].
Qed.

(** X10.  [PurgeQueue] with a body that decodes always answers
    [Success: true]: it asks [Filter] once for the ids of the queue,
    calls [Delete] for each of them in turn, and drops every error that
    [Delete] returns. *)
Theorem PurgeQueue_always_reports_success
    (c : Ctx.t) (o : JSONObject.t) (tenantId : Z) (q : Q) :
  Ctx.Body c = Some o ->
  exists (q1 : Q) (messages : list Z),
    models.Filter tenantId (final_segment (JSONObject.QueueUrl o))
      models.FilterCriteria.zero q = (q1, messages) /\
    sqs.PurgeQueue c tenantId q =
      (sqs.PurgeQueue_loop tenantId (final_segment (JSONObject.QueueUrl o))
         messages q1,
       inr (JSON_PurgeQueueResponse {| PurgeQueueResponse.Success := true |})).
Proof.
  intros Hb. rewrite PurgeQueue_eq, Hb. simpl.
  destruct (models.Filter _ _ _ q) as [q1 messages]. by exists q1, messages.
Qed.

End adapter_urls.

(** *** The tenant and the queue that a request touches *)

Section adapter_isolation.
Context {Q : Type} {runtime_ : GoRuntime}.
Context {tenants_ : models.TenantManager} {verifier_ : Verifier}.

Lemma PurgeQueue_loop_same (E1 E2 : models.Queue Q) (tenantId : Z)
    (queue : string) (messages : list Z) (q : Q) :
  same_for E1 E2 tenantId queue ->
  @sqs.PurgeQueue_loop Q E1 tenantId queue messages q
    = @sqs.PurgeQueue_loop Q E2 tenantId queue messages q.
Proof.
  intros Hs. revert q. induction messages as [|msg rest IH]; intros q;
    [reflexivity|].
  simpl. by rewrite (same_Delete _ _ _ _ Hs), IH.
Qed.

(** X11.  A request that authenticates as a tenant consults and changes
    the engine only under that tenant and only for the queue it names
    (the [QueueName] for [CreateQueue], the final segment of the
    [QueueUrl] for the other operations, the tenant's list of queues for
    [ListQueues]).  Two engines that answer alike there give the same
    answer and the same state, however they differ about other tenants
    and other queues. *)
Theorem request_touches_one_tenant_and_queue
    (E1 E2 : models.Queue Q) (c : Ctx.t) (o : JSONObject.t)
    (awsMethod : string) (more : list string) (tenantId : Z) (q : Q) :
  Ctx.ReqHeaders c !! "X-Amz-Target" = Some (awsMethod :: more) ->
  Ctx.Body c = Some o ->
  sqs.authenticates c tenantId ->
  same_for E1 E2 tenantId (addressed_queue awsMethod o) ->
  @sqs.authMiddleware Q E1 runtime_ tenants_ verifier_ c q
    = @sqs.authMiddleware Q E2 runtime_ tenants_ verifier_ c q.
Proof.
  intros Hh Hb Hauth Hs.
  rewrite !(authMiddleware_authenticated c tenantId q Hauth).
  unfold sqs.Action. simpl. rewrite Hh. simpl. rewrite lookup_insert_eq.
  unfold addressed_queue in Hs.
  repeat match goal with
         | |- (if ?b then _ else _) _ = (if ?b then _ else _) _ =>
             destruct b eqn:?
         end;
    try match goal with
        | H : String.eqb awsMethod _ = true |- _ =>
            apply String.eqb_eq in H; subst awsMethod; simpl in Hs
        end;
    rewrite ?SendMessage_eq, ?ReceiveMessage_eq, ?DeleteMessage_eq,
      ?DeleteQueue_eq, ?PurgeQueue_eq, ?GetQueueAttributes_eq, ?ListQueues_eq,
      ?CreateQueue_eq; simpl; rewrite ?Hb; try reflexivity.
  - by rewrite (same_Enqueue _ _ _ _ Hs).
  - by rewrite (same_Dequeue _ _ _ _ Hs).
  - destruct (strconv_ParseInt _); [|reflexivity].
    by rewrite (same_Delete _ _ _ _ Hs).
  - by rewrite (same_ListQueues _ _ _ _ Hs).
  - by rewrite (same_CreateQueue _ _ _ _ Hs).
  - by rewrite (same_Stats _ _ _ _ Hs).
  - simpl. rewrite (same_Filter _ _ _ _ Hs).
    destruct (models.Filter _ _ _ q) as [q1 messages].
    by rewrite (PurgeQueue_loop_same E1 E2).
  - by rewrite (same_DeleteQueue _ _ _ _ Hs).
Qed.

End adapter_isolation.

(** *** Attributes of every type *)

Lemma flatten_attribute_eq (kv : gmap string string) (k : string)
    (v : MessageAttributeValue.t) :
  sqs.flatten_attribute kv (k, v) =
  let kv := <[k +:+ "_DataType" := MessageAttributeValue.DataType v]> kv in
  if supported_DataType (MessageAttributeValue.DataType v)
  then <[k := flat_value v]> kv else kv.
Proof.
  unfold sqs.flatten_attribute, supported_DataType, flat_value. simpl.
  destruct (String.eqb (MessageAttributeValue.DataType v) "String") eqn:E1;
    simpl.
  { apply String.eqb_eq in E1. by rewrite E1. }
  destruct (String.eqb (MessageAttributeValue.DataType v) "Number") eqn:E2;
    simpl.
  { apply String.eqb_eq in E2. by rewrite E2. }
  by destruct (String.eqb (MessageAttributeValue.DataType v) "Binary").
Qed.

Lemma name_is_no_marker (k name : string) :
  ~ ends_with name "_DataType" -> k +:+ "_DataType" <> name.
Proof. intros Hname <-. apply Hname. by exists k. Qed.

(** What the flattening loop leaves under a name, whatever the types. *)
Lemma flatten_lookup_name_any (l : list (string * MessageAttributeValue.t))
    (acc : gmap string string) (name : string) :
  NoDup l.*1 ->
  ~ ends_with name "_DataType" ->
  fold_left sqs.flatten_attribute l acc !! name =
  match (list_to_map l : gmap string MessageAttributeValue.t) !! name with
  | Some v =>
      if supported_DataType (MessageAttributeValue.DataType v)
      then Some (flat_value v) else acc !! name
  | None => acc !! name
  end.
Proof.
  intros Hnd Hname. revert acc.
  induction l as [|[k v] l IH]; intros acc; [reflexivity|].
  apply NoDup_cons in Hnd as [Hk Hnd].
  cbn [fold_left]. rewrite IH by assumption.
  rewrite flatten_attribute_eq. cbv zeta. simpl.
  pose proof (name_is_no_marker k name Hname) as Hm.
  destruct (decide (k = name)) as [->|Hne].
  - rewrite (not_elem_of_list_to_map_1 _ _ Hk), lookup_insert_eq.
    destruct (supported_DataType _); [by rewrite lookup_insert_eq|].
    by rewrite lookup_insert_ne.
  - rewrite (lookup_insert_ne (list_to_map l)) by done.
    assert (Hacc : (if supported_DataType (MessageAttributeValue.DataType v)
                    then <[k:=flat_value v]>
                           (<[k +:+ "_DataType" :=
                                MessageAttributeValue.DataType v]> acc)
                    else <[k +:+ "_DataType" :=
                             MessageAttributeValue.DataType v]> acc) !! name
                   = acc !! name).
    { destruct (supported_DataType _);
        rewrite ?(lookup_insert_ne _ k) by done; by rewrite lookup_insert_ne. }
    rewrite Hacc. reflexivity.
Qed.

(** What the flattening loop leaves under the type marker of a name,
    when no attribute is named like a marker. *)
Lemma flatten_lookup_marker_any (l : list (string * MessageAttributeValue.t))
    (acc : gmap string string) (name : string) :
  NoDup l.*1 ->
  Forall (fun e => ~ ends_with e.1 "_DataType") l ->
  fold_left sqs.flatten_attribute l acc !! (name +:+ "_DataType") =
  match (list_to_map l : gmap string MessageAttributeValue.t) !! name with
  | Some v => Some (MessageAttributeValue.DataType v)
  | None => acc !! (name +:+ "_DataType")
  end.
Proof.
  intros Hnd Hall. revert acc.
  induction l as [|[k v] l IH]; intros acc; [reflexivity|].
  apply NoDup_cons in Hnd as [Hk Hnd]. apply Forall_cons in Hall as [Hc Hall].
  cbn [fold_left]. rewrite IH by assumption.
  rewrite flatten_attribute_eq. cbv zeta. simpl in *.
  assert (Hkm : k <> name +:+ "_DataType").
  { intros ->. apply Hc. by exists name. }
  destruct (decide (k = name)) as [->|Hne].
  - rewrite (not_elem_of_list_to_map_1 _ _ Hk), lookup_insert_eq.
    destruct (supported_DataType _);
      rewrite ?(lookup_insert_ne _ name) by done; by rewrite lookup_insert_eq.
  - rewrite (lookup_insert_ne (list_to_map l)) by done.
    destruct (list_to_map l !! name); [reflexivity|].
    assert (Hm : k +:+ "_DataType" <> name +:+ "_DataType").
    { intros E. by apply append_suffix_inj in E. }
    destruct (supported_DataType _);
      rewrite ?(lookup_insert_ne _ k) by done; by rewrite lookup_insert_ne.
Qed.

Section adapter_every_type.
Context {runtime_ : GoRuntime}.

Lemma range_plain_names {A} (attrs : gmap string A) :
  map_Forall (fun name _ => ~ ends_with name "_DataType") attrs ->
  Forall (fun e => ~ ends_with e.1 "_DataType") (range attrs).
Proof.
  intros Hall. apply Forall_forall. intros [k v] Hin.
  rewrite (range_enumerates _ attrs) in Hin.
  apply elem_of_map_to_list in Hin. exact (Hall k v Hin).
Qed.

Lemma SendMessage_kv_name (attrs : gmap string MessageAttributeValue.t)
    (name : string) :
  ~ ends_with name "_DataType" ->
  sqs.SendMessage_kv attrs !! name =
  match attrs !! name with
  | Some v =>
      if supported_DataType (MessageAttributeValue.DataType v)
      then Some (flat_value v) else None
  | None => None
  end.
Proof.
  intros Hname. unfold sqs.SendMessage_kv.
  rewrite flatten_lookup_name_any, list_to_map_range, lookup_empty;
    [reflexivity|apply range_NoDup|done].
Qed.

Lemma SendMessage_kv_marker (attrs : gmap string MessageAttributeValue.t)
    (name : string) :
  map_Forall (fun name _ => ~ ends_with name "_DataType") attrs ->
  sqs.SendMessage_kv attrs !! (name +:+ "_DataType")
  = MessageAttributeValue.DataType <$> attrs !! name.
Proof.
  intros Hall. unfold sqs.SendMessage_kv.
  rewrite flatten_lookup_marker_any, list_to_map_range, lookup_empty;
    [by destruct (attrs !! name)|apply range_NoDup|by apply range_plain_names].
Qed.

(** X12.  When no attribute is named like a type marker, what the
    receiver gets back of the attributes that [SendMessage] stored is
    decided by the [DataType] alone: an attribute of type String, Number
    or Binary comes back, and an attribute of any other type, a custom
    type such as [String.shade] included, is dropped. *)
Theorem attributes_of_other_types_are_dropped
    (attrs : gmap string MessageAttributeValue.t) (name : string) :
  map_Forall (fun name _ => ~ ends_with name "_DataType") attrs ->
  sqs.ReceiveMessage_attributes (sqs.SendMessage_kv attrs) !! name =
  match attrs !! name with
  | Some v =>
      if supported_DataType (MessageAttributeValue.DataType v)
      then Some (received_attribute v) else None
  | None => None
  end.
Proof.
  intros Hall. unfold sqs.ReceiveMessage_attributes.
  rewrite unflatten_lookup by apply range_NoDup.
  rewrite list_to_map_range, lookup_empty.
  destruct (strings_HasSuffix name "_DataType") eqn:Hs.
  - apply strings_HasSuffix_spec in Hs.
    destruct (attrs !! name) as [v|] eqn:Hv; [|reflexivity].
    by destruct (Hall name v Hv).
  - assert (Hname : ~ ends_with name "_DataType").
    { intros Hends%strings_HasSuffix_spec. congruence. }
    rewrite SendMessage_kv_name, SendMessage_kv_marker by done.
    destruct (attrs !! name) as [v|] eqn:Hv; simpl; [|reflexivity].
    destruct (supported_DataType (MessageAttributeValue.DataType v)) eqn:Ht;
      [|reflexivity].
    f_equal. apply typed_attribute_received.
    unfold supported_DataType in Ht.
    apply orb_prop in Ht as [Ht|Ht]; [apply orb_prop in Ht as [Ht|Ht]|];
      apply String.eqb_eq in Ht; auto.
Qed.

End adapter_every_type.

Lemma marker_split (k : string) :
  strings_HasSuffix k "_DataType" = true ->
  exists name, k = name +:+ "_DataType".
Proof. intros H. by apply strings_HasSuffix_spec in H. Qed.

(** X13.  When no attribute name ends in [_DataType], the map that
    [SendMessage] hands to [Enqueue] does not depend on the order in
    which the Go runtime visits [MessageAttributes]. *)
Theorem SendMessage_kv_in_any_order (R1 R2 : GoRuntime)
    (attrs : gmap string MessageAttributeValue.t) :
  map_Forall (fun name _ => ~ ends_with name "_DataType") attrs ->
  @sqs.SendMessage_kv R1 attrs = @sqs.SendMessage_kv R2 attrs.
Proof.
  intros Hall. apply map_eq. intros k.
  destruct (strings_HasSuffix k "_DataType") eqn:Hs.
  - apply marker_split in Hs as [name ->].
    by rewrite !SendMessage_kv_marker.
  - assert (Hname : ~ ends_with k "_DataType").
    { intros Hends%strings_HasSuffix_spec. congruence. }
    by rewrite !SendMessage_kv_name.
Qed.

Lemma append_not_self (name : string) : name <> name +:+ "_DataType".
Proof.
  intros E. apply (f_equal String.length) in E.
  rewrite length_append in E. simpl in E. lia.
Qed.

Lemma typed_attribute_DataType (DataType v : string) :
  MessageAttribute.DataType (sqs.typed_attribute DataType v) = DataType.
Proof.
  unfold sqs.typed_attribute.
  destruct (String.eqb DataType "String"); [reflexivity|].
  destruct (String.eqb DataType "Number"); [reflexivity|].
  destruct (String.eqb DataType "Binary"); [|reflexivity].
  by destruct (base64_DecodeString v).
Qed.

(** X14.  When a message carries an attribute [name] of type String and
    an attribute [name_DataType], what the receiver gets depends on the
    order in which the Go runtime visits the map: the attribute [name]
    comes back either as it was sent or typed by the value of the other
    attribute, and both outcomes occur. *)
Theorem attribute_named_like_a_marker (name v w : string) :
  ~ ends_with name "_DataType" ->
  w <> "String" ->
  let attrs : gmap string MessageAttributeValue.t :=
    {[ name := String_attribute v;
       name +:+ "_DataType" := String_attribute w ]} in
  let received (R : GoRuntime) : option MessageAttribute.t :=
    @sqs.ReceiveMessage_attributes R (@sqs.SendMessage_kv R attrs) !! name in
  (forall R : GoRuntime,
     received R = Some (MessageAttribute.mk v [] [] [] "String") \/
     received R = Some (sqs.typed_attribute w v)) /\
  received listing_runtime <> received reversed_runtime.
Proof.
  intros Hname Hw attrs received.
  pose proof (append_not_self name) as Hne.
  pose proof (append_not_self (name +:+ "_DataType")) as Hne2.
  assert (Hne3 : name <> (name +:+ "_DataType") +:+ "_DataType").
  { intros E. apply (f_equal String.length) in E.
    rewrite !length_append in E. simpl in E. lia. }
  assert (Hs : strings_HasSuffix name "_DataType" = false).
  { destruct (strings_HasSuffix name "_DataType") eqn:E; [|reflexivity].
    by apply strings_HasSuffix_spec in E. }
  set (A := (name, String_attribute v)).
  set (B := (name +:+ "_DataType", String_attribute w)).
  assert (HAB : fold_left sqs.flatten_attribute [A; B] ∅
                  !! (name +:+ "_DataType") = Some w
                /\ fold_left sqs.flatten_attribute [A; B] ∅ !! name = Some v).
  { simpl. rewrite lookup_insert_eq. split; [reflexivity|].
    rewrite !lookup_insert_ne by done. by rewrite lookup_insert_eq. }
  assert (HBA : fold_left sqs.flatten_attribute [B; A] ∅
                  !! (name +:+ "_DataType") = Some "String"
                /\ fold_left sqs.flatten_attribute [B; A] ∅ !! name = Some v).
  { simpl. rewrite lookup_insert_eq. split; [|reflexivity].
    rewrite lookup_insert_ne by done. by rewrite lookup_insert_eq. }
  assert (Hr : forall R : GoRuntime,
             @range R _ attrs = [A; B] \/ @range R _ attrs = [B; A]).
  { intros R. apply Permutation_length_2_inv. symmetry.
    rewrite (range_enumerates _ attrs). subst attrs.
    rewrite map_to_list_insert by by rewrite lookup_singleton_ne.
    by rewrite map_to_list_singleton. }
  assert (Hrec : forall R : GoRuntime,
             received R =
             sqs.typed_attribute
               (default "" (@sqs.SendMessage_kv R attrs !! (name +:+ "_DataType")))
               <$> @sqs.SendMessage_kv R attrs !! name).
  { intros R. subst received. cbv beta.
    unfold sqs.ReceiveMessage_attributes.
    rewrite unflatten_lookup by apply range_NoDup.
    rewrite Hs, list_to_map_range, lookup_empty.
    by destruct (sqs.SendMessage_kv attrs !! name). }
  assert (Hcase : forall R : GoRuntime,
             (@range R _ attrs = [B; A] /\
              received R = Some (MessageAttribute.mk v [] [] [] "String")) \/
             (@range R _ attrs = [A; B] /\
              received R = Some (sqs.typed_attribute w v))).
  { intros R. rewrite Hrec. unfold sqs.SendMessage_kv.
    destruct (Hr R) as [E|E]; rewrite E; [right|left]; (split; [reflexivity|]).
    - destruct HAB as [-> ->]. reflexivity.
    - destruct HBA as [-> ->]. reflexivity. }
  split.
  - intros R. destruct (Hcase R) as [[_ E]|[_ E]]; auto.
  - assert (Hd : Some (MessageAttribute.mk v [] [] [] "String")
                 <> Some (sqs.typed_attribute w v)).
    { intros [= E]. apply (f_equal MessageAttribute.DataType) in E.
      rewrite typed_attribute_DataType in E. simpl in E. congruence. }
    destruct (Hcase listing_runtime) as [[El E1]|[El E1]];
      destruct (Hcase reversed_runtime) as [[Er E2]|[Er E2]];
      rewrite E1, E2; try congruence; exfalso.
    + simpl in El, Er. rewrite El in Er. simpl in Er. by injection Er.
    + simpl in El, Er. rewrite El in Er. simpl in Er. by injection Er.
Qed.

(** *** The fields of a request that an operation reads *)

Section adapter_fields.
Context {Q : Type} {engine_ : models.Queue Q} {runtime_ : GoRuntime}.

(** X15.  [SendMessage] reads four fields of its body: the final segment
    of [QueueUrl], [MessageBody], [DelaySeconds] and
    [MessageAttributes].  Two requests that agree on them do the same
    and get the same answer; [MessageDeduplicationId] and
    [MessageGroupId] have no effect. *)
Theorem SendMessage_reads_four_fields
    (c1 c2 : Ctx.t) (o1 o2 : JSONObject.t) (tenantId : Z) (q : Q) :
  Ctx.Body c1 = Some o1 ->
  Ctx.Body c2 = Some o2 ->
  final_segment (JSONObject.QueueUrl o1)
    = final_segment (JSONObject.QueueUrl o2) ->
  JSONObject.MessageBody o1 = JSONObject.MessageBody o2 ->
  JSONObject.DelaySeconds o1 = JSONObject.DelaySeconds o2 ->
  JSONObject.MessageAttributes o1 = JSONObject.MessageAttributes o2 ->
  sqs.SendMessage c1 tenantId q = sqs.SendMessage c2 tenantId q.
Proof.
  intros Hb1 Hb2 Hu Hm Hd Ha.
  by rewrite !SendMessage_eq, Hb1, Hb2, Hu, Hm, Hd, Ha.
Qed.

(** X16.  [ReceiveMessage] reads two fields of its body: the final
    segment of [QueueUrl] and [MaxNumberOfMessages], where 0 (the field
    absent) counts as 1.  [WaitTimeSeconds], [VisibilityTimeout],
    [AttributeNames], [MessageAttributeNames] and
    [ReceiveRequestAttemptId] have no effect. *)
Theorem ReceiveMessage_reads_two_fields
    (c1 c2 : Ctx.t) (o1 o2 : JSONObject.t) (tenantId : Z) (q : Q) :
  Ctx.Body c1 = Some o1 ->
  Ctx.Body c2 = Some o2 ->
  final_segment (JSONObject.QueueUrl o1)
    = final_segment (JSONObject.QueueUrl o2) ->
  JSONObject.MaxNumberOfMessages o1 = JSONObject.MaxNumberOfMessages o2 \/
  (0 <= JSONObject.MaxNumberOfMessages o1 <= 1 /\
   0 <= JSONObject.MaxNumberOfMessages o2 <= 1) ->
  sqs.ReceiveMessage c1 tenantId q = sqs.ReceiveMessage c2 tenantId q.
Proof.
  intros Hb1 Hb2 Hu Hn. rewrite !ReceiveMessage_eq, Hb1, Hb2, Hu.
  assert (E : (if JSONObject.MaxNumberOfMessages o1 =? 0 then 1
               else JSONObject.MaxNumberOfMessages o1)
              = (if JSONObject.MaxNumberOfMessages o2 =? 0 then 1
                 else JSONObject.MaxNumberOfMessages o2)).
  { destruct Hn as [->|[H1 H2]]; [reflexivity|].
    destruct (Z.eqb_spec (JSONObject.MaxNumberOfMessages o1) 0);
      destruct (Z.eqb_spec (JSONObject.MaxNumberOfMessages o2) 0); lia. }
  by rewrite E.
Qed.

(** X17.  [CreateQueue] reads the [QueueName] of its body and nothing
    else: [Attributes] and [Tags] have no effect. *)
Theorem CreateQueue_reads_the_name_only
    (c1 c2 : Ctx.t) (o1 o2 : JSONObject.t) (tenantId : Z) (q : Q) :
  Ctx.Body c1 = Some o1 ->
  Ctx.Body c2 = Some o2 ->
  JSONObject.QueueName o1 = JSONObject.QueueName o2 ->
  sqs.CreateQueue c1 tenantId q = sqs.CreateQueue c2 tenantId q.
Proof.
  intros Hb1 Hb2 Hn. by rewrite !CreateQueue_eq, Hb1, Hb2, Hn.
Qed.

End adapter_fields.

(** ** The dashboard *)

Lemma wrap64_in_range (z : Z) : int64_min <= z <= int64_max -> wrap64 z = z.
Proof.
  unfold wrap64, int64_min, int64_max. intros Hz.
  rewrite Z.mod_small by lia. lia.
Qed.

Lemma wrap64_add (a b : Z) : wrap64 (wrap64 a + b) = wrap64 (a + b).
Proof.
  unfold wrap64. set (h := 2 ^ 63). set (m := 2 ^ 64). f_equal.
  replace ((a + h) mod m - h + b + h) with ((a + h) mod m + b) by ring.
  rewrite Zplus_mod_idemp_l. f_equal. ring.
Qed.

Lemma total_of_Counts_from (Counts : list (models.MessageStatus * Z)) (a : Z) :
  fold_left (fun totalMessages entry => int_add totalMessages entry.2)
    Counts (wrap64 a)
  = wrap64 (a + sum_of_Counts Counts).
Proof.
  revert a. induction Counts as [|[st v] rest IH]; intros a.
  - simpl. by rewrite Z.add_0_r.
  - cbn [fold_left]. unfold int_add at 2. simpl. rewrite wrap64_add, IH.
    unfold sum_of_Counts. rewrite fmap_cons. simpl. f_equal. lia.
Qed.

Lemma total_of_Counts_sum (Counts : list (models.MessageStatus * Z)) :
  dashboard.total_of_Counts Counts = wrap64 (sum_of_Counts Counts).
Proof.
  unfold dashboard.total_of_Counts.
  change 0 with (wrap64 0) at 1. by rewrite total_of_Counts_from.
Qed.

Lemma Split_of_Contains (field : string) :
  strings_Contains field "=" = true ->
  exists token0 token1 more,
    strings_Split field "=" = token0 :: token1 :: more.
Proof.
  induction field as [|c s IH]; [discriminate|].
  cbn [strings_Contains strings_Split].
  pose proof (strings_Split_nonempty s "=") as Hne.
  destruct (Ascii.eqb c "=") eqn:Hc.
  - intros _. destruct (strings_Split s "=") as [|t ts]; [done|].
    by eexists _, _, _.
  -     cbn [strings_HasPrefix]. rewrite Hc. simpl. intros Hs. destruct (IH Hs) as (t0 & t1 & more & ->).
    by eexists _, _, _.
Qed.

Lemma filter_field_ok (filterCriteria : models.FilterCriteria.t)
    (field : string) :
  exists fc,
    dashboard.filter_field filterCriteria field = inr fc /\
    models.FilterCriteria.MessageID fc
      = default (models.FilterCriteria.MessageID filterCriteria)
          (strconv_ParseInt field).
Proof.
  unfold dashboard.filter_field.
  destruct (strings_Contains field "=") eqn:Hc.
  - destruct (Split_of_Contains _ Hc) as (t0 & t1 & more & ->). simpl.
    eexists. split; [reflexivity|]. simpl.
    by destruct (strconv_ParseInt field).
  - eexists. split; [reflexivity|]. by destruct (strconv_ParseInt field).
Qed.

Lemma filter_fields_ok (filterFields : list string)
    (filterCriteria : models.FilterCriteria.t) :
  exists fc,
    dashboard.filter_fields filterCriteria filterFields = inr fc /\
    models.FilterCriteria.MessageID fc
      = default (models.FilterCriteria.MessageID filterCriteria)
          (last (omap strconv_ParseInt filterFields)).
Proof.
  revert filterCriteria.
  induction filterFields as [|field rest IH]; intros filterCriteria.
  - by exists filterCriteria.
  - cbn [dashboard.filter_fields].
    destruct (filter_field_ok filterCriteria field) as (fc1 & -> & H1).
    destruct (IH fc1) as (fc & -> & H). exists fc. split; [reflexivity|].
    rewrite H, H1.
    change (omap strconv_ParseInt (field :: rest))
      with (match strconv_ParseInt field with
            | Some y => y :: omap strconv_ParseInt rest
            | None => omap strconv_ParseInt rest
            end).
    generalize (omap strconv_ParseInt rest). intros l0.
    destruct (strconv_ParseInt field) as [n|]; simpl; [|reflexivity].
    destruct l0 as [|x l]; [reflexivity|].
    rewrite last_cons_cons.
    destruct (last (x :: l)) eqn:E; [reflexivity|]. by apply last_None in E.
Qed.

Section dashboard_pages.
Context {Q : Type} {engine_ : models.Queue Q} {tenants_ : models.TenantManager}.

Lemma Queues_loop_details (tenantId : Z) (queues : list string) (q : Q) :
  dashboard.QueueDetails.Name <$> (dashboard.Queues_loop tenantId queues q).2
    = queues /\
  Forall (fun d => dashboard.QueueDetails.Count d =
                   wrap64 (sum_of_Counts
                             (models.QueueStats.Counts
                                (dashboard.QueueDetails.Stats d))))
    (dashboard.Queues_loop tenantId queues q).2.
Proof.
  revert q. induction queues as [|queue rest IH]; intros q; [by split|].
  simpl. destruct (models.Stats tenantId queue q) as [q1 queueStats].
  specialize (IH q1).
  destruct (dashboard.Queues_loop tenantId rest q1) as [q2 details].
  simpl in *. destruct IH as [IHn IH]. split; [by f_equal|].
  constructor; [|exact IH]. simpl. apply total_of_Counts_sum.
Qed.

(** X19.  The page [Queues] is always rendered.  An error of
    [ListQueues] is bound to [Err] in the view, not returned; without
    one, the view has one entry for each name that [ListQueues]
    returned, in the same order. *)
Theorem Queues_always_renders (c : Page.t) (q : Q) :
  exists (q' : Q) (queueDetails : list dashboard.QueueDetails.t)
         (err : option error),
    dashboard.Queues c q = (q', inr (dashboard.Render_queues queueDetails err)) /\
    match (models.ListQueues models.GetTenant q).2 with
    | inr queues =>
        err = None /\ dashboard.QueueDetails.Name <$> queueDetails = queues
    | inl e => err = Some e
    end.
Proof.
  unfold dashboard.Queues.
  destruct (models.ListQueues models.GetTenant q) as [q1 [e|queues]]; simpl.
  - by eexists _, _, _.
  - pose proof (Queues_loop_details models.GetTenant queues q1) as [Hn _].
    destruct (dashboard.Queues_loop models.GetTenant queues q1) as [q2 ds].
    by eexists _, _, _.
Qed.

(** X20.  The [Count] of every entry of the page [Queues] is the sum of
    the [Counts] of its [Stats] as 64-bit addition computes it: the sum
    itself whenever that is an int64. *)
Theorem Queues_Count_adds_the_Counts (c : Page.t) (q q' : Q)
    (queueDetails : list dashboard.QueueDetails.t) (err : option error) :
  dashboard.Queues c q = (q', inr (dashboard.Render_queues queueDetails err)) ->
  Forall
    (fun d =>
       let total :=
         sum_of_Counts
           (models.QueueStats.Counts (dashboard.QueueDetails.Stats d)) in
       dashboard.QueueDetails.Count d = wrap64 total /\
       (int64_min <= total <= int64_max ->
        dashboard.QueueDetails.Count d = total))
    queueDetails.
Proof.
  unfold dashboard.Queues.
  destruct (models.ListQueues models.GetTenant q) as [q1 listed].
  set (queues := match listed with
                 | inl e => ([], Some e)
                 | inr queues => (queues, None)
                 end).
  destruct queues as [queues err'].
  pose proof (Queues_loop_details models.GetTenant queues q1) as [_ Hc].
  destruct (dashboard.Queues_loop models.GetTenant queues q1) as [q2 ds].
  intros [= <- <- <-]. simpl in Hc.
  eapply Forall_impl; [exact Hc|]. intros d Hd. cbv zeta.
  split; [exact Hd|]. intros Hr. rewrite Hd. by apply wrap64_in_range.
Qed.

(** X21.  The page [Message] for the decimal numeral of an id shows the
    message that [Peek] finds for that id in the queue of the route,
    under the tenant of [GetTenant]; when [Peek] finds none, the error is
    [Message not found]. *)
Theorem Message_page_of_a_numeral (c : Page.t) (n : Z) (q : Q) :
  dashboard.c_Params c "message" = fmt_Sprintf_d n ->
  int64_min <= n <= int64_max ->
  dashboard.Message c q =
    match models.Peek models.GetTenant (dashboard.c_Params c "queue") n q with
    | (q', Some m) =>
        (q', inr (dashboard.Render_message (dashboard.c_Params c "queue") m))
    | (q', None) => (q', inl (errors_New "Message not found"))
    end.
Proof.
  intros Hm Hn. unfold dashboard.Message. unfold_handler.
  rewrite Hm, (strconv_ParseInt_fmt_Sprintf_d n Hn).
  destruct (models.Peek _ _ n q) as [q' [m|]]; reflexivity.
Qed.

(** X22.  The page [Message] refuses an id that is not a decimal
    numeral with the error of [strconv.ParseInt], before the engine is
    called. *)
Theorem Message_page_rejects_other_ids (c : Page.t) (q : Q) :
  decimal_numeral (dashboard.c_Params c "message") = false ->
  dashboard.Message c q =
    (q, inl (strconv_NumError (dashboard.c_Params c "message"))).
Proof.
  intros Hd. unfold dashboard.Message. unfold_handler.
  destruct (strconv_ParseInt (dashboard.c_Params c "message")) as [n|] eqn:Hp;
    [|reflexivity].
  apply strconv_ParseInt_decimal_numeral in Hp. congruence.
Qed.

(** X23.  The page [Queue] is rendered whatever the filter is: a field
    that contains [=] splits into two tokens at least, so the index
    [tokens[1]] is always in range.  The [MessageID] that [Filter] is
    called with is the last field of the filter that is an int64 in
    decimal, and 0 when there is none. *)
Theorem Queue_page_always_renders (c : Page.t) (q : Q) :
  exists (filterCriteria : models.FilterCriteria.t),
    dashboard.filter_fields
      {| models.FilterCriteria.MessageID := 0; models.FilterCriteria.KV := ∅ |}
      (strings_Fields (dashboard.c_Query c "filter")) = inr filterCriteria /\
    models.FilterCriteria.MessageID filterCriteria =
      default 0
        (last (omap strconv_ParseInt
                 (strings_Fields (dashboard.c_Query c "filter")))) /\
    dashboard.Queue c q =
      let queueName := dashboard.c_Params c "queue" in
      let '(q1, queueStats) := models.Stats models.GetTenant queueName q in
      let '(q2, filteredMessageIDs) :=
        models.Filter models.GetTenant queueName filterCriteria q1 in
      let '(q3, messages) :=
        dashboard.Queue_loop models.GetTenant queueName filteredMessageIDs q2 in
      (q3, inr (dashboard.Render_queue queueName queueStats messages
                  (dashboard.c_Query c "filter"))).
Proof.
  destruct (filter_fields_ok (strings_Fields (dashboard.c_Query c "filter"))
              {| models.FilterCriteria.MessageID := 0;
                 models.FilterCriteria.KV := ∅ |}) as (fc & Hf & Hid).
  exists fc. split; [exact Hf|]. split; [exact Hid|].
  unfold dashboard.Queue. unfold_handler. cbv zeta.
  destruct (models.Stats _ _ q) as [q1 queueStats]. rewrite Hf.
  destruct (models.Filter _ _ fc q1) as [q2 ids].
  destruct (dashboard.Queue_loop _ _ ids q2) as [q3 messages]. reflexivity.
Qed.

End dashboard_pages.

(** *** One tenant behind every page *)

Section dashboard_tenant.
Context {Q : Type} {tenants_ : models.TenantManager}.

Lemma Queues_loop_same (E1 E2 : models.Queue Q) (tenantId : Z)
    (queues : list string) (q : Q) :
  (forall queue, same_for E1 E2 tenantId queue) ->
  @dashboard.Queues_loop Q E1 tenantId queues q
    = @dashboard.Queues_loop Q E2 tenantId queues q.
Proof.
  intros Hs. revert q. induction queues as [|queue rest IH]; intros q;
    [reflexivity|].
  simpl. rewrite (same_Stats _ _ _ _ (Hs queue)).
  destruct (models.Stats tenantId queue q) as [q1 queueStats].
  by rewrite IH.
Qed.

Lemma Queue_loop_same (E1 E2 : models.Queue Q) (tenantId : Z)
    (queueName : string) (ids : list Z) (q : Q) :
  same_for E1 E2 tenantId queueName ->
  @dashboard.Queue_loop Q E1 tenantId queueName ids q
    = @dashboard.Queue_loop Q E2 tenantId queueName ids q.
Proof.
  intros Hs. revert q. induction ids as [|messageId rest IH]; intros q;
    [reflexivity|].
  simpl. rewrite (same_Peek _ _ _ _ Hs).
  destruct (models.Peek tenantId queueName messageId q) as [q1 message].
  by rewrite IH.
Qed.

(** X24.  Every page of the dashboard is served under the one tenant of
    [GetTenant]: two engines that answer alike for that tenant give the
    same views and the same state. *)
Theorem dashboard_serves_one_tenant (E1 E2 : models.Queue Q) (c : Page.t)
    (q : Q) :
  (forall queue, same_for E1 E2 models.GetTenant queue) ->
  @dashboard.Queues Q E1 tenants_ c q = @dashboard.Queues Q E2 tenants_ c q /\
  @dashboard.Queue Q E1 tenants_ c q = @dashboard.Queue Q E2 tenants_ c q /\
  @dashboard.Message Q E1 tenants_ c q
    = @dashboard.Message Q E2 tenants_ c q /\
  @dashboard.NewQueue Q E1 tenants_ c q
    = @dashboard.NewQueue Q E2 tenants_ c q /\
  @dashboard.DeleteQueue Q E1 tenants_ c q
    = @dashboard.DeleteQueue Q E2 tenants_ c q.
Proof.
  intros Hs. repeat apply conj.
  - unfold dashboard.Queues.
    rewrite (same_ListQueues _ _ _ _ (Hs "")).
    destruct (models.ListQueues models.GetTenant q) as [q1 listed].
    destruct listed as [e|queues]; by rewrite (Queues_loop_same E1 E2).
  - unfold dashboard.Queue. unfold_handler.
    rewrite (same_Stats _ _ _ _ (Hs _)).
    destruct (models.Stats _ _ q) as [q1 queueStats].
    destruct (dashboard.filter_fields _ _) as [e|fc]; [reflexivity|].
    rewrite (same_Filter _ _ _ _ (Hs _)).
    destruct (models.Filter _ _ fc q1) as [q2 ids].
    by rewrite (Queue_loop_same E1 E2 _ _ _ _ (Hs _)).
  - unfold dashboard.Message. unfold_handler.
    destruct (strconv_ParseInt _); [|reflexivity].
    by rewrite (same_Peek _ _ _ _ (Hs _)).
  - unfold dashboard.NewQueue. unfold_handler.
    by rewrite (same_CreateQueue _ _ _ _ (Hs _)).
  - unfold dashboard.DeleteQueue. unfold_handler.
    by rewrite (same_DeleteQueue _ _ _ _ (Hs _)).
Qed.

End dashboard_tenant.

(** *** Filters of one pair *)

Lemma Decode_field_char (c : ascii) (s : string) :
  is_field_char c = true ->
  utf8_DecodeRuneInString (String c s) = (byte_value c, 1%nat) /\
  unicode_IsSpace (byte_value c) = false.
Proof.
  unfold is_field_char. intros [Hlt Hsp]%andb_true_iff.
  apply negb_true_iff in Hsp. split; [|exact Hsp].
  unfold utf8_DecodeRuneInString. by rewrite Hlt.
Qed.

Lemma spans_of_field (s : string) (i len st : nat) :
  all_chars is_field_char s = true ->
  FieldsFunc_spans unicode_IsSpace len (Some st) (range_string 0 i s)
  = [(st, len)].
Proof.
  revert i. induction s as [|c s IH]; intros i; [reflexivity|].
  intros [Hc Hs]%andb_true_iff.
  destruct (Decode_field_char c s Hc) as [Hd Hsp].
  cbn [range_string]. rewrite Hd. cbn [FieldsFunc_spans]. rewrite Hsp.
  by apply IH.
Qed.

Lemma strings_Fields_of_field (s : string) :
  s <> "" -> all_chars is_field_char s = true -> strings_Fields s = [s].
Proof.
  destruct s as [|c s]; [done|]. intros _ Hall.
  pose proof Hall as [Hc Hs]%andb_true_iff.
  destruct (Decode_field_char c s Hc) as [Hd Hsp].
  unfold strings_Fields, strings_FieldsFunc.
  cbn [range_string]. rewrite Hd. cbn [FieldsFunc_spans]. rewrite Hsp.
  change (1 - 1)%nat with 0%nat. rewrite (spans_of_field s _ _ _ Hs).
  cbn [List.map fst snd]. rewrite Nat.sub_0_r. by rewrite substring_all.
Qed.

Lemma strings_TrimLeftFunc_of_field (s : string) :
  all_chars is_field_char s = true ->
  strings_TrimLeftFunc s unicode_IsSpace = s.
Proof.
  destruct s as [|c s]; [reflexivity|]. intros [Hc Hs]%andb_true_iff.
  destruct (Decode_field_char c s Hc) as [Hd Hsp].
  unfold strings_TrimLeftFunc. cbn [range_string]. rewrite Hd.
  cbn [List.find snd]. rewrite Hsp. cbn [negb].
  rewrite Nat.sub_0_r. apply substring_all.
Qed.

Lemma last_field_char (s : string) (c : ascii) :
  all_chars is_field_char (String c s) = true ->
  exists d, String.get (String.length s) (String c s) = Some d /\
            is_field_char d = true.
Proof.
  revert c. induction s as [|c' s IH]; intros c [Hc Hs]%andb_true_iff.
  - by exists c.
  - destruct (IH c' Hs) as (d & Hd & Hf). by exists d.
Qed.

Lemma strings_TrimRightFunc_of_field (s : string) :
  all_chars is_field_char s = true ->
  strings_TrimRightFunc s unicode_IsSpace = s.
Proof.
  destruct s as [|c s]; [reflexivity|]. intros Hall.
  destruct (last_field_char s c Hall) as (d & Hd & Hf).
  apply andb_true_iff in Hf as [Hlt Hsp]. apply negb_true_iff in Hsp.
  assert (Hat : byte_at (String c s) (Z.of_nat (String.length s))
                = byte_value d).
  { unfold byte_at. by rewrite Nat2Z.id, Hd. }
  assert (Hlast : utf8_DecodeLastRuneInString (String c s)
                  = (byte_value d, 1%nat)).
  { unfold utf8_DecodeLastRuneInString. cbn [String.length].
    rewrite Nat2Z.inj_succ.
    destruct (Z.eqb_spec (Z.succ (Z.of_nat (String.length s))) 0); [lia|].
    replace (Z.succ (Z.of_nat (String.length s)) - 1)
      with (Z.of_nat (String.length s)) by lia.
    by rewrite Hat, Hlt. }
  unfold strings_TrimRightFunc.
  cbn [String.length lastIndexFunc].
  change (substring 0 (S (String.length s)) (String c s))
    with (substring 0 (String.length (String c s)) (String c s)).
  rewrite substring_all, Hlast, Hsp. cbn [negb].
  replace (Z.of_nat (S (String.length s)) - Z.of_nat 1)
    with (Z.of_nat (String.length s)) by lia.
  rewrite Hat.
  assert (Hge : (RuneSelf <=? byte_value d) = false) by lia.
  rewrite Hge, andb_false_r.
  replace (Z.to_nat (Z.of_nat (String.length s) + 1))
    with (String.length (String c s)) by (simpl; lia).
  apply substring_all.
Qed.

Lemma strings_TrimSpace_of_field (s : string) :
  all_chars is_field_char s = true -> strings_TrimSpace s = s.
Proof.
  intros Hall. unfold strings_TrimSpace.
  rewrite strings_TrimLeftFunc_of_field by done.
  by apply strings_TrimRightFunc_of_field.
Qed.

Lemma word_is_field (s : string) :
  all_chars is_word_char s = true ->
  all_chars is_field_char s = true /\ strings_Split s "=" = [s].
Proof.
  induction s as [|c s IH]; [done|].
  cbn [all_chars strings_Split]. unfold is_word_char at 1.
  intros [[Hf Hne]%andb_true_iff Hs]%andb_true_iff.
  apply negb_true_iff in Hne. destruct (IH Hs) as [IHf IHs].
  rewrite Hf, IHf, Hne, IHs. done.
Qed.

Lemma strings_Split_pair (k v : string) :
  all_chars is_word_char k = true ->
  strings_Split (k +:+ String "=" v) "=" = k :: strings_Split v "=".
Proof.
  induction k as [|c k IH]; [reflexivity|].
  cbn [all_chars]. unfold is_word_char at 1.
  intros [[Hf Hne]%andb_true_iff Hs]%andb_true_iff.
  apply negb_true_iff in Hne.
  change (String c k +:+ String "=" v) with (String c (k +:+ String "=" v)).
  cbn [strings_Split]. by rewrite Hne, (IH Hs).
Qed.

Lemma strings_Contains_pair (k v : string) :
  strings_Contains (k +:+ String "=" v) "=" = true.
Proof.
  induction k as [|c k IH];
    [change ("" +:+ String "=" v) with (String "=" v); reflexivity|].
  change (String c k +:+ String "=" v) with (String c (k +:+ String "=" v)).
  cbn [strings_Contains]. rewrite IH. apply orb_true_r.
Qed.

Lemma all_chars_app (p : ascii -> bool) (a b : string) :
  all_chars p (a +:+ b) = all_chars p a && all_chars p b.
Proof.
  induction a as [|c a IH]; [reflexivity|].
  change (String c a +:+ b) with (String c (a +:+ b)).
  cbn [all_chars]. by rewrite IH, andb_assoc.
Qed.

Lemma pair_is_no_numeral (k v : string) :
  strconv_ParseInt (k +:+ String "=" v) = None.
Proof.
  destruct (strconv_ParseInt (k +:+ String "=" v)) as [n|] eqn:Hp;
    [|reflexivity].
  apply strconv_ParseInt_decimal_numeral in Hp.
  unfold decimal_numeral in Hp.
  apply andb_true_iff in Hp as [_ Hd]. exfalso.
  assert (Hno : forall s, all_chars is_digit (s +:+ String "=" v) = false).
  { intros s. rewrite all_chars_app. cbn [all_chars].
    change (is_digit "=") with false. by rewrite andb_false_r. }
  destruct k as [|c k].
  - simpl in Hd. discriminate Hd.
  - change (String c k +:+ String "=" v) with (String c (k +:+ String "=" v))
      in Hd.
    assert (Hc : all_chars is_digit (k +:+ String "=" v) = true \/
                 all_chars is_digit (String c (k +:+ String "=" v)) = true).
    { destruct c as [[] [] [] [] [] [] [] []]; auto. }
    destruct Hc as [Hc|Hc].
    + by rewrite Hno in Hc.
    + change (String c (k +:+ String "=" v))
        with (String c k +:+ String "=" v) in Hc. by rewrite Hno in Hc.
Qed.

Section dashboard_filter.
Context {Q : Type} {engine_ : models.Queue Q} {tenants_ : models.TenantManager}.

(** X25.  The filter [k=v] of two words (ASCII, without white space or
    [=]) selects on one attribute: [Filter] is called with the criteria
    of [MessageID] 0 and the single pair [k], [v]. *)
Theorem Queue_page_filter_of_one_pair (queue k v : string) (q : Q) :
  all_chars is_word_char k = true ->
  all_chars is_word_char v = true ->
  dashboard.Queue (Queue_page queue (k +:+ "=" +:+ v)) q =
    let '(q1, queueStats) := models.Stats models.GetTenant queue q in
    let '(q2, filteredMessageIDs) :=
      models.Filter models.GetTenant queue
        {| models.FilterCriteria.MessageID := 0;
           models.FilterCriteria.KV := {[ k := v ]} |} q1 in
    let '(q3, messages) :=
      dashboard.Queue_loop models.GetTenant queue filteredMessageIDs q2 in
    (q3, inr (dashboard.Render_queue queue queueStats messages
                (k +:+ "=" +:+ v))).
Proof.
  intros Hk Hv.
  destruct (word_is_field k Hk) as [Hkf _].
  destruct (word_is_field v Hv) as [Hvf Hvs].
  change ("=" +:+ v) with (String "=" v).
  assert (Hfield : all_chars is_field_char (k +:+ String "=" v) = true).
  { rewrite all_chars_app. cbn [all_chars]. by rewrite Hkf, Hvf. }
  assert (Hne : k +:+ String "=" v <> "") by by destruct k.
  unfold dashboard.Queue, Queue_page, dashboard.c_Params, dashboard.c_Query.
  cbn [Page.Params Page.Query]. rewrite !lookup_singleton_eq.
  cbn [default from_option id]. unfold_handler.
  destruct (models.Stats models.GetTenant queue q) as [q1 queueStats].
  rewrite (strings_Fields_of_field _ Hne Hfield).
  cbn [dashboard.filter_fields]. unfold dashboard.filter_field.
  rewrite pair_is_no_numeral, strings_Contains_pair, strings_Split_pair, Hvs
    by done.
  cbn [lookup list_lookup].
  rewrite !strings_TrimSpace_of_field by done.
  cbn [models.FilterCriteria.MessageID models.FilterCriteria.KV].
  rewrite insert_empty.
  destruct (models.Filter _ _ _ q1) as [q2 ids].
  by destruct (dashboard.Queue_loop _ _ ids q2) as [q3 messages].
Qed.

End dashboard_filter.

(** ** The client test *)

Section client_test.
Context {Q : Type} {engine_ : models.Queue Q} {runtime_ : GoRuntime}.

Lemma send_eq (tenantId : Z) (target : string) (input : JSONObject.t) :
  test_js.send tenantId target input =
  sqs.Action (set_Body (Some input) (request target tenantId input)).
Proof. reflexivity. Qed.

(** X26.  [createOrGetQueue] against the adapter: when the tenant has a
    queue already, the function returns the URL of the first queue that
    the engine lists, whatever name it was asked for, and creates
    nothing; the [QueueNamePrefix] it sends is not looked at. *)
Theorem createOrGetQueue_takes_the_first_queue
    (tenantId : Z) (queueName first : string) (others : list string)
    (q q' : Q) :
  models.ListQueues tenantId q = (q', inr (first :: others)) ->
  test_js.createOrGetQueue tenantId queueName q =
    (q', inr (Some ("https://sqs.us-east-1.amazonaws.com/"
                      +:+ fmt_Sprintf_d tenantId +:+ "/" +:+ first), false)).
Proof.
  intros Hl. unfold test_js.createOrGetQueue.
  unfold mbind, Handler_bind at 1. rewrite send_eq.
  rewrite (Action_request "AmazonSQS.ListQueues" tenantId) by reflexivity.
  simpl. rewrite ListQueues_eq, Hl. reflexivity.
Qed.

(** X27.  [createOrGetQueue] against the adapter: when the tenant has no
    queue, the function asks [CreateQueue] for the name and returns the
    URL of the answer, or fails as [CreateQueue] does. *)
Theorem createOrGetQueue_creates_when_none
    (tenantId : Z) (queueName : string) (q q1 : Q) :
  models.ListQueues tenantId q = (q1, inr []) ->
  test_js.createOrGetQueue tenantId queueName q =
    match models.CreateQueue tenantId queueName q1 with
    | (q2, inl e) => (q2, inl e)
    | (q2, inr _) =>
        (q2, inr (Some ("https://sqs.us-east-1.amazonaws.com/"
                          +:+ fmt_Sprintf_d tenantId +:+ "/" +:+ queueName),
                  true))
    end.
Proof.
  intros Hl. unfold test_js.createOrGetQueue.
  unfold mbind, Handler_bind at 1. rewrite send_eq.
  rewrite (Action_request "AmazonSQS.ListQueues" tenantId) by reflexivity.
  simpl. rewrite ListQueues_eq, Hl.
  unfold mbind, Handler_bind. rewrite send_eq.
  rewrite (Action_request "AmazonSQS.CreateQueue" tenantId) by reflexivity.
  simpl. rewrite CreateQueue_eq. simpl.
  destruct (models.CreateQueue tenantId queueName q1) as [q2 [e|[]]];
    reflexivity.
Qed.

End client_test.

(** *** What the answers never carry *)

Section adapter_never.
Context {Q : Type} {engine_ : models.Queue Q} {runtime_ : GoRuntime}.

(** X18.  [ReceiveMessage] answers one message for each message that
    [Dequeue] returned, in the same order, with the bytes of the message
    as [Body], and it never fills [Attributes] or
    [MD5OfMessageAttributes]; [SendMessage] never fills
    [MD5OfMessageAttributes] or [SequenceNumber]. *)
Theorem answers_carry_no_system_attributes :
  (forall (c : Ctx.t) (tenantId : Z) (q q' : Q) (r : ReceiveMessageResponse.t),
     sqs.ReceiveMessage c tenantId q
       = (q', inr (JSON_ReceiveMessageResponse r)) ->
     exists (o : JSONObject.t) (messages : list models.Message.t),
       Ctx.Body c = Some o /\
       models.Dequeue tenantId (final_segment (JSONObject.QueueUrl o))
         (if JSONObject.MaxNumberOfMessages o =? 0 then 1
          else JSONObject.MaxNumberOfMessages o) q = (q', inr messages) /\
       Forall2
         (fun message m =>
            Message.Body m
              = string_of_list_byte (models.Message.Message message) /\
            Message.Attributes m = ∅ /\
            Message.MD5OfMessageAttributes m = "")
         messages (ReceiveMessageResponse.Messages r))
  /\
  (forall (c : Ctx.t) (tenantId : Z) (q q' : Q) (r : SendMessageResponse.t),
     sqs.SendMessage c tenantId q = (q', inr (JSON_SendMessageResponse r)) ->
     SendMessageResponse.MD5OfMessageAttributes r = "" /\
     SendMessageResponse.SequenceNumber r = "").
Proof.
  split.
  - intros c tenantId q q' r Hrun.
    apply ReceiveMessage_inv in Hrun as (o & messages & Hb & Hd & Hr).
    injection Hr as ->. exists o, messages. split; [exact Hb|].
    split; [exact Hd|]. simpl. rewrite ReceiveMessage_loop_spec. clear Hd.
    induction messages as [|message rest IH]; simpl; constructor; [|exact IH].
    by simpl.
  - intros c tenantId q q' r Hrun.
    apply SendMessage_inv in Hrun as (o & messageId & _ & _ & Hr).
    by injection Hr as ->.
Qed.

End adapter_never.

(** ** Worked examples, continued *)

Lemma authMiddleware_rejects_unauthenticated_witness :
  let c := unsigned_request "AmazonSQS.ListQueues" empty_object in
  (forall tenantId,
     ~ @sqs.authenticates single_tenant lenient_verifier c tenantId) /\
  exists e,
    @sqs.authMiddleware _ _ _ single_tenant lenient_verifier c three_queues
      = (three_queues, inl e).
Proof.
  intros c.
  assert (Hno : forall tenantId,
             ~ @sqs.authenticates single_tenant lenient_verifier c tenantId).
  { intros tenantId (r & awsHeader & secretKey & Hr & Hp & _).
    vm_compute in Hr. injection Hr as <-. vm_compute in Hp. discriminate Hp. }
  split; [exact Hno|].
  exact (@authMiddleware_rejects_unauthenticated _ _ _ single_tenant
           lenient_verifier c three_queues Hno).
Defined.

Lemma Action_method_not_implemented_witness :
  let c := request "AmazonSQS.GetQueueUrl" 1 empty_object in
  Ctx.ReqHeaders c !! "X-Amz-Target" = Some ["AmazonSQS.GetQueueUrl"] /\
  Ctx.Locals c !! "tenantId" = Some 1 /\
  ("AmazonSQS.GetQueueUrl" ∉ implemented_methods) /\
  sqs.Action c three_queues =
    (three_queues,
     inl (errors_New "SQS method AmazonSQS.GetQueueUrl not implemented")).
Proof.
  intros c.
  assert (Hh : Ctx.ReqHeaders c !! "X-Amz-Target"
               = Some ["AmazonSQS.GetQueueUrl"]) by reflexivity.
  assert (Hl : Ctx.Locals c !! "tenantId" = Some 1) by reflexivity.
  assert (Hout : "AmazonSQS.GetQueueUrl" ∉ implemented_methods).
  { exact (bool_decide_unpack
             ("AmazonSQS.GetQueueUrl" ∉ implemented_methods) I). }
  split; [exact Hh|split; [exact Hl|split; [exact Hout|]]].
  exact (Action_method_not_implemented c "AmazonSQS.GetQueueUrl" [] 1
           three_queues Hh Hl Hout).
Defined.

Lemma Action_rejects_malformed_body_witness :
  let c := set_Body None (request "AmazonSQS.SendMessage" 1 empty_object) in
  Ctx.ReqHeaders c !! "X-Amz-Target" = Some ["AmazonSQS.SendMessage"] /\
  Ctx.Locals c !! "tenantId" = Some 1 /\
  Ctx.Body c = None /\
  ("AmazonSQS.SendMessage" ∈ implemented_methods) /\
  "AmazonSQS.SendMessage" <> "AmazonSQS.ListQueues" /\
  sqs.Action c three_queues = (three_queues, inl json_SyntaxError).
Proof.
  intros c.
  assert (Hh : Ctx.ReqHeaders c !! "X-Amz-Target"
               = Some ["AmazonSQS.SendMessage"]) by reflexivity.
  assert (Hl : Ctx.Locals c !! "tenantId" = Some 1) by reflexivity.
  assert (Hb : Ctx.Body c = None) by reflexivity.
  assert (Hin : "AmazonSQS.SendMessage" ∈ implemented_methods)
    by exact (bool_decide_unpack
                ("AmazonSQS.SendMessage" ∈ implemented_methods) I).
  assert (Hne : "AmazonSQS.SendMessage" <> "AmazonSQS.ListQueues")
    by discriminate.
  split; [exact Hh|split; [exact Hl|split; [exact Hb|]]].
  split; [exact Hin|split; [exact Hne|]].
  exact (Action_rejects_malformed_body c "AmazonSQS.SendMessage" [] 1
           three_queues Hh Hl Hb Hin Hne).
Defined.

Lemma SendMessage_MessageId_is_a_ReceiptHandle_witness :
  let o := SendMessage_body q1_url "hello world" 0 hello_attributes in
  let c := request "AmazonSQS.SendMessage" 1 o in
  let o' := DeleteMessage_body q1_url "1" in
  let c' := request "AmazonSQS.DeleteMessage" 1 o' in
  Ctx.Body c = Some o /\
  sqs.SendMessage c 1 three_queues
    = (hello_sent, inr (JSON_SendMessageResponse hello_accepted)) /\
  Ctx.Body c' = Some o' /\
  JSONObject.ReceiptHandle o' = SendMessageResponse.MessageId hello_accepted /\
  final_segment (JSONObject.QueueUrl o')
    = final_segment (JSONObject.QueueUrl o) /\
  exists messageId : Z,
    models.Enqueue 1 (final_segment (JSONObject.QueueUrl o))
      (JSONObject.MessageBody o)
      (sqs.SendMessage_kv (JSONObject.MessageAttributes o))
      (JSONObject.DelaySeconds o) 30 three_queues
      = (hello_sent, inr messageId) /\
    (int64_min <= messageId <= int64_max ->
     sqs.DeleteMessage c' 1 hello_sent =
       match models.Delete 1 (final_segment (JSONObject.QueueUrl o))
               messageId hello_sent with
       | (q3, inl e) => (q3, inl e)
       | (q3, inr _) => (q3, inr NoBody)
       end).
Proof.
  intros o c o' c'.
  assert (Hb : Ctx.Body c = Some o) by reflexivity.
  assert (Hsend : sqs.SendMessage c 1 three_queues
                  = (hello_sent, inr (JSON_SendMessageResponse hello_accepted)))
    by (vm_compute; reflexivity).
  assert (Hb' : Ctx.Body c' = Some o') by reflexivity.
  assert (Hh : JSONObject.ReceiptHandle o'
               = SendMessageResponse.MessageId hello_accepted) by reflexivity.
  assert (Hu : final_segment (JSONObject.QueueUrl o')
               = final_segment (JSONObject.QueueUrl o)) by reflexivity.
  split; [exact Hb|split; [exact Hsend|split; [exact Hb'|]]].
  split; [exact Hh|split; [exact Hu|]].
  exact (SendMessage_MessageId_is_a_ReceiptHandle c c' o o' 1 three_queues
           hello_sent hello_sent hello_accepted Hb Hsend Hb' Hh Hu).
Defined.

Lemma DeleteMessage_rejects_other_handles_witness :
  let o := DeleteMessage_body q1_url "AQEBwJnKyrHigUMZj6rYigCgxlaS3SLy0a" in
  let c := request "AmazonSQS.DeleteMessage" 1 o in
  Ctx.Body c = Some o /\
  decimal_numeral (JSONObject.ReceiptHandle o) = false /\
  sqs.DeleteMessage c 1 hello_sent =
    (hello_sent, inl (strconv_NumError "AQEBwJnKyrHigUMZj6rYigCgxlaS3SLy0a")).
Proof.
  intros o c.
  assert (Hb : Ctx.Body c = Some o) by reflexivity.
  assert (Hd : decimal_numeral (JSONObject.ReceiptHandle o) = false)
    by reflexivity.
  split; [exact Hb|split; [exact Hd|]].
  exact (DeleteMessage_rejects_other_handles c o 1 hello_sent Hb Hd).
Defined.

Lemma CreateQueue_QueueUrl_names_the_queue_witness :
  let o := CreateQueue_body "q4" in
  let c := request "AmazonSQS.CreateQueue" 1 o in
  let q' := fst (sqs.CreateQueue c 1 three_queues) in
  let r := {| CreateQueueResponse.QueueUrl :=
                "https://sqs.us-east-1.amazonaws.com/1/q4" |} in
  Ctx.Body c = Some o /\
  has_slash (JSONObject.QueueName o) = false /\
  sqs.CreateQueue c 1 three_queues = (q', inr (JSON_CreateQueueResponse r)) /\
  models.CreateQueue 1 (JSONObject.QueueName o) three_queues = (q', inr tt) /\
  CreateQueueResponse.QueueUrl r =
    "https://sqs.us-east-1.amazonaws.com/" +:+ fmt_Sprintf_d 1
      +:+ "/" +:+ JSONObject.QueueName o /\
  sqs.queue_of_url (CreateQueueResponse.QueueUrl r)
    = inr (JSONObject.QueueName o).
Proof.
  intros o c q' r.
  assert (Hb : Ctx.Body c = Some o) by reflexivity.
  assert (Hn : has_slash (JSONObject.QueueName o) = false) by reflexivity.
  assert (Hrun : sqs.CreateQueue c 1 three_queues
                 = (q', inr (JSON_CreateQueueResponse r)))
    by (vm_compute; reflexivity).
  split; [exact Hb|split; [exact Hn|split; [exact Hrun|]]].
  exact (CreateQueue_QueueUrl_names_the_queue c o 1 three_queues q' r
           Hb Hn Hrun).
Defined.

Lemma CreateQueue_name_with_slash_witness :
  let o := CreateQueue_body "a/b" in
  let c := request "AmazonSQS.CreateQueue" 1 o in
  let q' := fst (sqs.CreateQueue c 1 three_queues) in
  let r := {| CreateQueueResponse.QueueUrl :=
                "https://sqs.us-east-1.amazonaws.com/1/a/b" |} in
  Ctx.Body c = Some o /\
  has_slash (JSONObject.QueueName o) = true /\
  sqs.CreateQueue c 1 three_queues = (q', inr (JSON_CreateQueueResponse r)) /\
  models.CreateQueue 1 (JSONObject.QueueName o) three_queues = (q', inr tt) /\
  sqs.queue_of_url (CreateQueueResponse.QueueUrl r)
    = inr (final_segment (JSONObject.QueueName o)) /\
  forall QueueUrl : string,
    sqs.queue_of_url QueueUrl <> inr (JSONObject.QueueName o).
Proof.
  intros o c q' r.
  assert (Hb : Ctx.Body c = Some o) by reflexivity.
  assert (Hn : has_slash (JSONObject.QueueName o) = true) by reflexivity.
  assert (Hrun : sqs.CreateQueue c 1 three_queues
                 = (q', inr (JSON_CreateQueueResponse r)))
    by (vm_compute; reflexivity).
  split; [exact Hb|split; [exact Hn|split; [exact Hrun|]]].
  exact (CreateQueue_name_with_slash c o 1 three_queues q' r Hb Hn Hrun).
Defined.

Lemma ListQueues_QueueUrls_name_the_queues_witness :
  let c := request "AmazonSQS.ListQueues" 1 empty_object in
  let r := {| ListQueuesResponse.QueueUrls :=
                ["https://sqs.us-east-1.amazonaws.com/1/q1";
                 "https://sqs.us-east-1.amazonaws.com/1/q2"] |} in
  sqs.ListQueues c 1 three_queues
    = (three_queues, inr (JSON_ListQueuesResponse r)) /\
  exists queues : list string,
    models.ListQueues 1 three_queues = (three_queues, inr queues) /\
    Forall2
      (fun queue QueueUrl =>
         QueueUrl = "https://sqs.us-east-1.amazonaws.com/"
                      +:+ fmt_Sprintf_d 1 +:+ "/" +:+ queue /\
         sqs.queue_of_url QueueUrl = inr (final_segment queue) /\
         (has_slash queue = false -> sqs.queue_of_url QueueUrl = inr queue))
      queues (ListQueuesResponse.QueueUrls r).
Proof.
  intros c r.
  assert (Hrun : sqs.ListQueues c 1 three_queues
                 = (three_queues, inr (JSON_ListQueuesResponse r)))
    by (vm_compute; reflexivity).
  split; [exact Hrun|].
  exact (ListQueues_QueueUrls_name_the_queues c 1 three_queues three_queues r
           Hrun).
Defined.

Lemma GetQueueAttributes_answers_one_attribute_witness :
  let o := GetQueueAttributes_body q1_url ["All"] in
  let c := request "AmazonSQS.GetQueueAttributes" 1 o in
  Ctx.Body c = Some o /\
  snd (sqs.GetQueueAttributes c 1 hello_sent) =
    inr (JSON_GetQueueAttributesResponse
           {| GetQueueAttributesResponse.Attributes :=
                {[ "ApproximateNumberOfMessages" := "1" ]} |}) /\
  exists (q' : engine.Store) (stats : models.QueueStats.t)
         (r : GetQueueAttributesResponse.t),
    models.Stats 1 (final_segment (JSONObject.QueueUrl o)) hello_sent
      = (q', stats) /\
    sqs.GetQueueAttributes c 1 hello_sent
      = (q', inr (JSON_GetQueueAttributesResponse r)) /\
    dom (GetQueueAttributesResponse.Attributes r)
      = {[ "ApproximateNumberOfMessages" ]} /\
    GetQueueAttributesResponse.Attributes r !! "ApproximateNumberOfMessages"
      = Some (fmt_Sprintf_d (models.QueueStats.TotalMessages stats)).
Proof.
  intros o c.
  assert (Hb : Ctx.Body c = Some o) by reflexivity.
  split; [exact Hb|split; [vm_compute; reflexivity|]].
  exact (GetQueueAttributes_answers_one_attribute c o 1 hello_sent Hb).
Defined.

Lemma PurgeQueue_always_reports_success_witness :
  let o := PurgeQueue_body q1_url in
  let c := request "AmazonSQS.PurgeQueue" 1 o in
  Ctx.Body c = Some o /\
  exists (q1 : engine.Store) (messages : list Z),
    models.Filter 1 (final_segment (JSONObject.QueueUrl o))
      models.FilterCriteria.zero hello_sent = (q1, messages) /\
    sqs.PurgeQueue c 1 hello_sent =
      (sqs.PurgeQueue_loop 1 (final_segment (JSONObject.QueueUrl o))
         messages q1,
       inr (JSON_PurgeQueueResponse {| PurgeQueueResponse.Success := true |})).
Proof.
  intros o c.
  assert (Hb : Ctx.Body c = Some o) by reflexivity.
  split; [exact Hb|].
  exact (PurgeQueue_always_reports_success c o 1 hello_sent Hb).
Defined.

Lemma request_touches_one_tenant_and_queue_witness :
  let o := SendMessage_body q1_url "m" 0 ∅ in
  let c := signed_request "AmazonSQS.SendMessage" "digest" o in
  let E2 := restricted 1 (String.eqb "q1") in
  Ctx.ReqHeaders c !! "X-Amz-Target" = Some ["AmazonSQS.SendMessage"] /\
  Ctx.Body c = Some o /\
  @sqs.authenticates single_tenant lenient_verifier c 1 /\
  same_for engine.queue E2 1 (addressed_queue "AmazonSQS.SendMessage" o) /\
  @sqs.authMiddleware _ engine.queue _ single_tenant lenient_verifier c
     three_queues
    = @sqs.authMiddleware _ E2 _ single_tenant lenient_verifier c three_queues.
Proof.
  intros o c E2.
  assert (Hh : Ctx.ReqHeaders c !! "X-Amz-Target"
               = Some ["AmazonSQS.SendMessage"]) by reflexivity.
  assert (Hb : Ctx.Body c = Some o) by reflexivity.
  assert (Hauth : @sqs.authenticates single_tenant lenient_verifier c 1).
  { exists c, (AWSHeader.mk "AKIDEXAMPLE" "us-east-1"), "secret".
    vm_compute. repeat split. }
  assert (Hs : same_for engine.queue E2 1
                 (addressed_queue "AmazonSQS.SendMessage" o)).
  { split; intros; reflexivity. }
  split; [exact Hh|split; [exact Hb|split; [exact Hauth|split; [exact Hs|]]]].
  exact (@request_touches_one_tenant_and_queue _ _ single_tenant
           lenient_verifier engine.queue E2 c o "AmazonSQS.SendMessage" [] 1
           three_queues Hh Hb Hauth Hs).
Defined.

Lemma shaded_attributes_plain :
  map_Forall (fun name _ => ~ ends_with name "_DataType") shaded_attributes.
Proof.
  unfold shaded_attributes.
  apply map_Forall_insert_2; [|apply map_Forall_singleton];
    intros Hends%strings_HasSuffix_spec; discriminate Hends.
Defined.

Lemma attributes_of_other_types_are_dropped_witness :
  map_Forall (fun name _ => ~ ends_with name "_DataType") shaded_attributes /\
  sqs.ReceiveMessage_attributes (sqs.SendMessage_kv shaded_attributes)
    = {[ "colour" := MessageAttribute.mk "red" [] [] [] "String" ]} /\
  sqs.ReceiveMessage_attributes (sqs.SendMessage_kv shaded_attributes)
    !! "shade" =
  match shaded_attributes !! "shade" with
  | Some v =>
      if supported_DataType (MessageAttributeValue.DataType v)
      then Some (received_attribute v) else None
  | None => None
  end.
Proof.
  split; [exact shaded_attributes_plain|split; [vm_compute; reflexivity|]].
  exact (attributes_of_other_types_are_dropped shaded_attributes "shade"
           shaded_attributes_plain).
Defined.

Lemma SendMessage_kv_in_any_order_witness :
  map_Forall (fun name _ => ~ ends_with name "_DataType") shaded_attributes /\
  @sqs.SendMessage_kv listing_runtime shaded_attributes
    = @sqs.SendMessage_kv reversed_runtime shaded_attributes.
Proof.
  split; [exact shaded_attributes_plain|].
  exact (SendMessage_kv_in_any_order listing_runtime reversed_runtime
           shaded_attributes shaded_attributes_plain).
Defined.

Lemma attribute_named_like_a_marker_witness :
  let attrs : gmap string MessageAttributeValue.t :=
    {[ "x" := String_attribute "1";
       "x" +:+ "_DataType" := String_attribute "Number" ]} in
  let received (R : GoRuntime) : option MessageAttribute.t :=
    @sqs.ReceiveMessage_attributes R (@sqs.SendMessage_kv R attrs) !! "x" in
  ~ ends_with "x" "_DataType" /\
  "Number" <> "String" /\
  (forall R : GoRuntime,
     received R = Some (MessageAttribute.mk "1" [] [] [] "String") \/
     received R = Some (sqs.typed_attribute "Number" "1")) /\
  received listing_runtime <> received reversed_runtime.
Proof.
  intros attrs received.
  assert (Hname : ~ ends_with "x" "_DataType").
  { intros Hends%strings_HasSuffix_spec. discriminate Hends. }
  assert (Hw : "Number" <> "String") by discriminate.
  split; [exact Hname|split; [exact Hw|]].
  exact (attribute_named_like_a_marker "x" "1" "Number" Hname Hw).
Defined.

Lemma SendMessage_reads_four_fields_witness :
  let o1 := JSONObject.mk q1_url "" "" "m" 0 ∅ "dedup-1" "group-1" [] [] 0 0 0
              "" "" ∅ ∅ in
  let o2 := SendMessage_body "q1" "m" 0 ∅ in
  let c1 := request "AmazonSQS.SendMessage" 1 o1 in
  let c2 := request "AmazonSQS.SendMessage" 1 o2 in
  Ctx.Body c1 = Some o1 /\
  Ctx.Body c2 = Some o2 /\
  final_segment (JSONObject.QueueUrl o1)
    = final_segment (JSONObject.QueueUrl o2) /\
  JSONObject.MessageBody o1 = JSONObject.MessageBody o2 /\
  JSONObject.DelaySeconds o1 = JSONObject.DelaySeconds o2 /\
  JSONObject.MessageAttributes o1 = JSONObject.MessageAttributes o2 /\
  sqs.SendMessage c1 1 three_queues = sqs.SendMessage c2 1 three_queues.
Proof.
  intros o1 o2 c1 c2.
  assert (Hb1 : Ctx.Body c1 = Some o1) by reflexivity.
  assert (Hb2 : Ctx.Body c2 = Some o2) by reflexivity.
  assert (Hu : final_segment (JSONObject.QueueUrl o1)
               = final_segment (JSONObject.QueueUrl o2)) by reflexivity.
  assert (Hm : JSONObject.MessageBody o1 = JSONObject.MessageBody o2)
    by reflexivity.
  assert (Hd : JSONObject.DelaySeconds o1 = JSONObject.DelaySeconds o2)
    by reflexivity.
  assert (Ha : JSONObject.MessageAttributes o1 = JSONObject.MessageAttributes o2)
    by reflexivity.
  repeat (split; [assumption|]).
  exact (SendMessage_reads_four_fields c1 c2 o1 o2 1 three_queues
           Hb1 Hb2 Hu Hm Hd Ha).
Defined.

Lemma ReceiveMessage_reads_two_fields_witness :
  let o1 := JSONObject.mk q1_url "" "" "" 0 ∅ "" "" ["All"] ["All"] 0 120 20
              "attempt-1" "" ∅ ∅ in
  let o2 := ReceiveMessage_body q1_url 1 0 in
  let c1 := request "AmazonSQS.ReceiveMessage" 1 o1 in
  let c2 := request "AmazonSQS.ReceiveMessage" 1 o2 in
  Ctx.Body c1 = Some o1 /\
  Ctx.Body c2 = Some o2 /\
  final_segment (JSONObject.QueueUrl o1)
    = final_segment (JSONObject.QueueUrl o2) /\
  (JSONObject.MaxNumberOfMessages o1 = JSONObject.MaxNumberOfMessages o2 \/
   (0 <= JSONObject.MaxNumberOfMessages o1 <= 1 /\
    0 <= JSONObject.MaxNumberOfMessages o2 <= 1)) /\
  sqs.ReceiveMessage c1 1 hello_sent = sqs.ReceiveMessage c2 1 hello_sent.
Proof.
  intros o1 o2 c1 c2.
  assert (Hb1 : Ctx.Body c1 = Some o1) by reflexivity.
  assert (Hb2 : Ctx.Body c2 = Some o2) by reflexivity.
  assert (Hu : final_segment (JSONObject.QueueUrl o1)
               = final_segment (JSONObject.QueueUrl o2)) by reflexivity.
  assert (Hn : JSONObject.MaxNumberOfMessages o1
                 = JSONObject.MaxNumberOfMessages o2 \/
               (0 <= JSONObject.MaxNumberOfMessages o1 <= 1 /\
                0 <= JSONObject.MaxNumberOfMessages o2 <= 1)).
  { right. simpl. lia. }
  repeat (split; [assumption|]).
  exact (ReceiveMessage_reads_two_fields c1 c2 o1 o2 1 hello_sent
           Hb1 Hb2 Hu Hn).
Defined.

Lemma CreateQueue_reads_the_name_only_witness :
  let o1 := JSONObject.mk "" "q4" "" "" 0 ∅ "" "" [] [] 0 0 0 "" ""
              {[ "FifoQueue" := "true" ]} {[ "team" := "a" ]} in
  let o2 := CreateQueue_body "q4" in
  let c1 := request "AmazonSQS.CreateQueue" 1 o1 in
  let c2 := request "AmazonSQS.CreateQueue" 1 o2 in
  Ctx.Body c1 = Some o1 /\
  Ctx.Body c2 = Some o2 /\
  JSONObject.QueueName o1 = JSONObject.QueueName o2 /\
  sqs.CreateQueue c1 1 three_queues = sqs.CreateQueue c2 1 three_queues.
Proof.
  intros o1 o2 c1 c2.
  assert (Hb1 : Ctx.Body c1 = Some o1) by reflexivity.
  assert (Hb2 : Ctx.Body c2 = Some o2) by reflexivity.
  assert (Hn : JSONObject.QueueName o1 = JSONObject.QueueName o2)
    by reflexivity.
  repeat (split; [assumption|]).
  exact (CreateQueue_reads_the_name_only c1 c2 o1 o2 1 three_queues
           Hb1 Hb2 Hn).
Defined.

Lemma answers_carry_no_system_attributes_witness :
  let send := request "AmazonSQS.SendMessage" 1
                (SendMessage_body q1_url "hello world" 0 hello_attributes) in
  let receive := request "AmazonSQS.ReceiveMessage" 1
                   (JSONObject.mk q1_url "" "" "" 0 ∅ "" "" ["All"] ["All"]
                      1 0 0 "" "" ∅ ∅) in
  let q' := fst (sqs.ReceiveMessage receive 1 hello_sent) in
  (sqs.ReceiveMessage receive 1 hello_sent
     = (q', inr (JSON_ReceiveMessageResponse hello_received)) /\
   exists (o : JSONObject.t) (messages : list models.Message.t),
     Ctx.Body receive = Some o /\
     models.Dequeue 1 (final_segment (JSONObject.QueueUrl o))
       (if JSONObject.MaxNumberOfMessages o =? 0 then 1
        else JSONObject.MaxNumberOfMessages o) hello_sent
       = (q', inr messages) /\
     Forall2
       (fun message m =>
          Message.Body m
            = string_of_list_byte (models.Message.Message message) /\
          Message.Attributes m = ∅ /\
          Message.MD5OfMessageAttributes m = "")
       messages (ReceiveMessageResponse.Messages hello_received))
  /\
  (sqs.SendMessage send 1 three_queues
     = (hello_sent, inr (JSON_SendMessageResponse hello_accepted)) /\
   SendMessageResponse.MD5OfMessageAttributes hello_accepted = "" /\
   SendMessageResponse.SequenceNumber hello_accepted = "").
Proof.
  intros send receive q'.
  assert (Er : sqs.ReceiveMessage receive 1 hello_sent
               = (q', inr (JSON_ReceiveMessageResponse hello_received)))
    by (vm_compute; reflexivity).
  assert (Es : sqs.SendMessage send 1 three_queues
               = (hello_sent, inr (JSON_SendMessageResponse hello_accepted)))
    by (vm_compute; reflexivity).
  split; (split; [assumption|]).
  - exact (proj1 answers_carry_no_system_attributes receive 1 hello_sent q' _
             Er).
  - exact (proj2 answers_carry_no_system_attributes send 1 three_queues
             hello_sent _ Es).
Defined.

Lemma Queues_Count_adds_the_Counts_witness :
  let c := Page.mk ∅ ∅ ∅ in
  let counts (visible : Z) :=
    [(models.Delayed, 0); (models.Visible, visible); (models.Leased, 0);
     (models.Tombstoned, 0)] in
  let queueDetails :=
    [ {| dashboard.QueueDetails.Name := "q1";
         dashboard.QueueDetails.Stats :=
           {| models.QueueStats.Counts := counts 1;
              models.QueueStats.TotalMessages := 1 |};
         dashboard.QueueDetails.Count := 1 |};
      {| dashboard.QueueDetails.Name := "q2";
         dashboard.QueueDetails.Stats :=
           {| models.QueueStats.Counts := counts 0;
              models.QueueStats.TotalMessages := 0 |};
         dashboard.QueueDetails.Count := 0 |} ] in
  @dashboard.Queues _ engine.queue single_tenant c hello_sent
    = (hello_sent, inr (dashboard.Render_queues queueDetails None)) /\
  Forall
    (fun d =>
       let total :=
         sum_of_Counts
           (models.QueueStats.Counts (dashboard.QueueDetails.Stats d)) in
       dashboard.QueueDetails.Count d = wrap64 total /\
       (int64_min <= total <= int64_max ->
        dashboard.QueueDetails.Count d = total))
    queueDetails.
Proof.
  intros c counts queueDetails.
  assert (Hrun : @dashboard.Queues _ engine.queue single_tenant c hello_sent
                 = (hello_sent, inr (dashboard.Render_queues queueDetails None)))
    by (vm_compute; reflexivity).
  split; [exact Hrun|].
  exact (@Queues_Count_adds_the_Counts _ engine.queue single_tenant c
           hello_sent hello_sent queueDetails None Hrun).
Defined.

Lemma Message_page_of_a_numeral_witness :
  let c := Message_page "q1" "1" in
  dashboard.c_Params c "message" = fmt_Sprintf_d 1 /\
  int64_min <= 1 <= int64_max /\
  snd (@dashboard.Message _ engine.queue single_tenant c hello_sent)
    = inr (dashboard.Render_message "q1"
             {| models.Message.ID := 1;
                models.Message.Message := list_byte_of_string "hello world";
                models.Message.KeyValues :=
                  sqs.SendMessage_kv hello_attributes |}) /\
  @dashboard.Message _ engine.queue single_tenant c hello_sent =
    match @models.Peek _ engine.queue (@models.GetTenant single_tenant)
            (dashboard.c_Params c "queue") 1 hello_sent with
    | (q', Some m) =>
        (q', inr (dashboard.Render_message (dashboard.c_Params c "queue") m))
    | (q', None) => (q', inl (errors_New "Message not found"))
    end.
Proof.
  intros c.
  assert (Hm : dashboard.c_Params c "message" = fmt_Sprintf_d 1) by reflexivity.
  assert (Hn : int64_min <= 1 <= int64_max) by (unfold int64_min, int64_max; lia).
  split; [exact Hm|split; [exact Hn|split; [vm_compute; reflexivity|]]].
  exact (@Message_page_of_a_numeral _ engine.queue single_tenant c 1 hello_sent
           Hm Hn).
Defined.

Lemma Message_page_rejects_other_ids_witness :
  let c := Message_page "q1" "abc" in
  decimal_numeral (dashboard.c_Params c "message") = false /\
  @dashboard.Message _ engine.queue single_tenant c hello_sent =
    (hello_sent, inl (strconv_NumError (dashboard.c_Params c "message"))).
Proof.
  intros c.
  assert (Hd : decimal_numeral (dashboard.c_Params c "message") = false)
    by reflexivity.
  split; [exact Hd|].
  exact (@Message_page_rejects_other_ids _ engine.queue single_tenant c
           hello_sent Hd).
Defined.

Lemma dashboard_serves_one_tenant_witness :
  let c := Queue_page "q1" "" in
  let E2 := restricted 1 (fun _ => true) in
  (forall queue,
     same_for engine.queue E2 (@models.GetTenant single_tenant) queue) /\
  @dashboard.Queues _ engine.queue single_tenant c hello_sent
    = @dashboard.Queues _ E2 single_tenant c hello_sent /\
  @dashboard.Queue _ engine.queue single_tenant c hello_sent
    = @dashboard.Queue _ E2 single_tenant c hello_sent /\
  @dashboard.Message _ engine.queue single_tenant c hello_sent
    = @dashboard.Message _ E2 single_tenant c hello_sent /\
  @dashboard.NewQueue _ engine.queue single_tenant c hello_sent
    = @dashboard.NewQueue _ E2 single_tenant c hello_sent /\
  @dashboard.DeleteQueue _ engine.queue single_tenant c hello_sent
    = @dashboard.DeleteQueue _ E2 single_tenant c hello_sent.
Proof.
  intros c E2.
  assert (Hs : forall queue,
             same_for engine.queue E2 (@models.GetTenant single_tenant) queue).
  { intros queue. split; intros; reflexivity. }
  split; [exact Hs|].
  exact (@dashboard_serves_one_tenant _ single_tenant engine.queue E2 c
           hello_sent Hs).
Defined.

Lemma Queue_page_filter_of_one_pair_witness :
  all_chars is_word_char "n" = true /\
  all_chars is_word_char "42" = true /\
  snd (@dashboard.Queue _ engine.queue single_tenant
         (Queue_page "q1" "n=42") hello_sent)
    = inr (dashboard.Render_queue "q1"
             {| models.QueueStats.Counts :=
                  [(models.Delayed, 0); (models.Visible, 1);
                   (models.Leased, 0); (models.Tombstoned, 0)];
                models.QueueStats.TotalMessages := 1 |}
             [ {| models.Message.ID := 1;
                  models.Message.Message := list_byte_of_string "hello world";
                  models.Message.KeyValues :=
                    sqs.SendMessage_kv hello_attributes |} ]
             "n=42") /\
  @dashboard.Queue _ engine.queue single_tenant
     (Queue_page "q1" ("n" +:+ "=" +:+ "42")) hello_sent =
    let '(q1, queueStats) :=
      @models.Stats _ engine.queue (@models.GetTenant single_tenant) "q1"
        hello_sent in
    let '(q2, filteredMessageIDs) :=
      @models.Filter _ engine.queue (@models.GetTenant single_tenant) "q1"
        {| models.FilterCriteria.MessageID := 0;
           models.FilterCriteria.KV := {[ "n" := "42" ]} |} q1 in
    let '(q3, messages) :=
      @dashboard.Queue_loop _ engine.queue (@models.GetTenant single_tenant)
        "q1" filteredMessageIDs q2 in
    (q3, inr (dashboard.Render_queue "q1" queueStats messages
                ("n" +:+ "=" +:+ "42"))).
Proof.
  assert (Hk : all_chars is_word_char "n" = true) by reflexivity.
  assert (Hv : all_chars is_word_char "42" = true) by reflexivity.
  split; [exact Hk|split; [exact Hv|split; [vm_compute; reflexivity|]]].
  exact (@Queue_page_filter_of_one_pair _ engine.queue single_tenant
           "q1" "n" "42" hello_sent Hk Hv).
Defined.

Lemma createOrGetQueue_takes_the_first_queue_witness :
  models.ListQueues 1 three_queues = (three_queues, inr ("q1" :: ["q2"])) /\
  test_js.createOrGetQueue 1 "my-test-que-for-testing" three_queues =
    (three_queues,
     inr (Some ("https://sqs.us-east-1.amazonaws.com/"
                  +:+ fmt_Sprintf_d 1 +:+ "/" +:+ "q1"), false)).
Proof.
  assert (Hl : models.ListQueues 1 three_queues
               = (three_queues, inr ("q1" :: ["q2"])))
    by (vm_compute; reflexivity).
  split; [exact Hl|].
  exact (createOrGetQueue_takes_the_first_queue 1 "my-test-que-for-testing"
           "q1" ["q2"] three_queues three_queues Hl).
Defined.

Lemma createOrGetQueue_creates_when_none_witness :
  models.ListQueues 3 three_queues = (three_queues, inr []) /\
  snd (test_js.createOrGetQueue 3 "my-test-que-for-testing" three_queues)
    = inr (Some "https://sqs.us-east-1.amazonaws.com/3/my-test-que-for-testing",
           true) /\
  test_js.createOrGetQueue 3 "my-test-que-for-testing" three_queues =
    match models.CreateQueue 3 "my-test-que-for-testing" three_queues with
    | (q2, inl e) => (q2, inl e)
    | (q2, inr _) =>
        (q2, inr (Some ("https://sqs.us-east-1.amazonaws.com/"
                          +:+ fmt_Sprintf_d 3 +:+ "/"
                          +:+ "my-test-que-for-testing"),
                  true))
    end.
Proof.
  assert (Hl : models.ListQueues 3 three_queues = (three_queues, inr []))
    by (vm_compute; reflexivity).
  split; [exact Hl|split; [vm_compute; reflexivity|]].
  exact (createOrGetQueue_creates_when_none 3 "my-test-que-for-testing"
           three_queues three_queues Hl).
Defined.

(** ** Queues from creation to deletion *)

Lemma final_segment_queue_url (tenantId : Z) (queue : string) :
  final_segment (sqs.queue_url tenantId queue) = final_segment queue.
Proof.
  pose proof (queue_of_url_queue_url tenantId queue) as E.
  rewrite queue_of_url_final_segment in E.
  exact (f_equal (fun x => match x with inr s => s | inl _ => queue end) E).
Qed.

Section queue_life.
Context {Q : Type} {engine_ : models.Queue Q} {runtime_ : GoRuntime}.

(** X28.  [DeleteQueue] with the [QueueUrl] that [CreateQueue] answered
    for a name without a slash asks the engine to delete the queue of
    that name: it answers with the error of the engine's [DeleteQueue]
    or, when it succeeds, with the empty [DeleteQueueResponse]. *)
Theorem DeleteQueue_of_the_created_queue
    (c c' : Ctx.t) (o o' : JSONObject.t) (tenantId : Z) (q q1 q2 : Q)
    (r : CreateQueueResponse.t) :
  Ctx.Body c = Some o ->
  has_slash (JSONObject.QueueName o) = false ->
  sqs.CreateQueue c tenantId q = (q1, inr (JSON_CreateQueueResponse r)) ->
  Ctx.Body c' = Some o' ->
  JSONObject.QueueUrl o' = CreateQueueResponse.QueueUrl r ->
  sqs.DeleteQueue c' tenantId q2 =
    match models.DeleteQueue tenantId (JSONObject.QueueName o) q2 with
    | (q3, inl e) => (q3, inl e)
    | (q3, inr _) => (q3, inr DeleteQueueResponse)
    end.
Proof.
  intros Hb Hn Hrun Hb' Hu.
  rewrite CreateQueue_eq, Hb in Hrun.
  destruct (models.CreateQueue _ _ q) as [q0 [e|[]]]; [discriminate|].
  assert (Hr : CreateQueueResponse.QueueUrl r
               = sqs.queue_url tenantId (JSONObject.QueueName o))
    by (injection Hrun as _ <-; reflexivity).
  clear Hrun. rewrite DeleteQueue_eq, Hb', Hu, Hr.
  by rewrite final_segment_queue_url, (final_segment_id _ Hn).
Qed.

Context {tenants_ : models.TenantManager}.

(** X29.  The dashboard manages the queues of the tenant of [GetTenant]
    as the adapter does for a request of that tenant: [NewQueue] with a
    form value and [CreateQueue] with the same [QueueName], and
    [DeleteQueue] of the dashboard with a route parameter and
    [DeleteQueue] of the adapter with a [QueueUrl] ending in the same
    name, leave the engine in the same state and fail with the same
    error; the one redirects to [/] where the other answers. *)
Theorem dashboard_queues_as_the_adapter
    (c : Page.t) (a : Ctx.t) (o : JSONObject.t) (q : Q) :
  Ctx.Body a = Some o ->
  (JSONObject.QueueName o = dashboard.c_FormValue c "queue" ->
   dashboard.NewQueue c q =
     match sqs.CreateQueue a models.GetTenant q with
     | (q', inl e) => (q', inl e)
     | (q', inr _) => (q', inr (dashboard.Redirect "/"))
     end) /\
  (final_segment (JSONObject.QueueUrl o) = dashboard.c_Params c "queue" ->
   dashboard.DeleteQueue c q =
     match sqs.DeleteQueue a models.GetTenant q with
     | (q', inl e) => (q', inl e)
     | (q', inr _) => (q', inr (dashboard.Redirect "/"))
     end).
Proof.
  intros Hb. split; intros Hn.
  - rewrite CreateQueue_eq, Hb, Hn.
    unfold dashboard.NewQueue. unfold_handler.
    by destruct (models.CreateQueue _ _ q) as [q' [e|[]]].
  - rewrite DeleteQueue_eq, Hb, Hn.
    unfold dashboard.DeleteQueue. unfold_handler.
    by destruct (models.DeleteQueue _ _ q) as [q' [e|[]]].
Qed.

End queue_life.

Lemma DeleteQueue_of_the_created_queue_witness :
  let o := CreateQueue_body "q4" in
  let c := request "AmazonSQS.CreateQueue" 1 o in
  let q1 := fst (sqs.CreateQueue c 1 three_queues) in
  let r := {| CreateQueueResponse.QueueUrl :=
                "https://sqs.us-east-1.amazonaws.com/1/q4" |} in
  let o' := DeleteQueue_body "https://sqs.us-east-1.amazonaws.com/1/q4" in
  let c' := request "AmazonSQS.DeleteQueue" 1 o' in
  Ctx.Body c = Some o /\
  has_slash (JSONObject.QueueName o) = false /\
  sqs.CreateQueue c 1 three_queues = (q1, inr (JSON_CreateQueueResponse r)) /\
  Ctx.Body c' = Some o' /\
  JSONObject.QueueUrl o' = CreateQueueResponse.QueueUrl r /\
  sqs.DeleteQueue c' 1 q1 = (three_queues, inr DeleteQueueResponse) /\
  sqs.DeleteQueue c' 1 q1 =
    match models.DeleteQueue 1 (JSONObject.QueueName o) q1 with
    | (q3, inl e) => (q3, inl e)
    | (q3, inr _) => (q3, inr DeleteQueueResponse)
    end.
Proof.
  intros o c q1 r o' c'.
  assert (Hb : Ctx.Body c = Some o) by reflexivity.
  assert (Hn : has_slash (JSONObject.QueueName o) = false) by reflexivity.
  assert (Hrun : sqs.CreateQueue c 1 three_queues
                 = (q1, inr (JSON_CreateQueueResponse r)))
    by (vm_compute; reflexivity).
  assert (Hb' : Ctx.Body c' = Some o') by reflexivity.
  assert (Hu : JSONObject.QueueUrl o' = CreateQueueResponse.QueueUrl r)
    by reflexivity.
  split; [exact Hb|split; [exact Hn|split; [exact Hrun|]]].
  split; [exact Hb'|split; [exact Hu|split; [vm_compute; reflexivity|]]].
  exact (DeleteQueue_of_the_created_queue c c' o o' 1 three_queues q1 q1 r
           Hb Hn Hrun Hb' Hu).
Defined.

Lemma dashboard_queues_as_the_adapter_witness :
  let c := Queue_form "q1" in
  let o := JSONObject.mk q1_url "q1" "" "" 0 ∅ "" "" [] [] 0 0 0 "" "" ∅ ∅ in
  let a := request "AmazonSQS.DeleteQueue" 1 o in
  Ctx.Body a = Some o /\
  JSONObject.QueueName o = dashboard.c_FormValue c "queue" /\
  final_segment (JSONObject.QueueUrl o) = dashboard.c_Params c "queue" /\
  @dashboard.NewQueue _ engine.queue single_tenant c three_queues =
    match sqs.CreateQueue a (@models.GetTenant single_tenant) three_queues with
    | (q', inl e) => (q', inl e)
    | (q', inr _) => (q', inr (dashboard.Redirect "/"))
    end /\
  @dashboard.DeleteQueue _ engine.queue single_tenant c three_queues =
    match sqs.DeleteQueue a (@models.GetTenant single_tenant) three_queues with
    | (q', inl e) => (q', inl e)
    | (q', inr _) => (q', inr (dashboard.Redirect "/"))
    end.
Proof.
  intros c o a.
  assert (Hb : Ctx.Body a = Some o) by reflexivity.
  assert (Hn : JSONObject.QueueName o = dashboard.c_FormValue c "queue")
    by reflexivity.
  assert (Hu : final_segment (JSONObject.QueueUrl o)
               = dashboard.c_Params c "queue") by reflexivity.
  split; [exact Hb|split; [exact Hn|split; [exact Hu|]]].
  pose proof (@dashboard_queues_as_the_adapter _ engine.queue single_tenant
                c a o three_queues Hb) as [Hnew Hdel].
  exact (conj (Hnew Hn) (Hdel Hu)).
Defined.
